(** * Digital deposit slips and signed receipts

    A shallow embedding of the token lifecycle engine
    ([app/services/drid_service.py], the reject endpoint of
    [app/api/v1/deposit_slips.py]) and of the receipt signing subsystem
    ([app/services/signature_service.py], [app/services/receipt_service.py],
    [app/services/qr_service.py]), with the properties the specification
    states about them; then of what these files hold besides (the expiry
    sweep, the list of active slips, receipt look-up by transaction, the
    hash on the QR code), of the one-time passwords
    ([app/services/otp_service.py]) and of the status and OTP endpoints,
    with properties of the life cycle as a whole, of the signature service
    in use and of the canonical payload as an encoding.

    Conventions.
    - A [datetime] is a number of microseconds since the epoch, the
      resolution of Python's [datetime]; a [timedelta] is a difference of two.
    - A [Decimal] is carried as its decimal text: no arithmetic is done on
      amounts in the modelled code, they are only copied and printed.
    - Strings double as byte strings ([str.encode('utf-8')] is the identity).
    - A table is the list of its rows; [query.filter(p).first()] is the first
      row satisfying [p].  A [db.commit()] makes the pending attribute writes
      of the session's objects the stored rows, so each service function takes
      the stored tables and returns the tables it leaves behind.
    - [datetime.utcnow()], [uuid.uuid4()] and the outcome of file and
      database I/O are inputs of the functions that use them.  Of the
      state of the session one thing is kept: whether a failure has left it
      usable ([failure]).  Text is taken to be valid UTF-8. *)

From Stdlib Require Import ZArith String Ascii List Bool Lia.
From stdpp Require Import base option strings pretty list gmap.

Local Open Scope Z_scope.
Local Open Scope string_scope.

Abbreviation datetime := Z.
Abbreviation Decimal := string.

(** ** Python helpers *)

(** [sep.join(parts)] *)
Fixpoint join (sep : string) (parts : list string) : string :=
  match parts with
  | [] => ""
  | [p] => p
  | p :: rest => p ++ sep ++ join sep rest
  end.

(** [d.get(key, default)] on a dictionary with string values *)
Definition dict_get (d : gmap string string) (key default : string) : string :=
  match d !! key with
  | Some v => v
  | None => default
  end.

(** [s.replace(old, new)] for a one-character [old] *)
Fixpoint replace_char (old : ascii) (new : string) (s : string) : string :=
  match s with
  | EmptyString => EmptyString
  | String c s' =>
      if Ascii.eqb c old then new ++ replace_char old new s'
      else String c (replace_char old new s')
  end.

(** [s.startswith(prefix)] *)
Definition startswith (s pre : string) : bool := String.prefix pre s.

(** [query.filter(p).first()] *)
Definition first {A : Type} (p : A -> bool) (rows : list A) : option A :=
  List.find p rows.

(** The row [first p] returns, rewritten by [f]: the effect of committing
    attribute writes made on the object a query returned. *)
Fixpoint update_first {A : Type} (p : A -> bool) (f : A -> A) (rows : list A)
  : list A :=
  match rows with
  | [] => []
  | r :: rows' => if p r then f r :: rows' else r :: update_first p f rows'
  end.

(** [timedelta(minutes=m)] *)
Definition minutes (m : Z) : Z := m * 60 * 1000000.

(** [int(td.total_seconds())]: whole seconds, truncated towards zero *)
Definition total_seconds_int (td : Z) : Z := Z.quot td 1000000.

(** What a call leaves: a returned value, or an exception it raised
    (carrying [str(e)]). *)
Inductive outcome (A : Type) : Type :=
| Returned (a : A)
| Raised (exc : string).
Arguments Returned {A} a.
Arguments Raised {A} exc.

(** What makes a step of a service fail, as far as its caller can tell the
    cases apart: an exception that leaves the session usable, so that the
    next [db.commit()] goes through; or a flush that failed, after which the
    session refuses every further commit until it is rolled back, which no
    service does.  [exc] is [str(e)] of the exception raised; [pending] is
    that of the error the next commit then raises. *)
Inductive failure : Type :=
| Exception (exc : string)
| FlushError (exc pending : string).

Definition failure_str (f : failure) : string :=
  match f with
  | Exception exc | FlushError exc _ => exc
  end.

(** ** Models ([app/models]) *)

Module TransactionType.
Inductive t : Type :=
| CASH_DEPOSIT | CHEQUE_DEPOSIT | PAY_ORDER | BILL_PAYMENT | FUND_TRANSFER.

#[global] Instance kind_eq_dec : EqDecision t.
Proof. solve_decision. Defined.

Definition value (x : t) : string :=
  match x with
  | CASH_DEPOSIT => "CASH_DEPOSIT"
  | CHEQUE_DEPOSIT => "CHEQUE_DEPOSIT"
  | PAY_ORDER => "PAY_ORDER"
  | BILL_PAYMENT => "BILL_PAYMENT"
  | FUND_TRANSFER => "FUND_TRANSFER"
  end.

(** [TransactionType[name]]; [None] is the [KeyError]. *)
Definition of_name (name : string) : option t :=
  if name =? "CASH_DEPOSIT" then Some CASH_DEPOSIT
  else if name =? "CHEQUE_DEPOSIT" then Some CHEQUE_DEPOSIT
  else if name =? "PAY_ORDER" then Some PAY_ORDER
  else if name =? "BILL_PAYMENT" then Some BILL_PAYMENT
  else if name =? "FUND_TRANSFER" then Some FUND_TRANSFER
  else None.
End TransactionType.

Module TransactionCategory.
Inductive t : Type := DEPOSIT | WITHDRAWAL | TRANSFER | PAYMENT.
End TransactionCategory.

Module TransactionStatus.
Inductive t : Type :=
| INITIATED | PENDING | PROCESSING | COMPLETED | FAILED | CANCELLED | REVERSED.
End TransactionStatus.

Module Channel.
Inductive t : Type := WHATSAPP | WEB | MOBILE | USSD | BRANCH.

Definition of_name (name : string) : option t :=
  if name =? "WHATSAPP" then Some WHATSAPP
  else if name =? "WEB" then Some WEB
  else if name =? "MOBILE" then Some MOBILE
  else if name =? "USSD" then Some USSD
  else if name =? "BRANCH" then Some BRANCH
  else None.
End Channel.

Module ReceiptType.
Inductive t : Type := DIGITAL | PRINTED | EMAIL.

Definition of_name (name : string) : option t :=
  if name =? "DIGITAL" then Some DIGITAL
  else if name =? "PRINTED" then Some PRINTED
  else if name =? "EMAIL" then Some EMAIL
  else None.
End ReceiptType.

Module DepositSlipStatus.
(** Modelled from the spec: the declaration of the [DepositSlipStatus]
    enumeration is not part of the sources at hand; its members are the eight
    states the specification lists and the services name, each with its own
    name as value, as for every other enumeration of the models. *)
Inductive t : Type :=
| INITIATED | RETRIEVED | VERIFIED | PROCESSING
| COMPLETED | EXPIRED | CANCELLED | REJECTED.

#[global] Instance status_eq_dec : EqDecision t.
Proof. solve_decision. Defined.

Definition value (x : t) : string :=
  match x with
  | INITIATED => "INITIATED"
  | RETRIEVED => "RETRIEVED"
  | VERIFIED => "VERIFIED"
  | PROCESSING => "PROCESSING"
  | COMPLETED => "COMPLETED"
  | EXPIRED => "EXPIRED"
  | CANCELLED => "CANCELLED"
  | REJECTED => "REJECTED"
  end.

(** [status in [...]] *)
Definition is_in (x : t) (l : list t) : bool := bool_decide (x ∈ l).
End DepositSlipStatus.

Module Customer.
Record t : Type := Build {
  id : string;
  cnic : string;
  full_name : string;
  phone : string;
  email : option string
}.
End Customer.

Module Account.
Record t : Type := Build {
  id : string;
  account_number : string;
  customer_id : string;
  branch_id : option string
}.
End Account.

Module DigitalDepositSlip.
(** Modelled from the spec: the declaration of the [DigitalDepositSlip] model
    is not part of the sources at hand; its columns are those of the
    DepositToken of the specification, under the names the services and the
    endpoints read and write them by. *)
Record t : Type := Build {
  id : string;  (* primary key (uuid) *)
  drid : string;
  status : DepositSlipStatus.t;
  expires_at : datetime;
  validity_minutes : Z;
  transaction_type : TransactionType.t;
  customer_cnic : string;
  customer_account : string;
  amount : Decimal;
  currency : string;
  narration : option string;
  depositor_name : string;
  depositor_cnic : option string;
  depositor_phone : string;
  depositor_relationship : option string;
  channel : Channel.t;
  device_info : option string;  (* JSON blob *)
  ip_address : option string;
  customer_id : string;
  customer_name : string;
  customer_phone : string;
  customer_email : option string;
  account_id : string;
  branch_id : option string;
  qr_code_data : string;
  extra_data : option string;  (* JSON blob: cheque, bill payment, ... *)
  created_at : datetime;
  validation_attempts : Z;
  last_validation_at : option datetime;
  retrieved_at : option datetime;
  retrieved_by : option string;
  verified_at : option datetime;
  verified_by : option string;
  completed_at : option datetime;
  completed_by : option string;
  transaction_id : option string;
  cancelled_at : option datetime;
  cancelled_by : option string;
  cancellation_reason : option string;
  rejection_reason : option string
}.

Definition set_status (v : DepositSlipStatus.t) (r : t) : t :=
  let 'Build x0 x1 _ x3 x4 x5 x6 x7 x8 x9 x10 x11 x12 x13 x14 x15 x16 x17 x18
    x19 x20 x21 x22 x23 x24 x25 x26 x27 x28 x29 x30 x31 x32 x33 x34 x35 x36
    x37 x38 x39 := r in
  Build x0 x1 v x3 x4 x5 x6 x7 x8 x9 x10 x11 x12 x13 x14 x15 x16 x17 x18 x19
    x20 x21 x22 x23 x24 x25 x26 x27 x28 x29 x30 x31 x32 x33 x34 x35 x36 x37
    x38 x39.

Definition set_validation_attempts (v : Z) (r : t) : t :=
  let 'Build x0 x1 x2 x3 x4 x5 x6 x7 x8 x9 x10 x11 x12 x13 x14 x15 x16 x17 x18
    x19 x20 x21 x22 x23 x24 x25 x26 _ x28 x29 x30 x31 x32 x33 x34 x35 x36 x37
    x38 x39 := r in
  Build x0 x1 x2 x3 x4 x5 x6 x7 x8 x9 x10 x11 x12 x13 x14 x15 x16 x17 x18 x19
    x20 x21 x22 x23 x24 x25 x26 v x28 x29 x30 x31 x32 x33 x34 x35 x36 x37 x38
    x39.

Definition set_last_validation_at (v : option datetime) (r : t) : t :=
  let 'Build x0 x1 x2 x3 x4 x5 x6 x7 x8 x9 x10 x11 x12 x13 x14 x15 x16 x17 x18
    x19 x20 x21 x22 x23 x24 x25 x26 x27 _ x29 x30 x31 x32 x33 x34 x35 x36 x37
    x38 x39 := r in
  Build x0 x1 x2 x3 x4 x5 x6 x7 x8 x9 x10 x11 x12 x13 x14 x15 x16 x17 x18 x19
    x20 x21 x22 x23 x24 x25 x26 x27 v x29 x30 x31 x32 x33 x34 x35 x36 x37 x38
    x39.

Definition set_retrieved_at (v : option datetime) (r : t) : t :=
  let 'Build x0 x1 x2 x3 x4 x5 x6 x7 x8 x9 x10 x11 x12 x13 x14 x15 x16 x17 x18
    x19 x20 x21 x22 x23 x24 x25 x26 x27 x28 _ x30 x31 x32 x33 x34 x35 x36 x37
    x38 x39 := r in
  Build x0 x1 x2 x3 x4 x5 x6 x7 x8 x9 x10 x11 x12 x13 x14 x15 x16 x17 x18 x19
    x20 x21 x22 x23 x24 x25 x26 x27 x28 v x30 x31 x32 x33 x34 x35 x36 x37 x38
    x39.

Definition set_retrieved_by (v : option string) (r : t) : t :=
  let 'Build x0 x1 x2 x3 x4 x5 x6 x7 x8 x9 x10 x11 x12 x13 x14 x15 x16 x17 x18
    x19 x20 x21 x22 x23 x24 x25 x26 x27 x28 x29 _ x31 x32 x33 x34 x35 x36 x37
    x38 x39 := r in
  Build x0 x1 x2 x3 x4 x5 x6 x7 x8 x9 x10 x11 x12 x13 x14 x15 x16 x17 x18 x19
    x20 x21 x22 x23 x24 x25 x26 x27 x28 x29 v x31 x32 x33 x34 x35 x36 x37 x38
    x39.

Definition set_verified_at (v : option datetime) (r : t) : t :=
  let 'Build x0 x1 x2 x3 x4 x5 x6 x7 x8 x9 x10 x11 x12 x13 x14 x15 x16 x17 x18
    x19 x20 x21 x22 x23 x24 x25 x26 x27 x28 x29 x30 _ x32 x33 x34 x35 x36 x37
    x38 x39 := r in
  Build x0 x1 x2 x3 x4 x5 x6 x7 x8 x9 x10 x11 x12 x13 x14 x15 x16 x17 x18 x19
    x20 x21 x22 x23 x24 x25 x26 x27 x28 x29 x30 v x32 x33 x34 x35 x36 x37 x38
    x39.

Definition set_verified_by (v : option string) (r : t) : t :=
  let 'Build x0 x1 x2 x3 x4 x5 x6 x7 x8 x9 x10 x11 x12 x13 x14 x15 x16 x17 x18
    x19 x20 x21 x22 x23 x24 x25 x26 x27 x28 x29 x30 x31 _ x33 x34 x35 x36 x37
    x38 x39 := r in
  Build x0 x1 x2 x3 x4 x5 x6 x7 x8 x9 x10 x11 x12 x13 x14 x15 x16 x17 x18 x19
    x20 x21 x22 x23 x24 x25 x26 x27 x28 x29 x30 x31 v x33 x34 x35 x36 x37 x38
    x39.

Definition set_completed_at (v : option datetime) (r : t) : t :=
  let 'Build x0 x1 x2 x3 x4 x5 x6 x7 x8 x9 x10 x11 x12 x13 x14 x15 x16 x17 x18
    x19 x20 x21 x22 x23 x24 x25 x26 x27 x28 x29 x30 x31 x32 _ x34 x35 x36 x37
    x38 x39 := r in
  Build x0 x1 x2 x3 x4 x5 x6 x7 x8 x9 x10 x11 x12 x13 x14 x15 x16 x17 x18 x19
    x20 x21 x22 x23 x24 x25 x26 x27 x28 x29 x30 x31 x32 v x34 x35 x36 x37 x38
    x39.

Definition set_completed_by (v : option string) (r : t) : t :=
  let 'Build x0 x1 x2 x3 x4 x5 x6 x7 x8 x9 x10 x11 x12 x13 x14 x15 x16 x17 x18
    x19 x20 x21 x22 x23 x24 x25 x26 x27 x28 x29 x30 x31 x32 x33 _ x35 x36 x37
    x38 x39 := r in
  Build x0 x1 x2 x3 x4 x5 x6 x7 x8 x9 x10 x11 x12 x13 x14 x15 x16 x17 x18 x19
    x20 x21 x22 x23 x24 x25 x26 x27 x28 x29 x30 x31 x32 x33 v x35 x36 x37 x38
    x39.

Definition set_transaction_id (v : option string) (r : t) : t :=
  let 'Build x0 x1 x2 x3 x4 x5 x6 x7 x8 x9 x10 x11 x12 x13 x14 x15 x16 x17 x18
    x19 x20 x21 x22 x23 x24 x25 x26 x27 x28 x29 x30 x31 x32 x33 x34 _ x36 x37
    x38 x39 := r in
  Build x0 x1 x2 x3 x4 x5 x6 x7 x8 x9 x10 x11 x12 x13 x14 x15 x16 x17 x18 x19
    x20 x21 x22 x23 x24 x25 x26 x27 x28 x29 x30 x31 x32 x33 x34 v x36 x37 x38
    x39.

Definition set_cancelled_at (v : option datetime) (r : t) : t :=
  let 'Build x0 x1 x2 x3 x4 x5 x6 x7 x8 x9 x10 x11 x12 x13 x14 x15 x16 x17 x18
    x19 x20 x21 x22 x23 x24 x25 x26 x27 x28 x29 x30 x31 x32 x33 x34 x35 _ x37
    x38 x39 := r in
  Build x0 x1 x2 x3 x4 x5 x6 x7 x8 x9 x10 x11 x12 x13 x14 x15 x16 x17 x18 x19
    x20 x21 x22 x23 x24 x25 x26 x27 x28 x29 x30 x31 x32 x33 x34 x35 v x37 x38
    x39.

Definition set_cancelled_by (v : option string) (r : t) : t :=
  let 'Build x0 x1 x2 x3 x4 x5 x6 x7 x8 x9 x10 x11 x12 x13 x14 x15 x16 x17 x18
    x19 x20 x21 x22 x23 x24 x25 x26 x27 x28 x29 x30 x31 x32 x33 x34 x35 x36 _
    x38 x39 := r in
  Build x0 x1 x2 x3 x4 x5 x6 x7 x8 x9 x10 x11 x12 x13 x14 x15 x16 x17 x18 x19
    x20 x21 x22 x23 x24 x25 x26 x27 x28 x29 x30 x31 x32 x33 x34 x35 x36 v x38
    x39.

Definition set_cancellation_reason (v : option string) (r : t) : t :=
  let 'Build x0 x1 x2 x3 x4 x5 x6 x7 x8 x9 x10 x11 x12 x13 x14 x15 x16 x17 x18
    x19 x20 x21 x22 x23 x24 x25 x26 x27 x28 x29 x30 x31 x32 x33 x34 x35 x36
    x37 _ x39 := r in
  Build x0 x1 x2 x3 x4 x5 x6 x7 x8 x9 x10 x11 x12 x13 x14 x15 x16 x17 x18 x19
    x20 x21 x22 x23 x24 x25 x26 x27 x28 x29 x30 x31 x32 x33 x34 x35 x36 x37 v
    x39.

Definition set_rejection_reason (v : option string) (r : t) : t :=
  let 'Build x0 x1 x2 x3 x4 x5 x6 x7 x8 x9 x10 x11 x12 x13 x14 x15 x16 x17 x18
    x19 x20 x21 x22 x23 x24 x25 x26 x27 x28 x29 x30 x31 x32 x33 x34 x35 x36
    x37 x38 _ := r in
  Build x0 x1 x2 x3 x4 x5 x6 x7 x8 x9 x10 x11 x12 x13 x14 x15 x16 x17 x18 x19
    x20 x21 x22 x23 x24 x25 x26 x27 x28 x29 x30 x31 x32 x33 x34 x35 x36 x37
    x38 v.
End DigitalDepositSlip.

Module Transaction.
Record t : Type := Build {
  id : string;  (* primary key (uuid) *)
  reference_number : string;
  transaction_type : TransactionType.t;
  transaction_category : TransactionCategory.t;
  customer_id : string;
  customer_cnic : string;
  customer_name : string;
  customer_account : string;
  depositor_cnic : option string;
  depositor_name : string;
  depositor_phone : string;
  amount : Decimal;
  currency : string;
  exchange_rate : Decimal;
  amount_in_base_currency : Decimal;
  fee : Decimal;
  tax : Decimal;
  total_amount : Decimal;
  status : TransactionStatus.t;
  channel : Channel.t;
  narration : string;
  branch_id : option string;
  processed_by : string;
  completed_at : option datetime;
  extra_data : option string;
  created_at : datetime
}.

Definition set_amount (v : Decimal) (r : t) : t :=
  let 'Build x0 x1 x2 x3 x4 x5 x6 x7 x8 x9 x10 _ x12 x13 x14 x15 x16 x17 x18
    x19 x20 x21 x22 x23 x24 x25 := r in
  Build x0 x1 x2 x3 x4 x5 x6 x7 x8 x9 x10 v x12 x13 x14 x15 x16 x17 x18 x19
    x20 x21 x22 x23 x24 x25.
End Transaction.

Module Receipt.
(** The columns the services use.  Modelled from the spec: the five signature
    columns, from [digital_signature] on, are not declared in the models file
    at hand; they are those of the SignedReceipt of the specification, under
    the names [receipt_service.py] writes them by. *)
Record t : Type := Build {
  id : string;  (* primary key (uuid) *)
  transaction_id : string;  (* foreign key transactions.id *)
  receipt_number : string;
  receipt_type : ReceiptType.t;
  verification_qr_data : string;
  verification_url : string;
  is_verified : bool;
  verified_count : Z;
  last_verified_at : option datetime;
  created_at : datetime;
  digital_signature : option string;
  signature_hash : option string;
  signature_timestamp : option datetime;
  signature_algorithm : string;
  is_signature_valid : bool
}.

Definition set_is_verified (v : bool) (r : t) : t :=
  let 'Build x0 x1 x2 x3 x4 x5 _ x7 x8 x9 x10 x11 x12 x13 x14 := r in
  Build x0 x1 x2 x3 x4 x5 v x7 x8 x9 x10 x11 x12 x13 x14.

Definition set_verified_count (v : Z) (r : t) : t :=
  let 'Build x0 x1 x2 x3 x4 x5 x6 _ x8 x9 x10 x11 x12 x13 x14 := r in
  Build x0 x1 x2 x3 x4 x5 x6 v x8 x9 x10 x11 x12 x13 x14.

Definition set_last_verified_at (v : option datetime) (r : t) : t :=
  let 'Build x0 x1 x2 x3 x4 x5 x6 x7 _ x9 x10 x11 x12 x13 x14 := r in
  Build x0 x1 x2 x3 x4 x5 x6 x7 v x9 x10 x11 x12 x13 x14.

Definition set_is_signature_valid (v : bool) (r : t) : t :=
  let 'Build x0 x1 x2 x3 x4 x5 x6 x7 x8 x9 x10 x11 x12 x13 _ := r in
  Build x0 x1 x2 x3 x4 x5 x6 x7 x8 x9 x10 x11 x12 x13 v.
End Receipt.

(** The stored tables. *)
Record Database : Type := Build_Database {
  customers : list Customer.t;
  accounts : list Account.t;
  deposit_slips : list DigitalDepositSlip.t;
  transactions : list Transaction.t;
  receipts : list Receipt.t
}.

Definition set_deposit_slips (v : list DigitalDepositSlip.t) (db : Database)
  : Database :=
  Build_Database (customers db) (accounts db) v (transactions db) (receipts db).

Definition set_transactions (v : list Transaction.t) (db : Database)
  : Database :=
  Build_Database (customers db) (accounts db) (deposit_slips db) v (receipts db).

Definition set_receipts (v : list Receipt.t) (db : Database) : Database :=
  Build_Database (customers db) (accounts db) (deposit_slips db)
    (transactions db) v.

(** ** The libraries the services call

    The [cryptography], [base64], [hashlib], [qrcode] and [datetime]
    functions used by the services.  They are not part of the repository and
    are taken as they come. *)

Class Platform : Type := {
  PrivateKey : Type;
  PublicKey : Type;
  (** [private_key.sign(data, padding.PKCS1v15(), hashes.SHA256())] *)
  rsa_sign : PrivateKey -> string -> string;
  (** [public_key.verify(signature, data, padding.PKCS1v15(),
      hashes.SHA256())]: [false] stands for [InvalidSignature]. *)
  rsa_verify : PublicKey -> string -> string -> bool;
  (** [base64.b64encode(b).decode('utf-8')] *)
  b64encode : string -> string;
  (** [base64.b64decode(s)]; [inr] carries the text of the error raised. *)
  b64decode : string -> string + string;
  (** [hashlib.sha256(b).hexdigest()] *)
  sha256_hexdigest : string -> string;
  (** [dt.isoformat()] *)
  isoformat : datetime -> string;
  (** [datetime.fromisoformat(s)]; [None] is the [ValueError]. *)
  fromisoformat : string -> option datetime;
  (** [dt.strftime(fmt)] *)
  strftime : datetime -> string -> string;
  (** The PNG of a QR code carrying [json.dumps(data)], base64 encoded;
      [None] when the [qrcode] library raises. *)
  qr_png_base64 : gmap string string -> option string;
  (** [settings.PUBLIC_URL] *)
  PUBLIC_URL : option string
}.

(** What loading or generating the key files produces when
    [SignatureService.initialize] runs. *)
Inductive key_files `{Platform} : Type :=
| KeysReady (private_key : PrivateKey) (public_key : PublicKey)
| KeysPrivateOnly (private_key : PrivateKey) (exc : string)
| KeysError (exc : string).

(** ** [app/services/signature_service.py] *)

Module SignatureService.
Section WithPlatform.
Context `{Platform}.

(** The class attributes [_private_key], [_public_key], [_initialized]. *)
Record state : Type := Build_state {
  _private_key : option PrivateKey;
  _public_key : option PublicKey;
  _initialized : bool
}.

Definition initial : state := Build_state None None false.

Definition initialize (files : key_files) (cls : state) : state * bool :=
  if _initialized cls then (cls, true)
  else
    match files with
    | KeysReady sk pk => (Build_state (Some sk) (Some pk) true, true)
    | KeysPrivateOnly sk _ =>
        (Build_state (Some sk) (_public_key cls) false, false)
    | KeysError _ => (cls, false)
    end.

Definition _create_signing_payload (receipt_data : gmap string string)
  : string :=
  let canonical_parts := [
    "receipt_number:" ++ dict_get receipt_data "receipt_number" "";
    "transaction_reference:" ++ dict_get receipt_data "reference_number" "";
    "amount:" ++ dict_get receipt_data "amount" "";
    "currency:" ++ dict_get receipt_data "currency" "PKR";
    "customer_name:" ++ dict_get receipt_data "customer_name" "";
    "customer_account:" ++ dict_get receipt_data "customer_account" "";
    "transaction_type:" ++ dict_get receipt_data "transaction_type" "";
    "transaction_date:" ++ dict_get receipt_data "transaction_date" "";
    "branch_id:" ++ dict_get receipt_data "branch_id" "";
    "teller_id:" ++ dict_get receipt_data "processed_by" ""
  ] in
  join "|" canonical_parts.

(** [sign_receipt] returns [(signature_b64, payload_hash, timestamp_iso)],
    all [None] when the service cannot sign. *)
Definition sign_receipt (files : key_files) (utcnow : datetime) (cls : state)
    (receipt_data : gmap string string)
  : state * (option string * option string * option string) :=
  let '(cls, ready) :=
    if _initialized cls then (cls, true) else initialize files cls in
  if negb ready then (cls, (None, None, None))
  else
    let timestamp_iso := isoformat utcnow ++ "Z" in
    let receipt_data_with_ts :=
      <["signing_timestamp" := timestamp_iso]> receipt_data in
    let payload := _create_signing_payload receipt_data_with_ts in
    let payload_bytes := payload in
    let payload_hash := sha256_hexdigest payload_bytes in
    match _private_key cls with
    | Some private_key =>
        let signature := rsa_sign private_key payload_bytes in
        let signature_b64 := b64encode signature in
        (cls, (Some signature_b64, Some payload_hash, Some timestamp_iso))
    | None => (cls, (None, None, None))
    end.

Definition msg_not_available : string := "Signature service not available".
Definition msg_authentic : string :=
  "Signature verified successfully - Receipt is authentic".
Definition msg_tampered : string :=
  "INVALID SIGNATURE - Receipt may have been tampered with".
Definition msg_error (exc : string) : string := "Verification error: " ++ exc.

(** [str(e)] of the [AttributeError] raised by [None.verify(...)] *)
Definition exc_no_public_key : string :=
  "'NoneType' object has no attribute 'verify'".

Definition verify_signature (files : key_files) (cls : state)
    (receipt_data : gmap string string) (signature_b64 : string)
    (signing_timestamp : string)
  : state * (bool * string) :=
  let '(cls, ready) :=
    if _initialized cls then (cls, true) else initialize files cls in
  if negb ready then (cls, (false, msg_not_available))
  else
    let receipt_data_with_ts :=
      <["signing_timestamp" := signing_timestamp]> receipt_data in
    let payload := _create_signing_payload receipt_data_with_ts in
    let payload_bytes := payload in
    match b64decode signature_b64 with
    | inr exc => (cls, (false, msg_error exc))
    | inl signature =>
        match _public_key cls with
        | None => (cls, (false, msg_error exc_no_public_key))
        | Some public_key =>
            if rsa_verify public_key signature payload_bytes
            then (cls, (true, msg_authentic))
            else (cls, (false, msg_tampered))
        end
    end.

End WithPlatform.
End SignatureService.

(** ** [app/services/qr_service.py] *)

Module QRService.
Section WithPlatform.
Context `{Platform}.

Definition DEFAULT_VERIFICATION_URL : string :=
  "https://rcpt-demo.edimensionz.com/verify".

Definition get_verification_base_url : string :=
  match PUBLIC_URL with
  | Some url => if url =? "" then DEFAULT_VERIFICATION_URL else url ++ "/verify"
  | None => DEFAULT_VERIFICATION_URL
  end.

Definition generate_verification_hash (receipt_number reference_number : string)
    (amount : Decimal) (customer_name : string) (transaction_date : datetime)
  : string :=
  let data :=
    receipt_number ++ ":" ++ reference_number ++ ":" ++ amount ++ ":"
      ++ customer_name ++ ":" ++ isoformat transaction_date in
  String.substring 0 16 (sha256_hexdigest data).

Definition generate_qr_data (receipt_number reference_number : string)
    (amount : Decimal) (currency customer_name : string)
    (transaction_date : datetime)
  : gmap string string :=
  let verification_hash :=
    generate_verification_hash receipt_number reference_number amount
      customer_name transaction_date in
  let base_url := get_verification_base_url in
  let verification_url :=
    base_url ++ "/" ++ receipt_number ++ "?h=" ++ verification_hash in
  <["rn" := receipt_number]>
  (<["ref" := reference_number]>
  (<["amt" := amount]>
  (<["cur" := currency]>
  (<["cn" := customer_name]>
  (<["dt" := strftime transaction_date "%Y-%m-%d %H:%M"]>
  (<["url" := verification_url]>
  (<["h" := verification_hash]> ∅))))))).

Definition generate_qr_code_base64 (data : gmap string string) : string :=
  match qr_png_base64 data with
  | Some base64_qr => "data:image/png;base64," ++ base64_qr
  | None => ""
  end.

End WithPlatform.
End QRService.

(** ** [app/services/receipt_service.py] *)

Module ReceiptService.
Section WithPlatform.
Context `{Platform}.

(** The inputs [create_receipt] draws from its surroundings. *)
Record env : Type := Build_env {
  uuid8 : string;          (* [str(uuid.uuid4())[:8].upper()] *)
  new_id : string;         (* primary key given to the new row *)
  now : datetime;          (* [datetime.now()], the local clock *)
  utcnow : datetime;       (* [datetime.utcnow()] *)
  files : key_files;       (* the key files, should the service initialize *)
  (* the failure, if any, that ends [create_receipt] before the row is
     stored: an exception raised while the receipt is put together, or the
     failed flush of its own commit *)
  fault : option failure
}.

Definition generate_receipt_number (e : env) : string :=
  let date_part := strftime (now e) "%Y%m%d" in
  let unique_part := uuid8 e in
  "RCP-" ++ date_part ++ "-" ++ unique_part.

(** The dictionary both [create_receipt] and [verify_receipt_signature]
    build from a receipt number and the transaction's columns. *)
Definition receipt_data_of (receipt_number : string)
    (transaction : Transaction.t) : gmap string string :=
  <["receipt_number" := receipt_number]>
  (<["reference_number" := Transaction.reference_number transaction]>
  (<["amount" := Transaction.amount transaction]>
  (<["currency" := Transaction.currency transaction]>
  (<["customer_name" := Transaction.customer_name transaction]>
  (<["customer_account" := Transaction.customer_account transaction]>
  (<["transaction_type" :=
       TransactionType.value (Transaction.transaction_type transaction)]>
  (<["transaction_date" := isoformat (Transaction.created_at transaction)]>
  (<["branch_id" := default "" (Transaction.branch_id transaction)]>
  (<["processed_by" := Transaction.processed_by transaction]> ∅))))))))).

Definition create_receipt (e : env) (sig : SignatureService.state)
    (db : Database) (transaction : Transaction.t) (receipt_type : string)
  : SignatureService.state * Database * outcome Receipt.t :=
  let receipt_number := generate_receipt_number e in
  let qr_data :=
    QRService.generate_qr_data receipt_number
      (Transaction.reference_number transaction)
      (Transaction.amount transaction) (Transaction.currency transaction)
      (Transaction.customer_name transaction)
      (Transaction.created_at transaction) in
  let qr_code_base64 := QRService.generate_qr_code_base64 qr_data in
  let verification_url := dict_get qr_data "url" "" in
  let receipt_data := receipt_data_of receipt_number transaction in
  let '(sig, (signature, signature_hash, signature_timestamp)) :=
    SignatureService.sign_receipt (files e) (utcnow e) sig receipt_data in
  let sig_timestamp_dt :=
    match signature_timestamp with
    | Some ts =>
        if ts =? "" then None
        else
          match fromisoformat (replace_char "Z" "+00:00" ts) with
          | Some dt => Some dt
          | None => Some (utcnow e)
          end
    | None => None
    end in
  match ReceiptType.of_name receipt_type with
  | None => (sig, db, Raised ("'" ++ receipt_type ++ "'"))
  | Some rtype =>
      let receipt :=
        Receipt.Build (new_id e) (Transaction.id transaction) receipt_number
          rtype qr_code_base64 verification_url false 0 None (utcnow e)
          signature signature_hash sig_timestamp_dt "RSA-SHA256"
          (bool_decide (signature ≠ None)) in
      match fault e with
      | Some f => (sig, db, Raised (failure_str f))
      | None => (sig, set_receipts (receipts db ++ [receipt]) db, Returned receipt)
      end
  end.

Definition by_receipt_number (receipt_number : string) (r : Receipt.t) : bool :=
  Receipt.receipt_number r =? receipt_number.

Definition verify_receipt (utcnow : datetime) (db : Database)
    (receipt_number : string)
  : Database * (option Receipt.t * bool * string) :=
  match first (by_receipt_number receipt_number) (receipts db) with
  | None => (db, (None, false, "Receipt not found"))
  | Some receipt =>
      let receipt :=
        Receipt.set_is_verified true
          (Receipt.set_last_verified_at (Some utcnow)
             (Receipt.set_verified_count (Receipt.verified_count receipt + 1)
                receipt)) in
      let db :=
        set_receipts
          (update_first (by_receipt_number receipt_number) (fun _ => receipt)
             (receipts db)) db in
      (db, (Some receipt, true, "Receipt verified successfully"))
  end.

Definition msg_not_signed : string := "Receipt was not digitally signed".

Definition verify_receipt_signature (files : key_files)
    (sig : SignatureService.state) (db : Database) (receipt_number : string)
  : SignatureService.state * Database * (bool * string * option Receipt.t) :=
  match first (by_receipt_number receipt_number) (receipts db) with
  | None => (sig, db, (false, "Receipt not found", None))
  | Some receipt =>
      match Receipt.digital_signature receipt with
      | None => (sig, db, (false, msg_not_signed, Some receipt))
      | Some digital_signature =>
          if digital_signature =? "" then
            (sig, db, (false, msg_not_signed, Some receipt))
          else
            match
              first (fun t => Transaction.id t =? Receipt.transaction_id receipt)
                (transactions db)
            with
            | None => (sig, db, (false, "Transaction data not found", Some receipt))
            | Some transaction =>
                let receipt_data :=
                  receipt_data_of (Receipt.receipt_number receipt) transaction in
                match Receipt.signature_timestamp receipt with
                | None =>
                    (sig, db, (false, "Signature timestamp missing", Some receipt))
                | Some ts =>
                    let signing_timestamp := isoformat ts ++ "Z" in
                    let '(sig, (is_valid, message)) :=
                      SignatureService.verify_signature files sig receipt_data
                        digital_signature signing_timestamp in
                    if bool_decide (Receipt.is_signature_valid receipt ≠ is_valid)
                    then
                      let receipt :=
                        Receipt.set_is_signature_valid is_valid receipt in
                      (sig,
                       set_receipts
                         (update_first (by_receipt_number receipt_number)
                            (fun _ => receipt) (receipts db)) db,
                       (is_valid, message, Some receipt))
                    else (sig, db, (is_valid, message, Some receipt))
                end
            end
      end
  end.

End WithPlatform.
End ReceiptService.

(** [s.lower()] on ASCII text *)
Definition lower_char (c : ascii) : ascii :=
  let n := nat_of_ascii c in
  if (Nat.leb 65 n && Nat.leb n 90)%bool then ascii_of_nat (n + 32) else c.

Fixpoint lower (s : string) : string :=
  match s with
  | EmptyString => EmptyString
  | String c s' => String (lower_char c) (lower s')
  end.

(** [x or default] on an optional string *)
Definition or_else (x : option string) (default : string) : string :=
  match x with
  | Some s => if s =? "" then default else s
  | None => default
  end.

(** [app/schemas/deposit_slip.py] *)
Record DRIDValidationResult : Type := Build_DRIDValidationResult {
  is_valid : bool;
  is_expired : bool;
  is_used : bool;
  is_cancelled : bool;
  status : string;
  message : string;
  time_remaining_seconds : option Z
}.

(** ** [app/services/drid_service.py] *)

Module DRIDService.
Import DepositSlipStatus.
Section WithPlatform.
Context `{Platform}.

Definition DEFAULT_VALIDITY_MINUTES : Z := 60.
Definition DRID_PREFIX : string := "DRID".

(** [unique_part] is [str(uuid.uuid4())[:6].upper()]. *)
Definition generate_drid (utcnow : datetime) (unique_part : string) : string :=
  let date_part := strftime utcnow "%Y%m%d" in
  DRID_PREFIX ++ "-" ++ date_part ++ "-" ++ unique_part.

Definition generate_qr_code_for_drid (utcnow : datetime) (drid : string)
    (amount : Decimal) (customer_name : string) : string :=
  let qr_data : gmap string string :=
    <["type" := "DRID"]>
    (<["drid" := drid]>
    (<["amount" := amount]>
    (<["customer" := customer_name]>
    (<["generated_at" := isoformat utcnow]> ∅)))) in
  QRService.generate_qr_code_base64 qr_data.

Definition by_drid (drid : string) (s : DigitalDepositSlip.t) : bool :=
  DigitalDepositSlip.drid s =? drid.

(** [db.commit()] after attribute writes on the slip [by_drid drid] found. *)
Definition commit_slip (drid : string) (slip : DigitalDepositSlip.t)
    (db : Database) : Database :=
  set_deposit_slips
    (update_first (by_drid drid) (fun _ => slip) (deposit_slips db)) db.

(** The filter of the "existing active deposit slip" query. *)
Definition is_active_for (utcnow : datetime) (customer_cnic customer_account : string)
    (s : DigitalDepositSlip.t) : bool :=
  (DigitalDepositSlip.customer_cnic s =? customer_cnic)
  && (DigitalDepositSlip.customer_account s =? customer_account)
  && is_in (DigitalDepositSlip.status s) [INITIATED; RETRIEVED; VERIFIED]
  && (DigitalDepositSlip.expires_at s >? utcnow)%Z.

(** The loop that draws DRIDs until one is not taken; [draws] are the
    successive [unique_part]s the generator yields.  [None]: every draw
    supplied was taken, the loop would go on. *)
Fixpoint unique_drid (utcnow : datetime) (db : Database) (draws : list string)
  : option string :=
  match draws with
  | [] => None
  | unique_part :: draws' =>
      let drid := generate_drid utcnow unique_part in
      match first (by_drid drid) (deposit_slips db) with
      | Some _ => unique_drid utcnow db draws'
      | None => Some drid
      end
  end.

Record create_env : Type := Build_create_env {
  create_utcnow : datetime;
  create_draws : list string;   (* successive [str(uuid.uuid4())[:6].upper()] *)
  create_new_id : string        (* primary key given to the new row *)
}.

Definition create_deposit_slip (e : create_env) (db : Database)
    (transaction_type customer_cnic customer_account : string)
    (amount : Decimal) (currency : string) (narration : option string)
    (depositor_name depositor_cnic depositor_phone : option string)
    (depositor_relationship : option string) (channel : string)
    (device_info ip_address : option string) (validity_minutes : option Z)
    (additional_data : option string)
  : option (Database * outcome (option DigitalDepositSlip.t * option string)) :=
  let utcnow := create_utcnow e in
  let validity :=
    match validity_minutes with
    | Some v => if (v =? 0)%Z then DEFAULT_VALIDITY_MINUTES else v
    | None => DEFAULT_VALIDITY_MINUTES
    end in
  match first (fun c => Customer.cnic c =? customer_cnic) (customers db) with
  | None =>
      Some (db, Returned
        (None, Some ("Customer with CNIC " ++ customer_cnic ++ " not found")))
  | Some customer =>
  match
    first (fun a => Account.account_number a =? customer_account) (accounts db)
  with
  | None =>
      Some (db, Returned
        (None, Some ("Account " ++ customer_account ++ " not found")))
  | Some account =>
  if negb (Account.customer_id account =? Customer.id customer) then
    Some (db, Returned
      (None, Some "Account does not belong to the specified customer"))
  else
  match
    first (is_active_for utcnow customer_cnic customer_account)
      (deposit_slips db)
  with
  | Some existing =>
      Some (db, Returned
        (None, Some ("EXISTING_SLIP:" ++ DigitalDepositSlip.drid existing)))
  | None =>
  match unique_drid utcnow db (create_draws e) with
  | None => None
  | Some drid =>
  let expires_at := (utcnow + minutes validity)%Z in
  let qr_code_data :=
    generate_qr_code_for_drid utcnow drid amount (Customer.full_name customer) in
  match TransactionType.of_name transaction_type with
  | None => Some (db, Raised ("'" ++ transaction_type ++ "'"))
  | Some ttype =>
  match Channel.of_name channel with
  | None => Some (db, Raised ("'" ++ channel ++ "'"))
  | Some chan =>
  let deposit_slip :=
    DigitalDepositSlip.Build (create_new_id e) drid INITIATED expires_at
      validity ttype customer_cnic customer_account amount currency narration
      (or_else depositor_name (Customer.full_name customer)) depositor_cnic
      (or_else depositor_phone (Customer.phone customer))
      depositor_relationship chan device_info ip_address
      (Customer.id customer) (Customer.full_name customer)
      (Customer.phone customer) (Customer.email customer) (Account.id account)
      (Account.branch_id account) qr_code_data additional_data utcnow 0 None
      None None None None None None None None None None None in
  Some (set_deposit_slips (deposit_slips db ++ [deposit_slip]) db,
        Returned (Some deposit_slip, None))
  end end end end end end.

(** The two clock reads of a call, for [last_validation_at] and for [now],
    are taken at one instant. *)
Definition validate_drid (utcnow : datetime) (db : Database) (drid : string)
  : Database * DRIDValidationResult :=
  match first (by_drid drid) (deposit_slips db) with
  | None =>
      (db, Build_DRIDValidationResult false false false false "NOT_FOUND"
             "DRID not found" None)
  | Some slip =>
      let slip :=
        DigitalDepositSlip.set_last_validation_at (Some utcnow)
          (DigitalDepositSlip.set_validation_attempts
             (DigitalDepositSlip.validation_attempts slip + 1) slip) in
      let db := commit_slip drid slip db in
      let now := utcnow in
      let is_expired := (now >? DigitalDepositSlip.expires_at slip)%Z in
      let time_remaining :=
        if negb is_expired
        then Z.max 0 (total_seconds_int (DigitalDepositSlip.expires_at slip - now))
        else 0%Z in
      if is_expired && bool_decide (DigitalDepositSlip.status slip = INITIATED)
      then
        let slip := DigitalDepositSlip.set_status EXPIRED slip in
        (commit_slip drid slip db,
         Build_DRIDValidationResult false true false false (value EXPIRED)
           "DRID has expired" (Some 0%Z))
      else if is_in (DigitalDepositSlip.status slip) [COMPLETED; PROCESSING]
      then
        (db, Build_DRIDValidationResult false false true false
               (value (DigitalDepositSlip.status slip))
               "DRID has already been used" (Some time_remaining))
      else if is_in (DigitalDepositSlip.status slip) [CANCELLED; REJECTED]
      then
        (db, Build_DRIDValidationResult false false false true
               (value (DigitalDepositSlip.status slip))
               ("DRID has been "
                  ++ lower (value (DigitalDepositSlip.status slip)))
               (Some time_remaining))
      else
        (db, Build_DRIDValidationResult true false false false
               (value (DigitalDepositSlip.status slip))
               "DRID is valid" (Some time_remaining))
  end.

Definition retrieve_deposit_slip (utcnow : datetime) (db : Database)
    (drid teller_id : string)
  : Database * outcome (option DigitalDepositSlip.t * option string) :=
  let '(db, validation) := validate_drid utcnow db drid in
  if negb (is_valid validation)
  then (db, Returned (None, Some (message validation)))
  else
    match first (by_drid drid) (deposit_slips db) with
    | None => (db, Raised "'NoneType' object has no attribute 'status'")
    | Some slip =>
        if negb (is_in (DigitalDepositSlip.status slip)
                   [INITIATED; RETRIEVED; VERIFIED])
        then
          (db, Returned
             (None, Some ("Cannot retrieve: current status is "
                            ++ value (DigitalDepositSlip.status slip))))
        else
          let slip :=
            if bool_decide (DigitalDepositSlip.status slip = INITIATED)
            then
              DigitalDepositSlip.set_retrieved_by (Some teller_id)
                (DigitalDepositSlip.set_retrieved_at (Some utcnow)
                   (DigitalDepositSlip.set_status RETRIEVED slip))
            else slip in
          (commit_slip drid slip db, Returned (Some slip, None))
    end.

Definition verify_deposit_slip (utcnow : datetime) (db : Database)
    (drid teller_id : string) (amount_confirmed depositor_verified : bool)
    (instrument_verified : option bool) (notes : option string)
  : Database * (option DigitalDepositSlip.t * option string) :=
  match first (by_drid drid) (deposit_slips db) with
  | None => (db, (None, Some "DRID not found"))
  | Some slip =>
      if bool_decide (DigitalDepositSlip.status slip ≠ RETRIEVED) then
        (db, (None, Some ("Cannot verify: current status is "
                            ++ value (DigitalDepositSlip.status slip))))
      else if (utcnow >? DigitalDepositSlip.expires_at slip)%Z then
        (commit_slip drid (DigitalDepositSlip.set_status EXPIRED slip) db,
         (None, Some "DRID has expired"))
      else if negb amount_confirmed then
        (db, (None, Some "Amount must be confirmed"))
      else if negb depositor_verified then
        (db, (None, Some "Depositor identity must be verified"))
      else if
        bool_decide
          (DigitalDepositSlip.transaction_type slip
             ∈ [TransactionType.CHEQUE_DEPOSIT; TransactionType.PAY_ORDER])
        && match instrument_verified with
           | None => true
           | Some b => negb b
           end
      then
        (db, (None, Some
           "Instrument must be verified for cheque/pay order transactions"))
      else
        let slip :=
          DigitalDepositSlip.set_verified_by (Some teller_id)
            (DigitalDepositSlip.set_verified_at (Some utcnow)
               (DigitalDepositSlip.set_status VERIFIED slip)) in
        (commit_slip drid slip db, (Some slip, None))
  end.

Record complete_env : Type := Build_complete_env {
  complete_utcnow : datetime;
  complete_uuid8 : string;      (* [str(uuid.uuid4())[:8].upper()] *)
  complete_new_id : string;     (* primary key given to the transaction *)
  (* the failure, if any, met where the transaction is put together and
     stored: the transaction is then not stored *)
  complete_fault : option failure;
  receipt_env : ReceiptService.env
}.

Definition category_map (k : TransactionType.t) : option TransactionCategory.t :=
  match k with
  | TransactionType.CASH_DEPOSIT => Some TransactionCategory.DEPOSIT
  | TransactionType.CHEQUE_DEPOSIT => Some TransactionCategory.DEPOSIT
  | TransactionType.PAY_ORDER => Some TransactionCategory.PAYMENT
  | TransactionType.BILL_PAYMENT => Some TransactionCategory.PAYMENT
  | TransactionType.FUND_TRANSFER => Some TransactionCategory.TRANSFER
  end.

Definition complete_deposit_slip (e : complete_env)
    (sig : SignatureService.state) (db : Database) (drid teller_id : string)
    (authorization_captured : bool) (teller_notes : option string)
  : SignatureService.state * Database
    * outcome
        (option DigitalDepositSlip.t * option Transaction.t * option string) :=
  let utcnow := complete_utcnow e in
  match first (by_drid drid) (deposit_slips db) with
  | None => (sig, db, Returned (None, None, Some "DRID not found"))
  | Some slip =>
      if bool_decide (DigitalDepositSlip.status slip ≠ VERIFIED) then
        (sig, db,
         Returned
           (None, None, Some ("Cannot complete: current status is "
                                ++ value (DigitalDepositSlip.status slip))))
      else if (utcnow >? DigitalDepositSlip.expires_at slip)%Z then
        (sig, commit_slip drid (DigitalDepositSlip.set_status EXPIRED slip) db,
         Returned (None, None, Some "DRID has expired"))
      else if negb authorization_captured then
        (sig, db,
         Returned (None, None, Some "Customer authorization must be captured"))
      else
        let slip := DigitalDepositSlip.set_status PROCESSING slip in
        let db := commit_slip drid slip db in
        (* except Exception as e: the commit of the reverted status goes
           through on a usable session and raises after a failed flush,
           which leaves the slip stored as PROCESSING *)
        let rollback (sig : SignatureService.state) (db : Database)
            (f : failure) :=
          match f with
          | Exception exc =>
              let slip := DigitalDepositSlip.set_status VERIFIED slip in
              (sig, commit_slip drid slip db,
               Returned
                 (None, None, Some ("Error creating transaction: " ++ exc)))
          | FlushError _ pending => (sig, db, Raised pending)
          end in
        (* try: *)
        let ref_number :=
          "TXN-" ++ strftime utcnow "%Y%m%d" ++ "-" ++ complete_uuid8 e in
        let category :=
          default TransactionCategory.DEPOSIT
            (category_map (DigitalDepositSlip.transaction_type slip)) in
        let transaction :=
          Transaction.Build (complete_new_id e) ref_number
            (DigitalDepositSlip.transaction_type slip) category
            (DigitalDepositSlip.customer_id slip)
            (DigitalDepositSlip.customer_cnic slip)
            (DigitalDepositSlip.customer_name slip)
            (DigitalDepositSlip.customer_account slip)
            (DigitalDepositSlip.depositor_cnic slip)
            (DigitalDepositSlip.depositor_name slip)
            (DigitalDepositSlip.depositor_phone slip)
            (DigitalDepositSlip.amount slip)
            (DigitalDepositSlip.currency slip) "1.0"
            (DigitalDepositSlip.amount slip) "0" "0"
            (DigitalDepositSlip.amount slip) TransactionStatus.COMPLETED
            (DigitalDepositSlip.channel slip)
            (or_else (DigitalDepositSlip.narration slip)
               ("Deposit via DRID: " ++ drid))
            (DigitalDepositSlip.branch_id slip) teller_id (Some utcnow)
            (DigitalDepositSlip.extra_data slip) utcnow in
        match complete_fault e with
        | Some f => rollback sig db f
        | None =>
            let db := set_transactions (transactions db ++ [transaction]) db in
            match
              ReceiptService.create_receipt (receipt_env e) sig db transaction
                "DIGITAL"
            with
            | (sig, db, Raised exc) =>
                rollback sig db
                  match ReceiptService.fault (receipt_env e) with
                  | Some (FlushError _ pending) => FlushError exc pending
                  | _ => Exception exc
                  end
            | (sig, db, Returned _) =>
                let slip :=
                  DigitalDepositSlip.set_transaction_id
                    (Some (Transaction.id transaction))
                    (DigitalDepositSlip.set_completed_by (Some teller_id)
                       (DigitalDepositSlip.set_completed_at (Some utcnow)
                          (DigitalDepositSlip.set_status COMPLETED slip))) in
                (sig, commit_slip drid slip db,
                 Returned (Some slip, Some transaction, None))
            end
        end
  end.

Definition cancel_deposit_slip (utcnow : datetime) (db : Database)
    (drid : string) (cancelled_by : option string) (reason : string)
  : Database * (option DigitalDepositSlip.t * option string) :=
  match first (by_drid drid) (deposit_slips db) with
  | None => (db, (None, Some "DRID not found"))
  | Some slip =>
      if is_in (DigitalDepositSlip.status slip) [COMPLETED; EXPIRED] then
        (db, (None, Some ("Cannot cancel: current status is "
                            ++ value (DigitalDepositSlip.status slip))))
      else
        let slip :=
          DigitalDepositSlip.set_cancelled_at (Some utcnow)
            (DigitalDepositSlip.set_status CANCELLED slip) in
        let slip :=
          match cancelled_by with
          | Some by_ =>
              if negb (by_ =? "") && negb (by_ =? "CUSTOMER")
              then DigitalDepositSlip.set_cancelled_by (Some by_) slip
              else DigitalDepositSlip.set_cancelled_by None slip
          | None => DigitalDepositSlip.set_cancelled_by None slip
          end in
        let slip := DigitalDepositSlip.set_cancellation_reason (Some reason) slip in
        (commit_slip drid slip db, (Some slip, None))
  end.

Definition get_deposit_slip_by_drid (db : Database) (drid : string)
  : option DigitalDepositSlip.t :=
  first (by_drid drid) (deposit_slips db).

End WithPlatform.
End DRIDService.

(** ** The reject endpoint ([app/api/v1/deposit_slips.py]) *)

Module deposit_slips.
Import DepositSlipStatus.

Inductive response : Type :=
| HTTPException (status_code : Z) (detail : string)
| Rejected (message drid reason : string).

Definition HTTP_404_NOT_FOUND : Z := 404.
Definition HTTP_400_BAD_REQUEST : Z := 400.

Definition teller_reject_deposit_slip (utcnow : datetime) (db : Database)
    (drid reason current_user_id : string) : Database * response :=
  match DRIDService.get_deposit_slip_by_drid db drid with
  | None => (db, HTTPException HTTP_404_NOT_FOUND "DRID not found")
  | Some slip =>
      if is_in (DigitalDepositSlip.status slip) [COMPLETED; EXPIRED] then
        (db, HTTPException HTTP_400_BAD_REQUEST
               ("Cannot reject: current status is "
                  ++ value (DigitalDepositSlip.status slip)))
      else
        let slip :=
          DigitalDepositSlip.set_cancelled_by (Some current_user_id)
            (DigitalDepositSlip.set_cancelled_at (Some utcnow)
               (DigitalDepositSlip.set_rejection_reason (Some reason)
                  (DigitalDepositSlip.set_status REJECTED slip))) in
        (DRIDService.commit_slip drid slip db,
         Rejected "Deposit slip rejected" drid reason)
  end.
End deposit_slips.

(** ** A small instance to run the services on

    A platform on which everything computes: keys are numbers, a signature is
    the signed text tagged with the key, base64 is the identity.  It stands
    in for the real libraries when a statement is tried on a concrete
    database. *)

Module Demo.
Import DepositSlipStatus.

Definition demo_sign (key : Z) (data : string) : string :=
  pretty key ++ "#" ++ data.

Definition demo_platform : Platform := {|
  PrivateKey := Z;
  PublicKey := Z;
  rsa_sign := demo_sign;
  rsa_verify := fun key signature data => signature =? demo_sign key data;
  b64encode := fun s => s;
  b64decode := fun s => inl s;
  sha256_hexdigest := fun s => "sha256(" ++ s ++ ")";
  isoformat := fun dt => pretty dt;
  fromisoformat := fun _ => None;
  strftime := fun dt fmt => pretty dt;
  qr_png_base64 := fun _ => Some "iVBORw0KGgo=";
  PUBLIC_URL := None
|}.

Definition keys : @key_files demo_platform := @KeysReady demo_platform 7 7.
Definition no_keys : @key_files demo_platform :=
  @KeysError demo_platform "keys: permission denied".

Definition customer : Customer.t :=
  Customer.Build "c-1" "42101-1234567-1" "Ayesha Khan" "+923001234567" None.

Definition account : Account.t :=
  Account.Build "a-1" "A-001" "c-1" (Some "b-1").

(** A slip for account [A-001] that expires at second 3600. *)
Definition slip (st : DepositSlipStatus.t) : DigitalDepositSlip.t :=
  DigitalDepositSlip.Build "s-1" "DRID-19700101-T1" st (minutes 60) 60
    TransactionType.CASH_DEPOSIT "42101-1234567-1" "A-001" "50000.00" "PKR"
    None "Ayesha Khan" None "+923001234567" (Some "SELF") Channel.WEB None
    None "c-1" "Ayesha Khan" "+923001234567" None "a-1" (Some "b-1") "" None 0
    0 None None None None None None None None None None None None.

Definition db_with (st : DepositSlipStatus.t) : Database :=
  Build_Database [customer] [account] [slip st] [] [].

(** [fault]: the text of an exception raised in [create_receipt] that
    leaves the session usable, if there is to be one. *)
Definition receipt_env (files : @key_files demo_platform)
    (fault : option string) : @ReceiptService.env demo_platform :=
  @ReceiptService.Build_env demo_platform "R0000001" "r-1" (minutes 30)
    (minutes 30) files (Exception <$> fault).

Definition complete_env (files : @key_files demo_platform)
    (receipt_fault : option string)
  : @DRIDService.complete_env demo_platform :=
  @DRIDService.Build_complete_env demo_platform (minutes 30) "T0000001" "t-1"
    None (receipt_env files receipt_fault).

(** The receipt fields of the specification's scenario. *)
Definition receipt_data : gmap string string :=
  <["receipt_number" := "R-1"]>
  (<["reference_number" := "F-1"]>
  (<["amount" := "50000"]>
  (<["currency" := "PKR"]>
  (<["customer_name" := "Ayesha Khan"]>
  (<["customer_account" := "A-001"]>
  (<["transaction_type" := "CASH_DEPOSIT"]>
  (<["transaction_date" := "1970-01-01T00:30:00"]>
  (<["branch_id" := "b-1"]>
  (<["processed_by" := "u-9"]> ∅))))))))).

Definition T1 : string := "DRID-19700101-T1".

Definition second : Z := 1000000.

Definition issue_env (utcnow : datetime)
  : @DRIDService.create_env :=
  DRIDService.Build_create_env utcnow ["A1B2C3"] "s-2".

(** A request for a new slip on account [A-001]. *)
Definition issue (utcnow : datetime) (db : Database)
  : option (Database * outcome (option DigitalDepositSlip.t * option string)) :=
  @DRIDService.create_deposit_slip demo_platform (issue_env utcnow) db
    "CASH_DEPOSIT" "42101-1234567-1" "A-001" "100.00" "PKR" None None None
    None (Some "SELF") "WEB" None None None None.

(** The stored amount of every transaction overwritten, as by a write that
    goes around the services. *)
Definition tamper_amount (v : Decimal) (db : Database) : Database :=
  set_transactions (map (Transaction.set_amount v) (transactions db)) db.

(** The scenario of the specification, run from an empty slip table: issue
    at the epoch, retrieve after 5 minutes, verify after 10, complete after
    30.  Each step is [None] should the one before not have succeeded. *)
Definition empty_db : Database :=
  Build_Database [customer] [account] [] [] [].

Definition issued : option (Database * DigitalDepositSlip.t) :=
  match issue 0 empty_db with
  | Some (db, Returned (Some slip, None)) => Some (db, slip)
  | _ => None
  end.

Definition retrieved : option (Database * DigitalDepositSlip.t) :=
  match issued with
  | Some (db, slip) =>
      match
        DRIDService.retrieve_deposit_slip (minutes 5) db
          (DigitalDepositSlip.drid slip) "u-9"
      with
      | (db, Returned (Some slip, None)) => Some (db, slip)
      | _ => None
      end
  | None => None
  end.

Definition verified : option (Database * DigitalDepositSlip.t) :=
  match retrieved with
  | Some (db, slip) =>
      match
        DRIDService.verify_deposit_slip (minutes 10) db
          (DigitalDepositSlip.drid slip) "u-9" true true None None
      with
      | (db, (Some slip, None)) => Some (db, slip)
      | _ => None
      end
  | None => None
  end.

Definition completed (files : @key_files demo_platform)
  : option (@SignatureService.state demo_platform * Database
            * DigitalDepositSlip.t * Transaction.t) :=
  match verified with
  | Some (db, slip) =>
      match
        @DRIDService.complete_deposit_slip demo_platform
          (complete_env files None) SignatureService.initial db
          (DigitalDepositSlip.drid slip) "u-9" true None
      with
      | (sig, db, Returned (Some slip, Some transaction, None)) =>
          Some (sig, db, slip, transaction)
      | _ => None
      end
  | None => None
  end.

End Demo.

(** ** Vocabulary of the statements *)

(** The keys [_create_signing_payload] reads, in order, each with the default
    its [get] falls back on. *)
Definition signed_fields : list (string * string) := [
  ("receipt_number", ""); ("reference_number", ""); ("amount", "");
  ("currency", "PKR"); ("customer_name", ""); ("customer_account", "");
  ("transaction_type", ""); ("transaction_date", ""); ("branch_id", "");
  ("processed_by", "")
].

Section Assumptions.
Context `{Platform}.

(** An idealised key pair: a signature made with the private key verifies
    under the public key against the signed text and against no other. *)
Definition key_pair (sk : PrivateKey) (pk : PublicKey) : Prop :=
  forall data data' : string,
    rsa_verify pk (rsa_sign sk data) data' = true <-> data' = data.

Definition b64_round_trip : Prop :=
  forall b : string, b64decode (b64encode b) = inl b.

(** The service holds the pair [(sk, pk)], or will load it when first used. *)
Definition ready_with (cls : SignatureService.state) (files : key_files)
    (sk : PrivateKey) (pk : PublicKey) : Prop :=
  (SignatureService._initialized cls = true
   /\ SignatureService._private_key cls = Some sk
   /\ SignatureService._public_key cls = Some pk)
  \/ (SignatureService._initialized cls = false /\ files = KeysReady sk pk).

(** The service holds no key and cannot load one. *)
Definition unavailable (cls : SignatureService.state) (files : key_files)
  : Prop :=
  SignatureService._initialized cls = false
  /\ forall sk pk, files <> KeysReady sk pk.

End Assumptions.

(** The validation tracking columns as [validate_drid] writes them. *)
Definition touched (utcnow : datetime) (slip : DigitalDepositSlip.t)
  : DigitalDepositSlip.t :=
  DigitalDepositSlip.set_last_validation_at (Some utcnow)
    (DigitalDepositSlip.set_validation_attempts
       (DigitalDepositSlip.validation_attempts slip + 1) slip).

(** The slip is INITIATED and its expiry has passed. *)
Definition overdue (utcnow : datetime) (slip : DigitalDepositSlip.t) : Prop :=
  DigitalDepositSlip.status slip = DepositSlipStatus.INITIATED
  /\ (utcnow > DigitalDepositSlip.expires_at slip)%Z.

(** [slip'] with its status and its validation tracking columns put back to
    those of [slip]: equal to [slip] exactly when no other column differs. *)
Definition restore (slip slip' : DigitalDepositSlip.t) : DigitalDepositSlip.t :=
  DigitalDepositSlip.set_status (DigitalDepositSlip.status slip)
    (DigitalDepositSlip.set_validation_attempts
       (DigitalDepositSlip.validation_attempts slip)
       (DigitalDepositSlip.set_last_validation_at
          (DigitalDepositSlip.last_validation_at slip) slip')).

(** ** More Python helpers *)

(** [s[n:]] *)
Fixpoint string_drop (n : nat) (s : string) : string :=
  match n, s with
  | O, _ => s
  | S n', String _ s' => string_drop n' s'
  | S _, EmptyString => EmptyString
  end.

(** [c * n] *)
Fixpoint string_rep (n : nat) (c : ascii) : string :=
  match n with
  | O => EmptyString
  | S n' => String c (string_rep n' c)
  end.

(** [s.rjust(width, fill)] *)
Definition rjust (width : nat) (fill : ascii) (s : string) : string :=
  string_rep (width - String.length s) fill ++ s.

(** [s[-4:].rjust(len(s), '*')], the masking of phone and account numbers *)
Definition mask_last4 (s : string) : string :=
  rjust (String.length s) "*" (string_drop (String.length s - 4) s).

(** [c.isspace()], the white space [str.strip] trims, by the UTF-8 bytes
    of [c].  One byte: tab to carriage return, the four separators
    [0x1c]-[0x1f], and the blank. *)
Definition isspace (c : ascii) : bool :=
  let n := nat_of_ascii c in
  (Nat.leb 9 n && Nat.leb n 13) || (Nat.leb 28 n && Nat.leb n 32).

(** Two bytes: U+0085 and the no-break space U+00A0. *)
Definition isspace2 (c1 c2 : ascii) : bool :=
  let n2 := nat_of_ascii c2 in
  Nat.eqb (nat_of_ascii c1) 194 && (Nat.eqb n2 133 || Nat.eqb n2 160).

(** Three bytes: U+1680, U+2000 to U+200A, U+2028, U+2029, U+202F, U+205F
    and U+3000.  No character of four bytes is white space. *)
Definition isspace3 (c1 c2 c3 : ascii) : bool :=
  let n1 := nat_of_ascii c1 in
  let n2 := nat_of_ascii c2 in
  let n3 := nat_of_ascii c3 in
  (Nat.eqb n1 225 && Nat.eqb n2 154 && Nat.eqb n3 128)
  || (Nat.eqb n1 226
      && ((Nat.eqb n2 128
           && ((Nat.leb 128 n3 && Nat.leb n3 138)
               || (Nat.leb 168 n3 && Nat.leb n3 169) || Nat.eqb n3 175))
          || (Nat.eqb n2 129 && Nat.eqb n3 159)))
  || (Nat.eqb n1 227 && Nat.eqb n2 128 && Nat.eqb n3 128).

(** The no-break space, U+00A0. *)
Definition nbsp : string :=
  String (ascii_of_nat 194) (String (ascii_of_nat 160) EmptyString).

(** [s.lstrip()]: the white space characters at the start are dropped, each
    with all its bytes. *)
Fixpoint lstrip (s : string) : string :=
  match s with
  | String c1 s1 =>
      if isspace c1 then lstrip s1
      else
        match s1 with
        | String c2 s2 =>
            if isspace2 c1 c2 then lstrip s2
            else
              match s2 with
              | String c3 s3 => if isspace3 c1 c2 c3 then lstrip s3 else s
              | EmptyString => s
              end
        | EmptyString => s
        end
  | EmptyString => s
  end.

(** [s.rstrip()]: the text is cut where all that follows is white space.
    In UTF-8 no white space character starts with a byte that continues
    another character, so the cut falls between two characters. *)
Fixpoint rstrip (s : string) : string :=
  match s with
  | EmptyString => EmptyString
  | String c s' =>
      match lstrip s with
      | EmptyString => EmptyString
      | _ => String c (rstrip s')
      end
  end.

(** [s.strip()] *)
Definition strip (s : string) : string := lstrip (rstrip s).

(** [s.split(sep)] for a one-character [sep] *)
Fixpoint split_char (sep : ascii) (s : string) : list string :=
  match s with
  | EmptyString => [EmptyString]
  | String c s' =>
      if Ascii.eqb c sep then EmptyString :: split_char sep s'
      else
        match split_char sep s' with
        | p :: ps => String c p :: ps
        | [] => [String c EmptyString]
        end
  end.

(** [c in s] *)
Fixpoint has_char (c : ascii) (s : string) : bool :=
  match s with
  | EmptyString => false
  | String c' s' => Ascii.eqb c' c || has_char c s'
  end.

(** ** The rest of [app/services/drid_service.py] *)

Module DRIDSweep.
Import DepositSlipStatus.

(** The filter of [get_customer_active_slips]. *)
Definition is_active (utcnow : datetime) (customer_cnic : string)
    (s : DigitalDepositSlip.t) : bool :=
  (DigitalDepositSlip.customer_cnic s =? customer_cnic)
  && is_in (DigitalDepositSlip.status s) [INITIATED; RETRIEVED; VERIFIED]
  && (DigitalDepositSlip.expires_at s >? utcnow)%Z.

Definition get_customer_active_slips (utcnow : datetime) (db : Database)
    (customer_cnic : string) : list DigitalDepositSlip.t :=
  List.filter (is_active utcnow customer_cnic) (deposit_slips db).

(** The filter of [expire_old_slips]. *)
Definition is_old (utcnow : datetime) (s : DigitalDepositSlip.t) : bool :=
  bool_decide (DigitalDepositSlip.status s = INITIATED)
  && (DigitalDepositSlip.expires_at s <? utcnow)%Z.

(** The rows selected are set to EXPIRED one by one and committed together,
    if there is any. *)
Definition expire_old_slips (utcnow : datetime) (db : Database)
  : Database * Z :=
  let expired := List.filter (is_old utcnow) (deposit_slips db) in
  let count := Z.of_nat (length expired) in
  if (count >? 0)%Z then
    (set_deposit_slips
       (List.map
          (fun s =>
             if is_old utcnow s
             then DigitalDepositSlip.set_status EXPIRED s else s)
          (deposit_slips db)) db,
     count)
  else (db, count).

End DRIDSweep.

(** ** The rest of [app/services/signature_service.py] *)

Module SignatureKeys.
Section WithPlatform.
Context `{Platform}.

(** [public_bytes] is the PEM serialisation of the [cryptography] library. *)
Definition get_public_key_pem (public_bytes : PublicKey -> string)
    (files : key_files) (cls : SignatureService.state)
  : SignatureService.state * option string :=
  let cls :=
    if SignatureService._initialized cls then cls
    else (SignatureService.initialize files cls).1 in
  match SignatureService._public_key cls with
  | Some public_key => (cls, Some (public_bytes public_key))
  | None => (cls, None)
  end.

End WithPlatform.
End SignatureKeys.

(** ** The rest of [app/services/qr_service.py] *)

Module QRVerify.
Section WithPlatform.
Context `{Platform}.

Definition verify_receipt_hash (receipt_number reference_number : string)
    (amount : Decimal) (customer_name : string) (transaction_date : datetime)
    (provided_hash : string) : bool :=
  let expected_hash :=
    QRService.generate_verification_hash receipt_number reference_number
      amount customer_name transaction_date in
  expected_hash =? provided_hash.

Definition get_verification_url (receipt_number verification_hash : string)
  : string :=
  let base_url := QRService.get_verification_base_url in
  base_url ++ "/" ++ receipt_number ++ "?h=" ++ verification_hash.

End WithPlatform.
End QRVerify.

(** ** The rest of [app/services/receipt_service.py] *)

Module ReceiptLookup.
Section WithPlatform.
Context `{Platform}.

Definition get_or_create_receipt (e : ReceiptService.env)
    (sig : SignatureService.state) (db : Database) (transaction_id : string)
  : SignatureService.state * Database
    * outcome (option Receipt.t * option string) :=
  match
    first (fun t => Transaction.id t =? transaction_id) (transactions db)
  with
  | None => (sig, db, Returned (None, Some "Transaction not found"))
  | Some transaction =>
      match
        first (fun r => Receipt.transaction_id r =? transaction_id)
          (receipts db)
      with
      | Some receipt => (sig, db, Returned (Some receipt, None))
      | None =>
          match
            ReceiptService.create_receipt e sig db transaction "DIGITAL"
          with
          | (sig, db, Returned receipt) =>
              (sig, db, Returned (Some receipt, None))
          | (sig, db, Raised exc) => (sig, db, Raised exc)
          end
      end
  end.

End WithPlatform.
End ReceiptLookup.

(** ** [app/services/otp_service.py] *)

(** An entry of the module-level [_otp_store]. *)
Module OTPData.
Record t : Type := Build {
  otp : string;
  phone : string;
  drid : string;
  created_at : datetime;
  expires_at : datetime;
  attempts : Z;
  verified : bool
}.
End OTPData.

Module OTPService.

Definition OTP_LENGTH : Z := 5.
Definition OTP_EXPIRY_MINUTES : Z := 5.
Definition MAX_ATTEMPTS : Z := 3.

Definition _normalize_phone (phone : string) : string :=
  let phone := strip phone in
  let phone :=
    if startswith phone "whatsapp:" then string_drop 9 phone else phone in
  if negb (startswith phone "+") then
    if startswith phone "92" then "+" ++ phone
    else if startswith phone "0" then "+92" ++ string_drop 1 phone
    else "+92" ++ phone
  else phone.

(** What reaching Twilio comes to. *)
Inductive twilio : Type :=
| NotConfigured                    (* [_get_twilio_client()] returns [None] *)
| Sent                             (* [client.messages.create] returned *)
| TwilioRestException (exc : string)
| OtherException (exc : string).

Definition otp_key (drid phone : string) : string := drid ++ ":" ++ phone.

(** [new_otp] is what [generate_otp] draws; both clock reads of the entry are
    taken at one instant. *)
Definition send_otp (utcnow : datetime) (new_otp : string) (tw : twilio)
    (_otp_store : gmap string OTPData.t) (phone_number drid : string)
  : gmap string OTPData.t * (bool * string) :=
  let phone := _normalize_phone phone_number in
  let otp := new_otp in
  let key := otp_key drid phone in
  let _otp_store :=
    <[key := OTPData.Build otp phone drid utcnow
               (utcnow + minutes OTP_EXPIRY_MINUTES)%Z 0 false]> _otp_store in
  match tw with
  | NotConfigured => (_otp_store, (true, "OTP sent (Demo mode). OTP: " ++ otp))
  | Sent => (_otp_store, (true, "OTP sent to " ++ mask_last4 phone))
  | TwilioRestException exc =>
      (_otp_store, (false, "Failed to send SMS: " ++ exc))
  | OtherException exc => (_otp_store, (false, "Failed to send OTP: " ++ exc))
  end.

Definition verify_otp (utcnow : datetime) (_otp_store : gmap string OTPData.t)
    (phone_number drid otp : string)
  : gmap string OTPData.t * (bool * string) :=
  let phone := _normalize_phone phone_number in
  let key := otp_key drid phone in
  match _otp_store !! key with
  | None => (_otp_store, (false, "OTP not found. Please request a new OTP."))
  | Some otp_data =>
      if OTPData.verified otp_data then
        (_otp_store, (true, "OTP already verified"))
      else if (utcnow >? OTPData.expires_at otp_data)%Z then
        (delete key _otp_store,
         (false, "OTP has expired. Please request a new OTP."))
      else if (OTPData.attempts otp_data >=? MAX_ATTEMPTS)%Z then
        (delete key _otp_store,
         (false, "Maximum attempts exceeded. Please request a new OTP."))
      else
        let otp_data :=
          OTPData.Build (OTPData.otp otp_data) (OTPData.phone otp_data)
            (OTPData.drid otp_data) (OTPData.created_at otp_data)
            (OTPData.expires_at otp_data) (OTPData.attempts otp_data + 1)
            (OTPData.verified otp_data) in
        if OTPData.otp otp_data =? otp then
          let otp_data :=
            OTPData.Build (OTPData.otp otp_data) (OTPData.phone otp_data)
              (OTPData.drid otp_data) (OTPData.created_at otp_data)
              (OTPData.expires_at otp_data) (OTPData.attempts otp_data) true in
          (<[key := otp_data]> _otp_store, (true, "OTP verified successfully"))
        else
          let remaining := (MAX_ATTEMPTS - OTPData.attempts otp_data)%Z in
          (<[key := otp_data]> _otp_store,
           (false, "Invalid OTP. " ++ pretty remaining
                     ++ " attempts remaining."))
  end.

Definition cleanup_expired (utcnow : datetime)
    (_otp_store : gmap string OTPData.t) : gmap string OTPData.t * Z :=
  let expired_keys :=
    filter (fun kd => (utcnow > OTPData.expires_at kd.2)%Z) _otp_store in
  (filter (fun kd => ~ (utcnow > OTPData.expires_at kd.2)%Z) _otp_store,
   Z.of_nat (size expired_keys)).

End OTPService.

(** ** The rest of [app/api/v1/deposit_slips.py] *)

Module DepositSlipStatusResponse.
Record t : Type := Build {
  success : bool;
  drid : string;
  status : string;
  is_valid : bool;
  is_expired : bool;
  message : string;
  time_remaining_seconds : option Z;
  can_be_used : bool
}.
End DepositSlipStatusResponse.

Module deposit_slip_endpoints.
Import DepositSlipStatus.

Definition check_deposit_slip_status (utcnow : datetime) (db : Database)
    (drid : string) : Database * DepositSlipStatusResponse.t :=
  let '(db, validation) := DRIDService.validate_drid utcnow db drid in
  (db,
   DepositSlipStatusResponse.Build true drid (status validation)
     (is_valid validation) (is_expired validation) (message validation)
     (time_remaining_seconds validation)
     (is_valid validation && negb (is_expired validation)
      && negb (is_used validation))).

Inductive otp_response : Type :=
| HTTPException (status_code : Z) (detail : string)
| OtpSent (message drid phone_masked : string)
| OtpChecked (success : bool) (message drid : string) (verified : bool).

(** [slip.depositor_phone or slip.customer_phone] *)
Definition phone_of (slip : DigitalDepositSlip.t) : string :=
  if DigitalDepositSlip.depositor_phone slip =? EmptyString
  then DigitalDepositSlip.customer_phone slip
  else DigitalDepositSlip.depositor_phone slip.

Definition send_otp (utcnow : datetime) (new_otp : string)
    (tw : OTPService.twilio) (_otp_store : gmap string OTPData.t)
    (db : Database) (drid : string)
  : gmap string OTPData.t * otp_response :=
  match DRIDService.get_deposit_slip_by_drid db drid with
  | None => (_otp_store, HTTPException 404 "DRID not found")
  | Some slip =>
      if bool_decide (DigitalDepositSlip.status slip <> VERIFIED) then
        (_otp_store,
         HTTPException 400
           ("Cannot send OTP: deposit slip status is "
              ++ value (DigitalDepositSlip.status slip)
              ++ ". Must be VERIFIED first."))
      else
        let depositor_phone := phone_of slip in
        if depositor_phone =? EmptyString then
          (_otp_store, HTTPException 400 "No phone number found for depositor")
        else
          let '(_otp_store, (success, message)) :=
            OTPService.send_otp utcnow new_otp tw _otp_store depositor_phone
              drid in
          if negb success then (_otp_store, HTTPException 500 message)
          else
            let masked_phone := mask_last4 depositor_phone in
            (_otp_store,
             OtpSent ("OTP sent to depositor at " ++ masked_phone) drid
               masked_phone)
  end.

Definition verify_otp (utcnow : datetime)
    (_otp_store : gmap string OTPData.t) (db : Database)
    (drid otp : string) : gmap string OTPData.t * otp_response :=
  match DRIDService.get_deposit_slip_by_drid db drid with
  | None => (_otp_store, HTTPException 404 "DRID not found")
  | Some slip =>
      let depositor_phone := phone_of slip in
      if depositor_phone =? EmptyString then
        (_otp_store, HTTPException 400 "No phone number found for depositor")
      else
        let '(_otp_store, (success, message)) :=
          OTPService.verify_otp utcnow _otp_store depositor_phone drid otp in
        (_otp_store, OtpChecked success message drid success)
  end.

End deposit_slip_endpoints.

(** ** The deposit slip error handling of
    [app/whatsapp/whatsapp_adapter.py] *)

Module whatsapp_adapter.

(** The DRID the adapter takes out of an error of [create_deposit_slip]:
    [error.split(":")[1]] when the error starts with [EXISTING_SLIP:]. *)
Definition existing_drid (error : string) : option string :=
  if startswith error "EXISTING_SLIP:" then split_char ":" error !! 1%nat
  else None.

End whatsapp_adapter.

(** ** Vocabulary: requests and the life cycle graph *)

(** The status changes the services make: retrieval, verification and
    completion forward, expiry from the three states before completion,
    cancellation and rejection from every status but COMPLETED and EXPIRED;
    VERIFIED to PROCESSING, where a completion that fails on a flush leaves
    the slip; and no change. *)
Definition edge (a b : DepositSlipStatus.t) : bool :=
  match a, b with
  | DepositSlipStatus.INITIATED, DepositSlipStatus.RETRIEVED
  | DepositSlipStatus.RETRIEVED, DepositSlipStatus.VERIFIED
  | DepositSlipStatus.VERIFIED, DepositSlipStatus.COMPLETED
  | DepositSlipStatus.VERIFIED, DepositSlipStatus.PROCESSING => true
  | DepositSlipStatus.INITIATED, DepositSlipStatus.EXPIRED
  | DepositSlipStatus.RETRIEVED, DepositSlipStatus.EXPIRED
  | DepositSlipStatus.VERIFIED, DepositSlipStatus.EXPIRED => true
  | DepositSlipStatus.COMPLETED, _ | DepositSlipStatus.EXPIRED, _ =>
      bool_decide (a = b)
  | _, DepositSlipStatus.CANCELLED | _, DepositSlipStatus.REJECTED => true
  | _, _ => bool_decide (a = b)
  end.

(** [slip'] with every column the life cycle writes put back to that of
    [slip]: equal to [slip] exactly when the columns fixed at issue are the
    same in both. *)
Definition at_issue (slip slip' : DigitalDepositSlip.t) : DigitalDepositSlip.t :=
  DigitalDepositSlip.set_status (DigitalDepositSlip.status slip)
  (DigitalDepositSlip.set_validation_attempts
     (DigitalDepositSlip.validation_attempts slip)
  (DigitalDepositSlip.set_last_validation_at
     (DigitalDepositSlip.last_validation_at slip)
  (DigitalDepositSlip.set_retrieved_at (DigitalDepositSlip.retrieved_at slip)
  (DigitalDepositSlip.set_retrieved_by (DigitalDepositSlip.retrieved_by slip)
  (DigitalDepositSlip.set_verified_at (DigitalDepositSlip.verified_at slip)
  (DigitalDepositSlip.set_verified_by (DigitalDepositSlip.verified_by slip)
  (DigitalDepositSlip.set_completed_at (DigitalDepositSlip.completed_at slip)
  (DigitalDepositSlip.set_completed_by (DigitalDepositSlip.completed_by slip)
  (DigitalDepositSlip.set_transaction_id
     (DigitalDepositSlip.transaction_id slip)
  (DigitalDepositSlip.set_cancelled_at (DigitalDepositSlip.cancelled_at slip)
  (DigitalDepositSlip.set_cancelled_by (DigitalDepositSlip.cancelled_by slip)
  (DigitalDepositSlip.set_cancellation_reason
     (DigitalDepositSlip.cancellation_reason slip)
  (DigitalDepositSlip.set_rejection_reason
     (DigitalDepositSlip.rejection_reason slip) slip'))))))))))))).

(** The link of a slip to its transaction is written when, and only when,
    the slip becomes COMPLETED, and then names a transaction of [txs]. *)
Definition link_kept (txs : list Transaction.t)
    (slip slip' : DigitalDepositSlip.t) : Prop :=
  if bool_decide (DigitalDepositSlip.status slip' = DepositSlipStatus.COMPLETED
                  /\ DigitalDepositSlip.status slip
                     <> DepositSlipStatus.COMPLETED)
  then exists t, t ∈ txs
         /\ DigitalDepositSlip.transaction_id slip' = Some (Transaction.id t)
  else DigitalDepositSlip.transaction_id slip'
       = DigitalDepositSlip.transaction_id slip.

(** What a service call may make of a stored slip. *)
Definition moved (txs : list Transaction.t)
    (slip slip' : DigitalDepositSlip.t) : Prop :=
  at_issue slip slip' = slip
  /\ edge (DigitalDepositSlip.status slip) (DigitalDepositSlip.status slip')
     = true
  /\ link_kept txs slip slip'.

(** A slip is linked to a transaction exactly when it is COMPLETED, and the
    transaction is stored. *)
Definition linked (db : Database) (slip : DigitalDepositSlip.t) : Prop :=
  match DigitalDepositSlip.transaction_id slip with
  | Some tid =>
      DigitalDepositSlip.status slip = DepositSlipStatus.COMPLETED
      /\ exists t, t ∈ transactions db /\ Transaction.id t = tid
  | None => DigitalDepositSlip.status slip <> DepositSlipStatus.COMPLETED
  end.

Section Requests.
Context `{Platform}.

(** The calls that reach the slip table, each with what it draws from its
    surroundings. *)
Inductive request : Type :=
| Issue (e : DRIDService.create_env)
    (transaction_type customer_cnic customer_account : string)
    (amount : Decimal) (currency : string)
    (narration depositor_name depositor_cnic depositor_phone
       depositor_relationship : option string)
    (channel : string) (device_info ip_address : option string)
    (validity_minutes : option Z) (additional_data : option string)
| Validate (utcnow : datetime) (drid : string)
| Retrieve (utcnow : datetime) (drid teller_id : string)
| Verify (utcnow : datetime) (drid teller_id : string)
    (amount_confirmed depositor_verified : bool)
    (instrument_verified : option bool) (notes : option string)
| Complete (e : DRIDService.complete_env) (drid teller_id : string)
    (authorization_captured : bool) (teller_notes : option string)
| Cancel (utcnow : datetime) (drid : string) (cancelled_by : option string)
    (reason : string)
| Reject (utcnow : datetime) (drid reason current_user_id : string)
| Sweep (utcnow : datetime).

(** The signature service state and the tables a request leaves, whether
    the call returns or raises. *)
Definition run (r : request) (st : SignatureService.state * Database)
  : SignatureService.state * Database :=
  let '(sig, db) := st in
  match r with
  | Issue e transaction_type customer_cnic customer_account amount currency
      narration depositor_name depositor_cnic depositor_phone
      depositor_relationship channel device_info ip_address validity_minutes
      additional_data =>
      match
        DRIDService.create_deposit_slip e db transaction_type customer_cnic
          customer_account amount currency narration depositor_name
          depositor_cnic depositor_phone depositor_relationship channel
          device_info ip_address validity_minutes additional_data
      with
      | Some (db', _) => (sig, db')
      | None => (sig, db)
      end
  | Validate utcnow drid => (sig, (DRIDService.validate_drid utcnow db drid).1)
  | Retrieve utcnow drid teller_id =>
      (sig, (DRIDService.retrieve_deposit_slip utcnow db drid teller_id).1)
  | Verify utcnow drid teller_id amount_confirmed depositor_verified
      instrument_verified notes =>
      (sig,
       (DRIDService.verify_deposit_slip utcnow db drid teller_id
          amount_confirmed depositor_verified instrument_verified notes).1)
  | Complete e drid teller_id authorization_captured teller_notes =>
      (DRIDService.complete_deposit_slip e sig db drid teller_id
         authorization_captured teller_notes).1
  | Cancel utcnow drid cancelled_by reason =>
      (sig,
       (DRIDService.cancel_deposit_slip utcnow db drid cancelled_by reason).1)
  | Reject utcnow drid reason current_user_id =>
      (sig,
       (deposit_slips.teller_reject_deposit_slip utcnow db drid reason
          current_user_id).1)
  | Sweep utcnow => (sig, (DRIDSweep.expire_old_slips utcnow db).1)
  end.

(** A sequence of requests, one after the other. *)
Definition run_all (rs : list request)
    (st : SignatureService.state * Database)
  : SignatureService.state * Database :=
  fold_left (fun st r => run r st) rs st.

End Requests.

(** ** Vocabulary: the signature service in use *)

Section SignatureCalls.
Context `{Platform}.

(** The calls that reach the class attributes of [SignatureService], each
    with what the key files give should it initialize. *)
Inductive signature_call : Type :=
| Initialize (files : key_files)
| PublicKeyPem (public_bytes : PublicKey -> string) (files : key_files)
| Sign (files : key_files) (utcnow : datetime)
    (receipt_data : gmap string string)
| VerifySignature (files : key_files) (receipt_data : gmap string string)
    (signature_b64 signing_timestamp : string).

(** The class attributes a call leaves. *)
Definition signature_run (c : signature_call) (cls : SignatureService.state)
  : SignatureService.state :=
  match c with
  | Initialize files => (SignatureService.initialize files cls).1
  | PublicKeyPem public_bytes files =>
      (SignatureKeys.get_public_key_pem public_bytes files cls).1
  | Sign files utcnow receipt_data =>
      (SignatureService.sign_receipt files utcnow cls receipt_data).1
  | VerifySignature files receipt_data signature_b64 signing_timestamp =>
      (SignatureService.verify_signature files cls receipt_data signature_b64
         signing_timestamp).1
  end.

Definition signature_run_all (cs : list signature_call)
    (cls : SignatureService.state) : SignatureService.state :=
  fold_left (fun cls c => signature_run c cls) cs cls.

End SignatureCalls.

(** ** A walk through the life cycle on the small instance *)

Module Walkthrough.
Import DepositSlipStatus.
#[local] Existing Instance Demo.demo_platform.

(** A new slip is asked for, then the slip [DRID-19700101-T1] is validated,
    retrieved, verified and completed; cancelling and rejecting it are tried
    after that, and the sweep runs at minute 90. *)
Definition requests : list request := [
  Issue (Demo.issue_env 0) "CASH_DEPOSIT" "42101-1234567-1" "A-001" "100.00"
    "PKR" None None None None (Some "SELF") "WEB" None None None None;
  Validate (minutes 1) Demo.T1;
  Retrieve (minutes 5) Demo.T1 "u-9";
  Verify (minutes 10) Demo.T1 "u-9" true true None None;
  Complete (Demo.complete_env Demo.keys None) Demo.T1 "u-9" true None;
  Cancel (minutes 40) Demo.T1 (Some "u-9") "no longer needed";
  Reject (minutes 41) Demo.T1 "presented too late" "u-9";
  Sweep (minutes 90)
].

(** The VERIFIED slip completed at minute 30, with the keys at hand. *)
Definition settled
  : SignatureService.state * Database
    * outcome
        (option DigitalDepositSlip.t * option Transaction.t * option string) :=
  DRIDService.complete_deposit_slip (Demo.complete_env Demo.keys None)
    SignatureService.initial (Demo.db_with VERIFIED) Demo.T1 "u-9" true None.

(** The same completion while the key files cannot be read: the receipt is
    stored without a signature. *)
Definition settled_unsigned
  : SignatureService.state * Database
    * outcome
        (option DigitalDepositSlip.t * option Transaction.t * option string) :=
  DRIDService.complete_deposit_slip (Demo.complete_env Demo.no_keys None)
    SignatureService.initial (Demo.db_with VERIFIED) Demo.T1 "u-9" true None.

(** Beside a CANCELLED slip a new one is issued and cancelled at once, and
    another is asked for at the same instant: its first draw, [A1B2C3], is
    the one the slip just cancelled took, the second is not in use. *)
Definition reissue : list request := [
  Issue (Demo.issue_env 0) "CASH_DEPOSIT" "42101-1234567-1" "A-001" "100.00"
    "PKR" None None None None (Some "SELF") "WEB" None None None None;
  Cancel 0 "DRID-0-A1B2C3" None "entered the wrong amount";
  Issue (DRIDService.Build_create_env 0 ["A1B2C3"; "D4E5F6"] "s-3")
    "CASH_DEPOSIT" "42101-1234567-1" "A-001" "150.00" "PKR" None None None
    None (Some "SELF") "WEB" None None None None
].

(** A completion at minute 30 whose commit of the transaction fails on the
    flush; the session then refuses the commit of the except block. *)
Definition stuck_env : DRIDService.complete_env :=
  DRIDService.Build_complete_env (minutes 30) "T0000001" "t-1"
    (Some (FlushError "transactions: connection lost"
             "This Session's transaction has been rolled back"))
    (Demo.receipt_env Demo.keys None).

(** A completion attempted at minute 61, a minute after the slip expired. *)
Definition late_env : DRIDService.complete_env :=
  DRIDService.Build_complete_env (minutes 61) "T0000002" "t-2" None
    (Demo.receipt_env Demo.keys None).

(** The calls made on the signature service while the key files are first
    unreadable, then half readable, then in order. *)
Definition signature_calls : list signature_call := [
  Sign Demo.no_keys (minutes 1) Demo.receipt_data;
  Initialize (KeysPrivateOnly 7 "public.pem: permission denied");
  VerifySignature Demo.no_keys Demo.receipt_data "" "";
  PublicKeyPem (fun pk => pretty pk) Demo.keys;
  Sign Demo.no_keys (minutes 2) Demo.receipt_data
].

(** A transaction as completion posts it for the slip of the instance. *)
Definition transaction : Transaction.t :=
  Transaction.Build "t-1" "TXN-1800000000-T0000001"
    TransactionType.CASH_DEPOSIT TransactionCategory.DEPOSIT "c-1"
    "42101-1234567-1" "Ayesha Khan" "A-001" None "Ayesha Khan" "+923001234567"
    "50000.00" "PKR" "1.0" "50000.00" "0" "0" "50000.00"
    TransactionStatus.COMPLETED Channel.WEB
    "Deposit via DRID: DRID-19700101-T1" (Some "b-1") "u-9"
    (Some (minutes 30)) None (minutes 30).

End Walkthrough.

(** * Properties *)

(** ** Strings and rows *)

Lemma string_length_app (a b : string) :
  String.length (a ++ b) = (String.length a + String.length b)%nat.
Proof. induction a as [|c a IH]; simpl; [done | by rewrite IH]. Qed.

Lemma string_app_inv_head (a b c : string) : a ++ b = a ++ c -> b = c.
Proof. apply String.app_inj. Qed.

Lemma string_app_inv_tail (a b c : string) : a ++ c = b ++ c -> a = b.
Proof.
  revert b. induction a as [|x a IH]; intros [|y b] Heq.
  - done.
  - apply (f_equal String.length) in Heq.
    rewrite !string_length_app in Heq. cbn in Heq. lia.
  - apply (f_equal String.length) in Heq.
    rewrite !string_length_app in Heq. cbn in Heq. lia.
  - cbn in Heq. injection Heq as -> Heq. f_equal. by apply IH.
Qed.

Lemma first_Some_elem {A : Type} (p : A -> bool) (rows : list A) (r : A) :
  first p rows = Some r -> r ∈ rows /\ p r = true.
Proof.
  unfold first. intros [Hin Hp]%find_some. split; [|done].
  by apply list_elem_of_In.
Qed.

Lemma first_None_elem {A : Type} (p : A -> bool) (rows : list A) :
  first p rows = None <-> forall r, r ∈ rows -> p r = false.
Proof.
  unfold first. split.
  - intros Hnone r Hin%list_elem_of_In. by eapply find_none.
  - induction rows as [|r rows IH]; simpl; [done|]. intros Hall.
    rewrite (Hall r) by left. apply IH. intros r' Hin. apply Hall. by right.
Qed.

Lemma first_update_first {A : Type} (p : A -> bool) (f : A -> A)
    (rows : list A) :
  (forall r, p r = true -> p (f r) = true) ->
  first p (update_first p f rows) = f <$> first p rows.
Proof.
  intros Hp. unfold first.
  induction rows as [|r rows IH]; simpl; [done|].
  destruct (p r) eqn:Hr; simpl.
  - by rewrite (Hp r Hr).
  - by rewrite Hr, IH.
Qed.

Lemma update_first_None {A : Type} (p : A -> bool) (f : A -> A)
    (rows : list A) :
  first p rows = None -> update_first p f rows = rows.
Proof.
  unfold first. induction rows as [|r rows IH]; simpl; [done|].
  destruct (p r); [done|]. intros Hnone. by rewrite IH.
Qed.

Lemma length_update_first {A : Type} (p : A -> bool) (f : A -> A)
    (rows : list A) :
  length (update_first p f rows) = length rows.
Proof.
  induction rows as [|r rows IH]; simpl; [done|].
  destruct (p r); simpl; by rewrite ?IH.
Qed.

(** Row by row, [update_first] rewrites the row [first] finds and keeps every
    other one. *)
Lemma update_first_lookup {A : Type} (p : A -> bool) (f : A -> A)
    (rows : list A) (i : nat) (r : A) :
  rows !! i = Some r ->
  update_first p f rows !! i = Some r
  \/ (first p rows = Some r /\ update_first p f rows !! i = Some (f r)).
Proof.
  unfold first. revert i.
  induction rows as [|r0 rows IH]; intros i Hi; simpl in *; [done|].
  destruct (p r0) eqn:Hr0.
  - destruct i as [|i]; simpl in *; [|by left].
    injection Hi as ->. by right.
  - destruct i as [|i]; simpl in *; [by left|]. by apply IH.
Qed.

(** The row [first] finds is the earliest that matches, and the one
    [update_first] rewrites. *)
Lemma first_Some_index {A : Type} (p : A -> bool) (f : A -> A)
    (rows : list A) (r : A) :
  first p rows = Some r ->
  exists i : nat,
    rows !! i = Some r
    /\ (forall (j : nat) r', (j < i)%nat -> rows !! j = Some r' -> p r' = false)
    /\ update_first p f rows = <[i := f r]> rows.
Proof.
  unfold first.
  induction rows as [|r0 rows IH]; simpl; [done|].
  destruct (p r0) eqn:Hr0.
  - intros [= ->]. exists 0%nat. split; [done|]. split; [lia | done].
  - intros Hfound. destruct (IH Hfound) as (i & Hi & Hbefore & Hupdate).
    exists (S i). split; [done|]. split.
    + intros [|j] r' Hj Hrow; simpl in Hrow; [by injection Hrow as <-|].
      apply (Hbefore j); [lia | done].
    + simpl. by rewrite Hupdate.
Qed.

(** ** The canonical payload *)

Lemma join_cons (sep p : string) (rest : list string) :
  rest <> [] -> join sep (p :: rest) = p ++ sep ++ join sep rest.
Proof. by destruct rest. Qed.

(** Two joined lists that differ in one part only are different texts. *)
Lemma join_inj_at (sep : string) (pre post : list string) (x y : string) :
  join sep (pre ++ x :: post) = join sep (pre ++ y :: post) -> x = y.
Proof.
  induction pre as [|p pre IH]; intros Heq.
  - destruct post as [|q post]; [done|].
    change (x ++ sep ++ join sep (q :: post)
            = y ++ sep ++ join sep (q :: post)) in Heq.
    by apply string_app_inv_tail in Heq.
  - rewrite <- !app_comm_cons, !join_cons in Heq by (by destruct pre).
    apply IH. by do 2 apply string_app_inv_head in Heq.
Qed.

Lemma join_differs (sep : string) (parts parts' : list string) (i : nat)
    (x y : string) :
  parts !! i = Some x -> parts' = <[i := y]> parts -> x <> y ->
  join sep parts' <> join sep parts.
Proof.
  intros Hi -> Hxy Heq.
  rewrite insert_take_drop in Heq by (by eapply lookup_lt_Some).
  rewrite <- (take_drop_middle parts i x Hi) in Heq at 3.
  apply join_inj_at in Heq. congruence.
Qed.

(** Closes [join sep parts' <> join sep parts] when the two literal lists
    differ at position [i] only, by a value after a common label. *)
Ltac differs_at i :=
  eapply (join_differs _ _ _ i);
  [ reflexivity | reflexivity
  | intros ?%string_app_inv_head; congruence ].

Section Payload.
Context `{Platform}.

(** The signing timestamp both [sign_receipt] and [verify_signature] add to
    the dictionary is not among the keys the payload is built from. *)
Lemma payload_ignores_signing_timestamp (receipt_data : gmap string string)
    (ts : string) :
  SignatureService._create_signing_payload
    (<["signing_timestamp" := ts]> receipt_data)
  = SignatureService._create_signing_payload receipt_data.
Proof.
  unfold SignatureService._create_signing_payload, dict_get.
  by rewrite !lookup_insert_ne by done.
Qed.

(** Giving one signed field another value gives another payload. *)
Lemma payload_single_field (receipt_data : gmap string string)
    (key default v' : string) :
  (key, default) ∈ signed_fields ->
  v' <> dict_get receipt_data key default ->
  SignatureService._create_signing_payload (<[key := v']> receipt_data)
  <> SignatureService._create_signing_payload receipt_data.
Proof.
  intros Hkey Hv. unfold signed_fields in Hkey.
  repeat (apply elem_of_cons in Hkey as [[= -> ->] | Hkey]);
    [.. | by apply elem_of_nil in Hkey];
    unfold SignatureService._create_signing_payload;
    unfold dict_get at 1 2 3 4 5 6 7 8 9 10;
    rewrite lookup_insert_eq, !lookup_insert_ne by done;
    fold (dict_get receipt_data "receipt_number" "");
    fold (dict_get receipt_data "reference_number" "");
    fold (dict_get receipt_data "amount" "");
    fold (dict_get receipt_data "currency" "PKR");
    fold (dict_get receipt_data "customer_name" "");
    fold (dict_get receipt_data "customer_account" "");
    fold (dict_get receipt_data "transaction_type" "");
    fold (dict_get receipt_data "transaction_date" "");
    fold (dict_get receipt_data "branch_id" "");
    fold (dict_get receipt_data "processed_by" "").
  all: first
    [ differs_at 0%nat | differs_at 1%nat | differs_at 2%nat
    | differs_at 3%nat | differs_at 4%nat | differs_at 5%nat
    | differs_at 6%nat | differs_at 7%nat | differs_at 8%nat
    | differs_at 9%nat ].
Qed.

End Payload.

(** ** Signing and verifying *)

Section Signature.
Context `{Platform}.

(** The state the service is in once it has been used with the pair at hand. *)
Lemma ready_initialize (cls : SignatureService.state) (files : key_files)
    (sk : PrivateKey) (pk : PublicKey) :
  ready_with cls files sk pk ->
  exists cls',
    (if SignatureService._initialized cls then (cls, true)
     else SignatureService.initialize files cls) = (cls', true)
    /\ SignatureService._initialized cls' = true
    /\ SignatureService._private_key cls' = Some sk
    /\ SignatureService._public_key cls' = Some pk.
Proof.
  intros [(Hinit & Hsk & Hpk) | (Hinit & ->)].
  - exists cls. by rewrite Hinit.
  - eexists. unfold SignatureService.initialize. rewrite Hinit. by simpl.
Qed.

Lemma sign_receipt_ready (cls : SignatureService.state) (files : key_files)
    (sk : PrivateKey) (pk : PublicKey) (utcnow : datetime)
    (receipt_data : gmap string string) :
  ready_with cls files sk pk ->
  exists cls',
    SignatureService.sign_receipt files utcnow cls receipt_data
    = (cls',
       (Some (b64encode
                (rsa_sign sk
                   (SignatureService._create_signing_payload receipt_data))),
        Some (sha256_hexdigest
                (SignatureService._create_signing_payload receipt_data)),
        Some (isoformat utcnow ++ "Z")))
    /\ ready_with cls' files sk pk.
Proof.
  intros Hready.
  destruct (ready_initialize _ _ _ _ Hready) as (cls' & Hinit & Hi & Hsk & Hpk).
  exists cls'. unfold SignatureService.sign_receipt.
  rewrite Hinit. simpl. rewrite Hsk, payload_ignores_signing_timestamp.
  split; [done|]. left. done.
Qed.

Lemma verify_signature_ready (cls : SignatureService.state)
    (files : key_files) (sk : PrivateKey) (pk : PublicKey)
    (receipt_data : gmap string string) (signature_b64 signature ts : string) :
  ready_with cls files sk pk ->
  b64decode signature_b64 = inl signature ->
  (SignatureService.verify_signature files cls receipt_data signature_b64 ts).2
  = if rsa_verify pk signature
         (SignatureService._create_signing_payload receipt_data)
    then (true, SignatureService.msg_authentic)
    else (false, SignatureService.msg_tampered).
Proof.
  intros Hready Hb64.
  destruct (ready_initialize _ _ _ _ Hready) as (cls' & Hinit & Hi & Hsk & Hpk).
  unfold SignatureService.verify_signature.
  rewrite Hinit. simpl. rewrite Hb64, Hpk, payload_ignores_signing_timestamp.
  by destruct (rsa_verify _ _ _).
Qed.

(** Whatever signing timestamp is handed to [verify_signature], the verdict
    is the same: the timestamp takes no part in what is verified. *)
Lemma verify_signature_any_timestamp (cls : SignatureService.state)
    (files : key_files) (receipt_data : gmap string string)
    (signature_b64 ts ts' : string) :
  SignatureService.verify_signature files cls receipt_data signature_b64 ts
  = SignatureService.verify_signature files cls receipt_data signature_b64 ts'.
Proof.
  unfold SignatureService.verify_signature.
  by rewrite !payload_ignores_signing_timestamp.
Qed.


End Signature.

(** The demo platform meets the assumptions made on the libraries. *)
Lemma demo_key_pair : @key_pair Demo.demo_platform 7 7.
Proof.
  intros data data'. simpl. rewrite String.eqb_eq. unfold Demo.demo_sign.
  split; [|by intros ->].
  intros Heq. by repeat apply string_app_inv_head in Heq.
Qed.

Lemma demo_b64_round_trip : @b64_round_trip Demo.demo_platform.
Proof. by intros b. Qed.

Lemma demo_ready :
  @ready_with Demo.demo_platform SignatureService.initial Demo.keys 7 7.
Proof. by right. Qed.


(** The scenario of the specification: the amount of the signed receipt is
    changed from 50000 to 50001 before verification. *)
Example scenario_amount_tampered :
  let '(cls, (signature, _, ts)) :=
    @SignatureService.sign_receipt Demo.demo_platform Demo.keys (minutes 30)
      SignatureService.initial Demo.receipt_data in
  (@SignatureService.verify_signature Demo.demo_platform Demo.keys cls
     (<["amount" := "50001"]> Demo.receipt_data)
     (default "" signature) (default "" ts)).2
  = (false, SignatureService.msg_tampered).
Proof. by vm_compute. Qed.

(** C1: the receipt of the scenario is signed at one instant and verified
    with another signing timestamp; verification still reports the receipt
    authentic, where the specification has it report the signature invalid. *)
Theorem C1_signing_timestamp_not_bound :
  exists cls signature_b64 payload_hash,
    @SignatureService.sign_receipt Demo.demo_platform Demo.keys (minutes 30)
      SignatureService.initial Demo.receipt_data
    = (cls, (Some signature_b64, Some payload_hash, Some "1800000000Z"))
    /\ (@SignatureService.verify_signature Demo.demo_platform Demo.keys cls
          Demo.receipt_data signature_b64 "1800000001Z").2
       = (true, SignatureService.msg_authentic).
Proof. eexists _, _, _. split; by vm_compute. Qed.

(** ** Receipt look-up *)

(** C10: looking a receipt up by its number answers valid, with the success
    message, whenever a stored receipt has that number, whatever its
    signature columns hold; it answers invalid, with [Receipt not found],
    exactly when no stored receipt has that number, and then stores
    nothing.  The receipt answered is the earliest row with that number,
    stored back in its row with [verified_count] one higher, [is_verified]
    set and [last_verified_at] the time of the call, the signature columns
    untouched; the other rows and tables stay as they were. *)
Theorem C10_verify_receipt_by_number (utcnow : datetime) (db : Database)
    (receipt_number : string) :
  let answer := ReceiptService.verify_receipt utcnow db receipt_number in
  ((exists r, r ∈ receipts db /\ Receipt.receipt_number r = receipt_number) ->
   exists (i : nat) receipt receipt',
     receipts db !! i = Some receipt
     /\ Receipt.receipt_number receipt = receipt_number
     /\ (forall (j : nat) r,
           (j < i)%nat -> receipts db !! j = Some r ->
           Receipt.receipt_number r <> receipt_number)
     /\ answer.2 = (Some receipt', true, "Receipt verified successfully")
     /\ Receipt.receipt_number receipt' = receipt_number
     /\ Receipt.verified_count receipt'
        = (Receipt.verified_count receipt + 1)%Z
     /\ Receipt.is_verified receipt' = true
     /\ Receipt.last_verified_at receipt' = Some utcnow
     /\ Receipt.digital_signature receipt'
        = Receipt.digital_signature receipt
     /\ Receipt.signature_hash receipt' = Receipt.signature_hash receipt
     /\ Receipt.is_signature_valid receipt'
        = Receipt.is_signature_valid receipt
     /\ receipts answer.1 = <[i := receipt']> (receipts db)
     /\ transactions answer.1 = transactions db
     /\ deposit_slips answer.1 = deposit_slips db)
  /\ ((forall r,
         r ∈ receipts db -> Receipt.receipt_number r <> receipt_number) ->
      answer = (db, (None, false, "Receipt not found")))
  /\ (answer.2.1.2 = false
      <-> forall r,
            r ∈ receipts db -> Receipt.receipt_number r <> receipt_number).
Proof.
  intros answer. subst answer. unfold ReceiptService.verify_receipt.
  destruct (first _ (receipts db)) as [receipt|] eqn:Hfound.
  - pose proof Hfound as [Hin Hnumber%String.eqb_eq]%first_Some_elem.
    split; [|split].
    + intros _.
      destruct (first_Some_index _
                  (fun _ =>
                     Receipt.set_is_verified true
                       (Receipt.set_last_verified_at (Some utcnow)
                          (Receipt.set_verified_count
                             (Receipt.verified_count receipt + 1) receipt)))
                  _ _ Hfound)
        as (i & Hi & Hbefore & Hupdate).
      eexists i, receipt, _. split; [done|]. split; [done|]. split.
      { intros j r Hj Hrow Hr. specialize (Hbefore j r Hj Hrow).
        unfold ReceiptService.by_receipt_number in Hbefore.
        by rewrite Hr, String.eqb_refl in Hbefore. }
      split; [reflexivity|]. simpl. rewrite Hupdate.
      repeat split; by destruct receipt.
    + intros Hnone. by destruct (Hnone receipt Hin).
    + simpl. split; [done|]. intros Hnone. by destruct (Hnone receipt Hin).
  - split; [|split].
    + intros (r & Hin & Hr). rewrite first_None_elem in Hfound.
      specialize (Hfound r Hin).
      unfold ReceiptService.by_receipt_number in Hfound.
      by rewrite Hr, String.eqb_refl in Hfound.
    + done.
    + simpl. split; [|done]. intros _ r Hin Hr.
      rewrite first_None_elem in Hfound. specialize (Hfound r Hin).
      unfold ReceiptService.by_receipt_number in Hfound.
      by rewrite Hr, String.eqb_refl in Hfound.
Qed.

(** ** The deposit slip life cycle *)

Section Lifecycle.
Import DepositSlipStatus.

Lemma commit_slip_first (drid : string) (slip slip' : DigitalDepositSlip.t)
    (db : Database) :
  first (DRIDService.by_drid drid) (deposit_slips db) = Some slip ->
  DigitalDepositSlip.drid slip' = DigitalDepositSlip.drid slip ->
  first (DRIDService.by_drid drid)
    (deposit_slips (DRIDService.commit_slip drid slip' db))
  = Some slip'.
Proof.
  intros Hfound Hdrid. simpl.
  rewrite first_update_first, Hfound; [done|].
  intros _ _. apply first_Some_elem in Hfound as [_ Hp].
  unfold DRIDService.by_drid in *. by rewrite Hdrid.
Qed.

Lemma is_in_true (x : DepositSlipStatus.t) (l : list DepositSlipStatus.t) :
  is_in x l = true <-> x ∈ l.
Proof. unfold is_in. apply bool_decide_eq_true. Qed.


(** C6 (as the code has it): cancellation, and likewise rejection, is refused
    for a slip that is COMPLETED or EXPIRED and goes through for a slip in
    any other status - INITIATED, RETRIEVED, VERIFIED, and also PROCESSING,
    CANCELLED and REJECTED - leaving it stored as CANCELLED (REJECTED). *)
Theorem C6_cancel_reject_guard (utcnow : datetime) (db : Database)
    (drid : string) (cancelled_by : option string)
    (reason current_user_id : string) (slip : DigitalDepositSlip.t) :
  first (DRIDService.by_drid drid) (deposit_slips db) = Some slip ->
  let cancelled :=
    DRIDService.cancel_deposit_slip utcnow db drid cancelled_by reason in
  let rejected :=
    deposit_slips.teller_reject_deposit_slip utcnow db drid reason
      current_user_id in
  (DigitalDepositSlip.status slip ∈ [COMPLETED; EXPIRED] ->
     cancelled
     = (db, (None, Some ("Cannot cancel: current status is "
                           ++ value (DigitalDepositSlip.status slip))))
     /\ rejected
        = (db, deposit_slips.HTTPException 400
                 ("Cannot reject: current status is "
                    ++ value (DigitalDepositSlip.status slip))))
  /\ (DigitalDepositSlip.status slip
        ∈ [INITIATED; RETRIEVED; VERIFIED; PROCESSING; CANCELLED; REJECTED] ->
      (exists slip',
         cancelled.2 = (Some slip', None)
         /\ DigitalDepositSlip.status slip' = CANCELLED
         /\ first (DRIDService.by_drid drid) (deposit_slips cancelled.1)
            = Some slip')
      /\ (exists slip',
            rejected.2 = deposit_slips.Rejected "Deposit slip rejected" drid reason
            /\ DigitalDepositSlip.status slip' = REJECTED
            /\ first (DRIDService.by_drid drid) (deposit_slips rejected.1)
               = Some slip')).
Proof.
  intros Hfound cancelled rejected. subst cancelled rejected.
  unfold DRIDService.cancel_deposit_slip,
    deposit_slips.teller_reject_deposit_slip,
    DRIDService.get_deposit_slip_by_drid.
  rewrite Hfound. split; intros Hst.
  - apply is_in_true in Hst. by rewrite Hst.
  - assert (is_in (DigitalDepositSlip.status slip) [COMPLETED; EXPIRED] = false)
      as ->.
    { apply is_in_true in Hst.
      by destruct (DigitalDepositSlip.status slip). }
    split; eexists; (split; [reflexivity|]); (split; [|apply (commit_slip_first _ slip); [done|]]).
    + destruct cancelled_by as [by_|]; [destruct (negb _ && negb _)|];
        by destruct slip.
    + destruct cancelled_by as [by_|]; [destruct (negb _ && negb _)|];
        by destruct slip.
    + by destruct slip.
    + by destruct slip.
Qed.

(** C4: verification goes through exactly when the slip is RETRIEVED, not
    past its expiry, the amount and the depositor are both confirmed and, for
    a cheque or pay order, the instrument is verified (a cash deposit needs
    no instrument flag); the slip is then stored as VERIFIED.  Verifying an
    INITIATED slip is refused with an error naming that status, and
    completing a slip in any status but VERIFIED is refused, the tables left
    as they were. *)
Theorem C4_verify_complete_guards `{Platform} (utcnow : datetime)
    (db : Database) (drid teller_id : string)
    (amount_confirmed depositor_verified : bool)
    (instrument_verified : option bool) (notes : option string)
    (e : DRIDService.complete_env) (sig : SignatureService.state)
    (authorization_captured : bool) (slip : DigitalDepositSlip.t) :
  first (DRIDService.by_drid drid) (deposit_slips db) = Some slip ->
  let verified :=
    DRIDService.verify_deposit_slip utcnow db drid teller_id amount_confirmed
      depositor_verified instrument_verified notes in
  ((exists slip', verified.2 = (Some slip', None))
   <-> DigitalDepositSlip.status slip = RETRIEVED
       /\ ~ (utcnow > DigitalDepositSlip.expires_at slip)%Z
       /\ amount_confirmed = true
       /\ depositor_verified = true
       /\ (DigitalDepositSlip.transaction_type slip
             ∈ [TransactionType.CHEQUE_DEPOSIT; TransactionType.PAY_ORDER] ->
           instrument_verified = Some true))
  /\ (forall slip',
        verified.2 = (Some slip', None) ->
        DigitalDepositSlip.status slip' = VERIFIED
        /\ first (DRIDService.by_drid drid) (deposit_slips verified.1)
           = Some slip')
  /\ (DigitalDepositSlip.status slip = INITIATED ->
      verified
      = (db, (None, Some "Cannot verify: current status is INITIATED")))
  /\ (DigitalDepositSlip.status slip <> VERIFIED ->
      DRIDService.complete_deposit_slip e sig db drid teller_id
        authorization_captured notes
      = (sig, db,
         Returned
           (None, None, Some ("Cannot complete: current status is "
                                ++ value (DigitalDepositSlip.status slip))))).
Proof.
  intros Hfound verified. subst verified.
  unfold DRIDService.verify_deposit_slip, DRIDService.complete_deposit_slip.
  rewrite Hfound.
  split; [split|split; [|split]].
  - intros [slip' Hok]. repeat case_bool_decide; simpl in *; try done.
    all: destruct (Z.gtb_spec utcnow (DigitalDepositSlip.expires_at slip));
      try done.
    all: destruct amount_confirmed, depositor_verified; try done.
    all: repeat split; try done; try lia.
    intros _. simpl in Hok. by destruct instrument_verified as [[]|].
  - intros (Hst & Hexp & -> & -> & Hinstr).
    rewrite bool_decide_eq_false_2 by (intros Hne; by apply Hne).
    destruct (Z.gtb_spec utcnow (DigitalDepositSlip.expires_at slip));
      [lia|]. simpl.
    case_bool_decide as Hkind; simpl; [rewrite (Hinstr Hkind)|]; eauto.
  - intros slip'.
    repeat case_bool_decide; simpl in *; try done.
    all: destruct (utcnow >? _)%Z; try done.
    all: destruct amount_confirmed, depositor_verified; try done.
    all: try (destruct instrument_verified as [[]|]; try done).
    all: intros [= <-]; (split; [by destruct slip|]).
    all: apply (commit_slip_first _ slip); [done|]; by destruct slip.
  - intros Hst. rewrite Hst. by rewrite bool_decide_eq_true_2.
  - intros Hst. by rewrite bool_decide_eq_true_2.
Qed.

(** ** Validation *)

Lemma total_seconds_int_expired (expires_at now : datetime) :
  (now > expires_at)%Z ->
  Z.max 0 (total_seconds_int (expires_at - now)) = 0%Z.
Proof.
  intros Hlate. unfold total_seconds_int.
  assert (0 <= Z.quot (now - expires_at) 1000000)%Z as Hq
    by (apply Z.quot_pos; lia).
  replace (expires_at - now)%Z with (- (now - expires_at))%Z by lia.
  rewrite Z.quot_opp_l by lia. lia.
Qed.

Lemma update_first_const_twice {A : Type} (p : A -> bool) (a b : A)
    (rows : list A) :
  p a = true ->
  update_first p (fun _ => b) (update_first p (fun _ => a) rows)
  = update_first p (fun _ => b) rows.
Proof.
  intros Ha. induction rows as [|r rows IH]; simpl; [done|].
  destruct (p r) eqn:Hr; simpl; [by rewrite Ha | by rewrite Hr, IH].
Qed.

(** What [validate_drid] leaves stored. *)
Lemma validate_drid_found (utcnow : datetime) (db : Database) (drid : string)
    (slip : DigitalDepositSlip.t) :
  first (DRIDService.by_drid drid) (deposit_slips db) = Some slip ->
  (DRIDService.validate_drid utcnow db drid).1
  = DRIDService.commit_slip drid
      (if (utcnow >? DigitalDepositSlip.expires_at slip)%Z
          && bool_decide (DigitalDepositSlip.status slip = INITIATED)
       then DigitalDepositSlip.set_status EXPIRED (touched utcnow slip)
       else touched utcnow slip) db.
Proof.
  intros Hfound. unfold DRIDService.validate_drid. rewrite Hfound.
  fold (touched utcnow slip).
  replace (DigitalDepositSlip.expires_at (touched utcnow slip))
    with (DigitalDepositSlip.expires_at slip) by (by destruct slip).
  replace (DigitalDepositSlip.status (touched utcnow slip))
    with (DigitalDepositSlip.status slip) by (by destruct slip).
  assert (DRIDService.by_drid drid (touched utcnow slip) = true) as Hp.
  { apply first_Some_elem in Hfound as [_ Hp]. by destruct slip. }
  destruct (_ && _).
  - simpl. unfold DRIDService.commit_slip. simpl.
    by rewrite update_first_const_twice.
  - by repeat destruct (is_in _ _).
Qed.

(** The answer of [validate_drid] depends on the slip found through its
    status and its expiry only. *)
Lemma validate_drid_result_ext (utcnow : datetime) (db1 db2 : Database)
    (drid : string) (slip1 slip2 : DigitalDepositSlip.t) :
  first (DRIDService.by_drid drid) (deposit_slips db1) = Some slip1 ->
  first (DRIDService.by_drid drid) (deposit_slips db2) = Some slip2 ->
  DigitalDepositSlip.status slip1 = DigitalDepositSlip.status slip2 ->
  DigitalDepositSlip.expires_at slip1 = DigitalDepositSlip.expires_at slip2 ->
  (DRIDService.validate_drid utcnow db1 drid).2
  = (DRIDService.validate_drid utcnow db2 drid).2.
Proof.
  intros Hfound1 Hfound2 Hst Hexp. unfold DRIDService.validate_drid.
  rewrite Hfound1, Hfound2. fold (touched utcnow slip1) (touched utcnow slip2).
  replace (DigitalDepositSlip.expires_at (touched utcnow slip1))
    with (DigitalDepositSlip.expires_at slip2) by (by destruct slip1).
  replace (DigitalDepositSlip.status (touched utcnow slip1))
    with (DigitalDepositSlip.status slip2) by (by destruct slip1).
  replace (DigitalDepositSlip.expires_at (touched utcnow slip2))
    with (DigitalDepositSlip.expires_at slip2) by (by destruct slip2).
  replace (DigitalDepositSlip.status (touched utcnow slip2))
    with (DigitalDepositSlip.status slip2) by (by destruct slip2).
  by repeat case_match.
Qed.

(** C5 (as the code has it): for every existing token the remaining time
    reported is [max 0 (expires_at - now)] in whole seconds; a token still
    INITIATED when validated after its expiry is reported expired, with
    status EXPIRED, and is stored as EXPIRED by that very read; a token that
    is COMPLETED or PROCESSING is reported used, one that is CANCELLED or
    REJECTED is reported cancelled, neither as expired, whatever the time. *)
Theorem C5_validate_expiry (utcnow : datetime) (db : Database) (drid : string)
    (slip : DigitalDepositSlip.t) :
  first (DRIDService.by_drid drid) (deposit_slips db) = Some slip ->
  let validated := DRIDService.validate_drid utcnow db drid in
  time_remaining_seconds validated.2
  = Some (Z.max 0
            (total_seconds_int (DigitalDepositSlip.expires_at slip - utcnow)))
  /\ (DigitalDepositSlip.status slip = INITIATED ->
      (utcnow > DigitalDepositSlip.expires_at slip)%Z ->
      is_expired validated.2 = true
      /\ is_valid validated.2 = false
      /\ status validated.2 = "EXPIRED"
      /\ exists slip',
           first (DRIDService.by_drid drid) (deposit_slips validated.1)
           = Some slip'
           /\ DigitalDepositSlip.status slip' = EXPIRED)
  /\ (DigitalDepositSlip.status slip ∈ [COMPLETED; PROCESSING] ->
      is_used validated.2 = true /\ is_expired validated.2 = false
      /\ status validated.2 = value (DigitalDepositSlip.status slip))
  /\ (DigitalDepositSlip.status slip ∈ [CANCELLED; REJECTED] ->
      is_cancelled validated.2 = true /\ is_expired validated.2 = false
      /\ status validated.2 = value (DigitalDepositSlip.status slip)).
Proof.
  intros Hfound validated.
  split; [|split; [|split]].
  - subst validated. unfold DRIDService.validate_drid. rewrite Hfound.
    fold (touched utcnow slip).
    replace (DigitalDepositSlip.expires_at (touched utcnow slip))
      with (DigitalDepositSlip.expires_at slip) by (by destruct slip).
    destruct (Z.gtb_spec utcnow (DigitalDepositSlip.expires_at slip))
      as [Hlate|Hearly]; simpl.
    + rewrite total_seconds_int_expired by lia. by repeat case_match.
    + by repeat case_match.
  - intros Hst Hlate.
    assert ((utcnow >? DigitalDepositSlip.expires_at slip)%Z
            && bool_decide (DigitalDepositSlip.status slip = INITIATED) = true)
      as Hlazy.
    { rewrite bool_decide_eq_true_2 by done.
      by destruct (Z.gtb_spec utcnow (DigitalDepositSlip.expires_at slip));
        [|lia]. }
    repeat split.
    4: { exists (DigitalDepositSlip.set_status EXPIRED (touched utcnow slip)).
         subst validated. rewrite (validate_drid_found _ _ _ _ Hfound), Hlazy.
         split; [|by destruct slip].
         apply (commit_slip_first _ slip); [done | by destruct slip]. }
    all: subst validated; unfold DRIDService.validate_drid; rewrite Hfound;
      fold (touched utcnow slip).
    all: replace (DigitalDepositSlip.expires_at (touched utcnow slip))
      with (DigitalDepositSlip.expires_at slip) by (by destruct slip).
    all: replace (DigitalDepositSlip.status (touched utcnow slip))
      with (DigitalDepositSlip.status slip) by (by destruct slip).
    all: by rewrite Hlazy.
  - intros Hst%is_in_true. subst validated.
    unfold DRIDService.validate_drid. rewrite Hfound.
    fold (touched utcnow slip).
    replace (DigitalDepositSlip.status (touched utcnow slip))
      with (DigitalDepositSlip.status slip) by (by destruct slip).
    rewrite Hst.
    rewrite bool_decide_eq_false_2, andb_false_r; [done|].
    intros Hinit. by rewrite Hinit in Hst.
  - intros Hst%is_in_true. subst validated.
    unfold DRIDService.validate_drid. rewrite Hfound.
    fold (touched utcnow slip).
    replace (DigitalDepositSlip.status (touched utcnow slip))
      with (DigitalDepositSlip.status slip) by (by destruct slip).
    rewrite Hst.
    rewrite bool_decide_eq_false_2, andb_false_r; [|].
    + by destruct (is_in _ [COMPLETED; PROCESSING]) eqn:Hused;
        [destruct (DigitalDepositSlip.status slip)|].
    + intros Hinit. by rewrite Hinit in Hst.
Qed.

Lemma overdue_spec (utcnow : datetime) (slip : DigitalDepositSlip.t) :
  (utcnow >? DigitalDepositSlip.expires_at slip)%Z
  && bool_decide (DigitalDepositSlip.status slip = INITIATED) = true
  <-> overdue utcnow slip.
Proof.
  unfold overdue. rewrite andb_true_iff, bool_decide_eq_true.
  destruct (Z.gtb_spec utcnow (DigitalDepositSlip.expires_at slip));
    intuition (done || lia).
Qed.

(** C7 (as the code has it): a call to [validate_drid] writes, on the slip
    it finds, the validation tracking columns ([validation_attempts] is
    raised by one, [last_validation_at] is set to the time of the call) and
    the lazy INITIATED -> EXPIRED transition, and nothing else: every other
    column of that slip, every other slip and every other table is left as
    it was.  For a slip that is not INITIATED and past its expiry, a
    repeated call at the same instant returns the same result. *)
Theorem C7_validate_frame (utcnow : datetime) (db : Database) (drid : string) :
  let db' := (DRIDService.validate_drid utcnow db drid).1 in
  customers db' = customers db
  /\ accounts db' = accounts db
  /\ transactions db' = transactions db
  /\ receipts db' = receipts db
  /\ length (deposit_slips db') = length (deposit_slips db)
  /\ (forall i slip,
        deposit_slips db !! i = Some slip ->
        deposit_slips db' !! i = Some slip
        \/ (first (DRIDService.by_drid drid) (deposit_slips db) = Some slip
            /\ exists slip',
                 deposit_slips db' !! i = Some slip'
                 /\ restore slip slip' = slip
                 /\ DigitalDepositSlip.validation_attempts slip'
                    = (DigitalDepositSlip.validation_attempts slip + 1)%Z
                 /\ DigitalDepositSlip.last_validation_at slip' = Some utcnow
                 /\ (DigitalDepositSlip.status slip'
                     = DigitalDepositSlip.status slip
                     \/ (overdue utcnow slip
                         /\ DigitalDepositSlip.status slip' = EXPIRED))))
  /\ (forall slip,
        first (DRIDService.by_drid drid) (deposit_slips db) = Some slip ->
        ~ overdue utcnow slip ->
        (DRIDService.validate_drid utcnow db' drid).2
        = (DRIDService.validate_drid utcnow db drid).2)
  /\ (first (DRIDService.by_drid drid) (deposit_slips db) = None ->
      db' = db).
Proof.
  intros db'. subst db'.
  destruct (first (DRIDService.by_drid drid) (deposit_slips db))
    as [slip|] eqn:Hfound.
  - rewrite (validate_drid_found _ _ _ _ Hfound).
    set (final := if _ && _ then _ else _).
    repeat split; try done.
    + simpl. apply length_update_first.
    + intros i row Hrow. simpl.
      destruct (update_first_lookup (DRIDService.by_drid drid)
                  (fun _ => final) _ _ _ Hrow) as [Hsame | [Hrow' Hnew]];
        [by left | right].
      unfold first in *. rewrite Hfound in Hrow'. injection Hrow' as <-.
      split; [done|]. exists final. split; [done|]. subst final.
      destruct (_ && _) eqn:Hlazy.
      * apply overdue_spec in Hlazy.
        repeat split; try (by destruct slip).
        right. split; [done | by destruct slip].
      * repeat split; try (by destruct slip).
        left. by destruct slip.
    + intros slip0 [= <-] Hnot. subst final.
      destruct (_ && _) eqn:Hlazy; [by apply overdue_spec in Hlazy|].
      apply (validate_drid_result_ext _ _ _ _ (touched utcnow slip) slip);
        try done; try (by destruct slip).
      apply (commit_slip_first _ slip); [done | by destruct slip].
  - unfold DRIDService.validate_drid. rewrite Hfound. simpl.
    repeat split; try done.
    intros i row Hrow. by left.
Qed.

End Lifecycle.

(** ** Issuing *)

Section Issuing.
Import DepositSlipStatus.
Context `{Platform}.




End Issuing.

(** ** Completion *)

Section Completion.
Import DepositSlipStatus.
Context `{Platform}.

Lemma sign_receipt_unavailable (cls : SignatureService.state)
    (files : key_files) (utcnow : datetime)
    (receipt_data : gmap string string) :
  unavailable cls files ->
  exists cls',
    SignatureService.sign_receipt files utcnow cls receipt_data
    = (cls', (None, None, None))
    /\ unavailable cls' files.
Proof.
  intros [Hinit Hfiles]. unfold SignatureService.sign_receipt.
  rewrite Hinit. unfold SignatureService.initialize. rewrite Hinit.
  destruct files as [sk pk | sk exc | exc]; simpl.
  - by destruct (Hfiles sk pk).
  - eexists. split; [done|]. by split.
  - eexists. split; [done|]. by split.
Qed.

Lemma commit_slip_twice_first (drid : string)
    (slip slip1 slip2 : DigitalDepositSlip.t) (rows : list DigitalDepositSlip.t) :
  first (DRIDService.by_drid drid) rows = Some slip ->
  DigitalDepositSlip.drid slip1 = DigitalDepositSlip.drid slip ->
  DigitalDepositSlip.drid slip2 = DigitalDepositSlip.drid slip ->
  first (DRIDService.by_drid drid)
    (update_first (DRIDService.by_drid drid) (fun _ => slip2)
       (update_first (DRIDService.by_drid drid) (fun _ => slip1) rows))
  = Some slip2.
Proof.
  intros Hfound Hdrid1 Hdrid2.
  assert (DRIDService.by_drid drid slip = true) as Hp
    by (by apply first_Some_elem in Hfound as [_ ?]).
  unfold DRIDService.by_drid in *.
  rewrite update_first_const_twice by (by rewrite Hdrid1).
  rewrite first_update_first, Hfound; [done|].
  intros _ _. by rewrite Hdrid2.
Qed.

(** When the receipt cannot be stored and the session stays usable,
    completion reverts the slip to VERIFIED and reports the error, and the
    transaction committed before the receipt was attempted stays in the
    table. *)
Lemma complete_receipt_failure (e : DRIDService.complete_env)
    (sig : SignatureService.state) (db : Database) (drid teller_id : string)
    (teller_notes : option string) (slip : DigitalDepositSlip.t)
    (exc : string) :
  first (DRIDService.by_drid drid) (deposit_slips db) = Some slip ->
  DigitalDepositSlip.status slip = VERIFIED ->
  (DRIDService.complete_utcnow e <= DigitalDepositSlip.expires_at slip)%Z ->
  DRIDService.complete_fault e = None ->
  ReceiptService.fault (DRIDService.receipt_env e) = Some (Exception exc) ->
  exists sig' db' transaction,
    DRIDService.complete_deposit_slip e sig db drid teller_id true teller_notes
    = (sig', db',
       Returned (None, None, Some ("Error creating transaction: " ++ exc)))
    /\ first (DRIDService.by_drid drid) (deposit_slips db') = Some slip
    /\ transactions db' = (transactions db ++ [transaction])%list
    /\ Transaction.customer_account transaction
       = DigitalDepositSlip.customer_account slip
    /\ Transaction.amount transaction = DigitalDepositSlip.amount slip
    /\ Transaction.status transaction = TransactionStatus.COMPLETED
    /\ receipts db' = receipts db.
Proof.
  intros Hfound Hst Hexp Hcommit Hfault.
  unfold DRIDService.complete_deposit_slip. rewrite Hfound, Hcommit.
  rewrite bool_decide_eq_false_2 by (intros Hne; by apply Hne).
  destruct (Z.gtb_spec (DRIDService.complete_utcnow e)
              (DigitalDepositSlip.expires_at slip)); [lia|].
  simpl. unfold ReceiptService.create_receipt.
  destruct (SignatureService.sign_receipt _ _ _ _)
    as [sig' [[signature signature_hash] signature_timestamp]].
  rewrite Hfault. simpl.
  eexists _, _, _. split; [reflexivity|]. simpl.
  split; [|by destruct slip].
  rewrite (commit_slip_twice_first _ slip) by (done || by destruct slip).
  f_equal. destruct slip. simpl in *. by rewrite Hst.
Qed.

(** When the commit of the transaction, or the one that stores the receipt,
    fails on the flush, the commit of the except block raises in turn: the
    exception leaves [complete_deposit_slip] and the slip stays stored as
    PROCESSING; in the second case the transaction committed before the
    receipt was attempted stays in the table as well. *)
Lemma complete_flush_failure (e : DRIDService.complete_env)
    (sig : SignatureService.state) (db : Database) (drid teller_id : string)
    (teller_notes : option string) (slip : DigitalDepositSlip.t)
    (exc pending : string) :
  first (DRIDService.by_drid drid) (deposit_slips db) = Some slip ->
  DigitalDepositSlip.status slip = VERIFIED ->
  (DRIDService.complete_utcnow e <= DigitalDepositSlip.expires_at slip)%Z ->
  let stuck := DigitalDepositSlip.set_status PROCESSING slip in
  (DRIDService.complete_fault e = Some (FlushError exc pending) ->
   DRIDService.complete_deposit_slip e sig db drid teller_id true teller_notes
   = (sig, DRIDService.commit_slip drid stuck db, Raised pending))
  /\ (DRIDService.complete_fault e = None ->
      ReceiptService.fault (DRIDService.receipt_env e)
      = Some (FlushError exc pending) ->
      exists sig' db' transaction,
        DRIDService.complete_deposit_slip e sig db drid teller_id true
          teller_notes
        = (sig', db', Raised pending)
        /\ first (DRIDService.by_drid drid) (deposit_slips db') = Some stuck
        /\ transactions db' = (transactions db ++ [transaction])%list
        /\ Transaction.status transaction = TransactionStatus.COMPLETED
        /\ receipts db' = receipts db).
Proof.
  intros Hfound Hst Hexp stuck. subst stuck.
  unfold DRIDService.complete_deposit_slip. rewrite Hfound.
  rewrite bool_decide_eq_false_2 by (intros Hne; by apply Hne).
  destruct (Z.gtb_spec (DRIDService.complete_utcnow e)
              (DigitalDepositSlip.expires_at slip)); [lia|].
  simpl. split.
  - by intros ->.
  - intros -> Hfault. unfold ReceiptService.create_receipt.
    destruct (SignatureService.sign_receipt _ _ _ _)
      as [sig' [[signature signature_hash] signature_timestamp]].
    rewrite Hfault. simpl.
    eexists _, _, _. split; [reflexivity|]. simpl.
    split; [|done].
    apply (commit_slip_first _ slip); [done | by destruct slip].
Qed.
(** C9: when the service holds no key and cannot load one, [sign_receipt]
    returns its all-[None] answer; completing a VERIFIED, unexpired slip with
    the authorization captured still succeeds: the transaction and a receipt
    for it are stored, the slip is COMPLETED and linked to the transaction,
    and the receipt carries no signature and is flagged
    [is_signature_valid = false]. *)
Theorem C9_unsigned_completion (e : DRIDService.complete_env)
    (sig : SignatureService.state) (db : Database) (drid teller_id : string)
    (teller_notes : option string) (slip : DigitalDepositSlip.t) :
  first (DRIDService.by_drid drid) (deposit_slips db) = Some slip ->
  DigitalDepositSlip.status slip = VERIFIED ->
  (DRIDService.complete_utcnow e <= DigitalDepositSlip.expires_at slip)%Z ->
  DRIDService.complete_fault e = None ->
  ReceiptService.fault (DRIDService.receipt_env e) = None ->
  unavailable sig (ReceiptService.files (DRIDService.receipt_env e)) ->
  (forall utcnow receipt_data,
     (SignatureService.sign_receipt
        (ReceiptService.files (DRIDService.receipt_env e)) utcnow sig
        receipt_data).2
     = (None, None, None))
  /\ exists sig' db' slip' transaction receipt,
       DRIDService.complete_deposit_slip e sig db drid teller_id true
         teller_notes
       = (sig', db', Returned (Some slip', Some transaction, None))
       /\ DigitalDepositSlip.status slip' = COMPLETED
       /\ DigitalDepositSlip.transaction_id slip'
          = Some (Transaction.id transaction)
       /\ first (DRIDService.by_drid drid) (deposit_slips db') = Some slip'
       /\ transactions db' = (transactions db ++ [transaction])%list
       /\ Transaction.amount transaction = DigitalDepositSlip.amount slip
       /\ receipts db' = (receipts db ++ [receipt])%list
       /\ Receipt.transaction_id receipt = Transaction.id transaction
       /\ Receipt.digital_signature receipt = None
       /\ Receipt.is_signature_valid receipt = false.
Proof.
  intros Hfound Hst Hexp Hcommit Hcommit' Hunavailable. split.
  - intros utcnow receipt_data.
    by destruct (sign_receipt_unavailable _ _ utcnow receipt_data Hunavailable)
      as (cls' & -> & _).
  - unfold DRIDService.complete_deposit_slip. rewrite Hfound, Hcommit.
    rewrite bool_decide_eq_false_2 by (intros Hne; by apply Hne).
    destruct (Z.gtb_spec (DRIDService.complete_utcnow e)
                (DigitalDepositSlip.expires_at slip)); [lia|].
    simpl. unfold ReceiptService.create_receipt.
    match goal with
    | |- context [SignatureService.sign_receipt ?f ?t ?c ?d] =>
        destruct (sign_receipt_unavailable c f t d Hunavailable)
          as (cls' & -> & _)
    end.
    rewrite Hcommit'. simpl.
    eexists _, _, _, _, _. split; [reflexivity|]. simpl.
    rewrite (commit_slip_twice_first _ slip) by (done || by destruct slip).
    repeat split; by destruct slip.
Qed.

End Completion.

(** ** The statements on a concrete database

    The database of [Demo] holds one customer, her account [A-001] and one
    slip [DRID-19700101-T1] on it that expires one hour after the epoch. *)

Section Concrete.
Import DepositSlipStatus.
#[local] Existing Instance Demo.demo_platform.



(** An INITIATED slip is refused by both operations; the RETRIEVED cash
    deposit of the scenario, both confirmations given and no instrument flag,
    is verified. *)
Lemma C4_verify_complete_guards_witness :
  first (DRIDService.by_drid Demo.T1) (deposit_slips (Demo.db_with INITIATED))
  = Some (Demo.slip INITIATED)
  /\ DRIDService.verify_deposit_slip (minutes 10) (Demo.db_with INITIATED)
       Demo.T1 "u-9" true true None None
     = (Demo.db_with INITIATED,
        (None, Some "Cannot verify: current status is INITIATED"))
  /\ DRIDService.complete_deposit_slip (Demo.complete_env Demo.keys None)
       SignatureService.initial (Demo.db_with INITIATED) Demo.T1 "u-9" true
       None
     = (SignatureService.initial, Demo.db_with INITIATED,
        Returned
          (None, None, Some "Cannot complete: current status is INITIATED"))
  /\ exists slip',
       (DRIDService.verify_deposit_slip (minutes 10) (Demo.db_with RETRIEVED)
          Demo.T1 "u-9" true true None None).2
       = (Some slip', None).
Proof.
  split; [reflexivity|].
  destruct (C4_verify_complete_guards (minutes 10) (Demo.db_with INITIATED)
              Demo.T1 "u-9" true true None None
              (Demo.complete_env Demo.keys None) SignatureService.initial true
              (Demo.slip INITIATED) eq_refl)
    as (_ & _ & Hverify & Hcomplete).
  split; [by apply Hverify|]. split; [by apply Hcomplete|].
  apply (C4_verify_complete_guards (minutes 10) (Demo.db_with RETRIEVED)
           Demo.T1 "u-9" true true None None
           (Demo.complete_env Demo.keys None) SignatureService.initial true
           (Demo.slip RETRIEVED) eq_refl).
  repeat split; try done.
  intros Hkind. simpl in Hkind.
  do 2 (apply elem_of_cons in Hkind as [Hkind | Hkind]; [done|]).
  by apply elem_of_nil in Hkind.
Defined.

(** A COMPLETED slip validated one second after its expiry is reported with
    status COMPLETED and not as expired. *)
Lemma C5_completed_not_reported_expired :
  (DigitalDepositSlip.expires_at (Demo.slip COMPLETED) + Demo.second
   > DigitalDepositSlip.expires_at (Demo.slip COMPLETED))%Z
  /\ first (DRIDService.by_drid Demo.T1) (deposit_slips (Demo.db_with COMPLETED))
     = Some (Demo.slip COMPLETED)
  /\ is_expired
       (DRIDService.validate_drid
          (DigitalDepositSlip.expires_at (Demo.slip COMPLETED) + Demo.second)
          (Demo.db_with COMPLETED) Demo.T1).2
     = false
  /\ status
       (DRIDService.validate_drid
          (DigitalDepositSlip.expires_at (Demo.slip COMPLETED) + Demo.second)
          (Demo.db_with COMPLETED) Demo.T1).2
     = "COMPLETED".
Proof. by vm_compute. Qed.

(** An INITIATED slip validated one second after its expiry. *)
Lemma C5_validate_expiry_witness :
  first (DRIDService.by_drid Demo.T1) (deposit_slips (Demo.db_with INITIATED))
  = Some (Demo.slip INITIATED)
  /\ time_remaining_seconds
       (DRIDService.validate_drid (minutes 60 + Demo.second)
          (Demo.db_with INITIATED) Demo.T1).2
     = Some 0%Z
  /\ is_expired
       (DRIDService.validate_drid (minutes 60 + Demo.second)
          (Demo.db_with INITIATED) Demo.T1).2
     = true
  /\ status
       (DRIDService.validate_drid (minutes 60 + Demo.second)
          (Demo.db_with INITIATED) Demo.T1).2
     = "EXPIRED".
Proof.
  split; [reflexivity|].
  destruct (C5_validate_expiry (minutes 60 + Demo.second)
              (Demo.db_with INITIATED) Demo.T1 (Demo.slip INITIATED) eq_refl)
    as (Htime & Hlazy & _).
  split; [exact Htime|].
  destruct Hlazy as (Hexpired & _ & Hstatus & _); [reflexivity | reflexivity |].
  by split.
Defined.

(** Cancelling a REJECTED slip goes through and stores it as CANCELLED. *)
Lemma C6_cancel_rejected_goes_through :
  first (DRIDService.by_drid Demo.T1) (deposit_slips (Demo.db_with REJECTED))
  = Some (Demo.slip REJECTED)
  /\ exists slip',
       (DRIDService.cancel_deposit_slip (minutes 10) (Demo.db_with REJECTED)
          Demo.T1 (Some "CUSTOMER") "no longer needed").2
       = (Some slip', None)
       /\ DigitalDepositSlip.status slip' = CANCELLED
       /\ first (DRIDService.by_drid Demo.T1)
            (deposit_slips
               (DRIDService.cancel_deposit_slip (minutes 10)
                  (Demo.db_with REJECTED) Demo.T1 (Some "CUSTOMER")
                  "no longer needed").1)
          = Some slip'.
Proof. split; [reflexivity|]. eexists. by vm_compute. Qed.

(** A COMPLETED slip can be neither cancelled nor rejected. *)
Lemma C6_cancel_reject_guard_witness :
  first (DRIDService.by_drid Demo.T1) (deposit_slips (Demo.db_with COMPLETED))
  = Some (Demo.slip COMPLETED)
  /\ DRIDService.cancel_deposit_slip (minutes 10) (Demo.db_with COMPLETED)
       Demo.T1 None "no longer needed"
     = (Demo.db_with COMPLETED,
        (None, Some "Cannot cancel: current status is COMPLETED"))
  /\ deposit_slips.teller_reject_deposit_slip (minutes 10)
       (Demo.db_with COMPLETED) Demo.T1 "no longer needed" "u-9"
     = (Demo.db_with COMPLETED,
        deposit_slips.HTTPException 400
          "Cannot reject: current status is COMPLETED").
Proof.
  split; [reflexivity|].
  destruct (C6_cancel_reject_guard (minutes 10) (Demo.db_with COMPLETED)
              Demo.T1 None "no longer needed" "u-9" (Demo.slip COMPLETED)
              eq_refl) as [Hrefused _].
  destruct Hrefused as [Hc Hr]; [by apply is_in_true|].
  split; [exact Hc | exact Hr].
Defined.

(** Validating a RETRIEVED slip well before its expiry changes the stored
    slip: [validation_attempts] and [last_validation_at] are written. *)
Lemma C7_validate_counts_attempts :
  exists slip',
    first (DRIDService.by_drid Demo.T1)
      (deposit_slips
         (DRIDService.validate_drid (minutes 10) (Demo.db_with RETRIEVED)
            Demo.T1).1)
    = Some slip'
    /\ DigitalDepositSlip.status slip' = RETRIEVED
    /\ DigitalDepositSlip.validation_attempts (Demo.slip RETRIEVED) = 0%Z
    /\ DigitalDepositSlip.validation_attempts slip' = 1%Z
    /\ DigitalDepositSlip.last_validation_at (Demo.slip RETRIEVED) = None
    /\ DigitalDepositSlip.last_validation_at slip' = Some (minutes 10).
Proof. eexists. by vm_compute. Qed.

(** A second call on a slip the first call has just expired answers
    differently: the slip, now EXPIRED, is reported valid. *)
Example validate_twice_overdue :
  DRIDService.validate_drid (minutes 61) (Demo.db_with INITIATED) Demo.T1
  = (Build_Database [Demo.customer] [Demo.account]
       [DigitalDepositSlip.set_status EXPIRED
          (touched (minutes 61) (Demo.slip INITIATED))] [] [],
     Build_DRIDValidationResult false true false false "EXPIRED"
       "DRID has expired" (Some 0%Z))
  /\ (DRIDService.validate_drid (minutes 61)
        (DRIDService.validate_drid (minutes 61) (Demo.db_with INITIATED)
           Demo.T1).1 Demo.T1).2
     = Build_DRIDValidationResult true false false false "EXPIRED"
         "DRID is valid" (Some 0%Z).
Proof. by vm_compute. Qed.

(** Validating a RETRIEVED slip twice at the same instant. *)
Lemma C7_validate_frame_witness :
  (DRIDService.validate_drid (minutes 10)
     (DRIDService.validate_drid (minutes 10) (Demo.db_with RETRIEVED)
        Demo.T1).1 Demo.T1).2
  = (DRIDService.validate_drid (minutes 10) (Demo.db_with RETRIEVED)
       Demo.T1).2.
Proof.
  destruct (C7_validate_frame (minutes 10) (Demo.db_with RETRIEVED) Demo.T1)
    as (_ & _ & _ & _ & _ & _ & Hsame & _).
  apply (Hsame (Demo.slip RETRIEVED) eq_refl).
  intros [Hst _]. discriminate Hst.
Defined.

(** C2: completion of the slip of the scenario, with an exception raised in
    [create_receipt] after the transaction was committed and before the
    receipt is stored, the session staying usable.  The slip is back to
    VERIFIED and the error is reported, yet the transaction stays in the
    table, where the specification has no financial record left visible. *)
Theorem C2_failed_receipt_leaves_transaction :
  exists sig' db' transaction,
    DRIDService.complete_deposit_slip
      (Demo.complete_env Demo.keys (Some "receipts: connection lost"))
      SignatureService.initial (Demo.db_with VERIFIED) Demo.T1 "u-9" true None
    = (sig', db',
       Returned
         (None, None,
          Some "Error creating transaction: receipts: connection lost"))
    /\ first (DRIDService.by_drid Demo.T1) (deposit_slips db')
       = Some (Demo.slip VERIFIED)
    /\ transactions db' = [transaction]
    /\ Transaction.customer_account transaction = "A-001"
    /\ Transaction.amount transaction = "50000.00"
    /\ Transaction.status transaction = TransactionStatus.COMPLETED
    /\ receipts db' = [].
Proof. eexists _, _, _. split; [by vm_compute|]. by vm_compute. Qed.

Lemma demo_unavailable :
  unavailable SignatureService.initial Demo.no_keys.
Proof. by split. Qed.

(** The slip of the scenario completed while the key files cannot be read. *)
Lemma C9_unsigned_completion_witness :
  (SignatureService.sign_receipt Demo.no_keys (minutes 30)
     SignatureService.initial Demo.receipt_data).2
  = (None, None, None)
  /\ exists sig' db' slip' transaction receipt,
       DRIDService.complete_deposit_slip (Demo.complete_env Demo.no_keys None)
         SignatureService.initial (Demo.db_with VERIFIED) Demo.T1 "u-9" true
         None
       = (sig', db', Returned (Some slip', Some transaction, None))
       /\ DigitalDepositSlip.status slip' = COMPLETED
       /\ transactions db' = [transaction]
       /\ receipts db' = [receipt]
       /\ Receipt.digital_signature receipt = None
       /\ Receipt.is_signature_valid receipt = false.
Proof.
  destruct (C9_unsigned_completion (Demo.complete_env Demo.no_keys None)
              SignatureService.initial (Demo.db_with VERIFIED) Demo.T1 "u-9"
              None (Demo.slip VERIFIED) eq_refl eq_refl)
    as [Hsign Hcomplete]; [by vm_compute | done | done | exact demo_unavailable |].
  split; [apply Hsign|].
  destruct Hcomplete
    as (sig' & db' & slip' & transaction & receipt & Hc & Hst & _ & _ & Htx
        & _ & Hrc & _ & Hsg & Hvalid).
  exists sig', db', slip', transaction, receipt. by repeat split.
Defined.

(** The receipt stored without a signature at minute 30 is looked up at
    minute 40 and answered valid, its count going from 0 to 1; a number no
    receipt has is answered [Receipt not found]. *)
Lemma C10_verify_receipt_by_number_witness :
  ((fun r => (Receipt.receipt_number r, Receipt.digital_signature r,
              Receipt.is_signature_valid r, Receipt.verified_count r))
     <$> receipts Walkthrough.settled_unsigned.1.2)
  = [("RCP-1800000000-R0000001", None, false, 0%Z)]
  /\ (exists receipt',
        (ReceiptService.verify_receipt (minutes 40)
           Walkthrough.settled_unsigned.1.2 "RCP-1800000000-R0000001").2
        = (Some receipt', true, "Receipt verified successfully")
        /\ Receipt.verified_count receipt' = 1%Z
        /\ Receipt.is_verified receipt' = true
        /\ receipts
             (ReceiptService.verify_receipt (minutes 40)
                Walkthrough.settled_unsigned.1.2 "RCP-1800000000-R0000001").1
           = [receipt'])
  /\ ReceiptService.verify_receipt (minutes 40)
       Walkthrough.settled_unsigned.1.2 "RCP-1800000000-R0000002"
     = (Walkthrough.settled_unsigned.1.2,
        (None, false, "Receipt not found")).
Proof.
  split; [by vm_compute|].
  destruct (C10_verify_receipt_by_number (minutes 40)
              Walkthrough.settled_unsigned.1.2 "RCP-1800000000-R0000001")
    as [Hfound _].
  destruct (C10_verify_receipt_by_number (minutes 40)
              Walkthrough.settled_unsigned.1.2 "RCP-1800000000-R0000002")
    as (_ & Hmissing & _).
  split.
  - let stored :=
      eval vm_compute in (receipts Walkthrough.settled_unsigned.1.2) in
    match stored with
    | [?r] =>
        destruct Hfound
          as (i & receipt & receipt' & Hrow & _ & _ & Hanswer & _ & Hcount
              & Hverified & _ & _ & _ & _ & Hstored & _);
          [exists r; split; [by apply list_elem_of_singleton | by vm_compute]|];
          assert (receipts Walkthrough.settled_unsigned.1.2 = [r]) as Hrows
            by (by vm_compute)
    end.
    rewrite Hrows in Hrow, Hstored.
    destruct i as [|i]; [|by destruct i]. injection Hrow as <-.
    exists receipt'. split; [done|]. split; [by rewrite Hcount|].
    split; [done|]. by rewrite Hstored.
  - apply Hmissing. intros r Hin.
    let stored :=
      eval vm_compute in (receipts Walkthrough.settled_unsigned.1.2) in
    assert (receipts Walkthrough.settled_unsigned.1.2 = stored) as Hrows
      by (by vm_compute).
    rewrite Hrows in Hin. apply list_elem_of_singleton in Hin as ->.
    by vm_compute.
Defined.

(** The scenario end to end: the slip goes INITIATED, RETRIEVED, VERIFIED,
    COMPLETED; the stored receipt verifies as authentic; with the stored
    amount overwritten verification reports the tamper message; and a receipt
    made while no key was available is reported as not signed. *)
Example scenario_end_to_end :
  (DigitalDepositSlip.status ∘ snd <$> Demo.issued) = Some INITIATED
  /\ (DigitalDepositSlip.status ∘ snd <$> Demo.retrieved) = Some RETRIEVED
  /\ (DigitalDepositSlip.status ∘ snd <$> Demo.verified) = Some VERIFIED
  /\ match Demo.completed Demo.keys with
     | Some (sig, db, slip, transaction) =>
         DigitalDepositSlip.status slip = COMPLETED
         /\ Transaction.amount transaction = "100.00"
         /\ (Receipt.is_signature_valid <$> receipts db) = [true]
         /\ (ReceiptService.verify_receipt_signature Demo.keys sig db
               "RCP-1800000000-R0000001").2.1
            = (true, SignatureService.msg_authentic)
         /\ (ReceiptService.verify_receipt_signature Demo.keys sig
               (Demo.tamper_amount "100.01" db) "RCP-1800000000-R0000001").2.1
            = (false, SignatureService.msg_tampered)
     | None => False
     end
  /\ match Demo.completed Demo.no_keys with
     | Some (sig, db, slip, transaction) =>
         DigitalDepositSlip.status slip = COMPLETED
         /\ (Receipt.is_signature_valid <$> receipts db) = [false]
         /\ (ReceiptService.verify_receipt_signature Demo.keys sig db
               "RCP-1800000000-R0000001").2.1
            = (false, ReceiptService.msg_not_signed)
     | None => False
     end.
Proof. vm_compute. by repeat split. Qed.

End Concrete.

(** ** What the callers can tell apart *)

Section Outcomes.
Context `{Platform}.

(** An error of [create_deposit_slip] that starts with [EXISTING_SLIP:] - the
    test the WhatsApp adapter makes - is the one for an active slip, and
    carries its DRID. *)
Lemma existing_slip_error_distinguished (e : DRIDService.create_env)
    (db db' : Database)
    (transaction_type customer_cnic customer_account : string)
    (amount : Decimal) (currency : string) (narration : option string)
    (depositor_name depositor_cnic depositor_phone : option string)
    (depositor_relationship : option string) (channel : string)
    (device_info ip_address : option string) (validity_minutes : option Z)
    (additional_data : option string) (err : string) :
  DRIDService.create_deposit_slip e db transaction_type customer_cnic
    customer_account amount currency narration depositor_name depositor_cnic
    depositor_phone depositor_relationship channel device_info ip_address
    validity_minutes additional_data
  = Some (db', Returned (None, Some err)) ->
  startswith err "EXISTING_SLIP:" = true ->
  exists existing,
    first (DRIDService.is_active_for (DRIDService.create_utcnow e)
             customer_cnic customer_account) (deposit_slips db)
    = Some existing
    /\ err = "EXISTING_SLIP:" ++ DigitalDepositSlip.drid existing.
Proof.
  unfold DRIDService.create_deposit_slip.
  repeat case_match; intros [= <- <-]; try (by vm_compute); eauto.
Qed.

(** A receipt without a signature is reported as not signed, whatever the
    state of the signature service. *)
Lemma verify_receipt_signature_unsigned (files : key_files)
    (sig : SignatureService.state) (db : Database) (receipt_number : string)
    (receipt : Receipt.t) :
  first (ReceiptService.by_receipt_number receipt_number) (receipts db)
  = Some receipt ->
  Receipt.digital_signature receipt = None ->
  ReceiptService.verify_receipt_signature files sig db receipt_number
  = (sig, db, (false, ReceiptService.msg_not_signed, Some receipt)).
Proof.
  intros Hfound Hnone. unfold ReceiptService.verify_receipt_signature.
  by rewrite Hfound, Hnone.
Qed.

End Outcomes.

(** ** The life cycle as a whole *)

Section LifeCycle.
Import DepositSlipStatus.
Context `{Platform}.

Lemma edge_refl (a : DepositSlipStatus.t) : edge a a = true.
Proof. by destruct a. Qed.

Lemma moved_refl (txs : list Transaction.t) (s : DigitalDepositSlip.t) :
  moved txs s s.
Proof.
  split; [by destruct s|]. split; [apply edge_refl|].
  unfold link_kept. case_bool_decide as Hc; [|done]. by destruct Hc.
Qed.

Lemma moved_more (txs txs' : list Transaction.t)
    (s s' : DigitalDepositSlip.t) :
  moved txs s s' -> moved (txs ++ txs') s s'.
Proof.
  intros (Hissue & Hedge & Hlink). repeat split; [done..|].
  unfold link_kept in *. case_bool_decide; [|done].
  destruct Hlink as (t & Hin & Htid). exists t. split; [|done].
  apply elem_of_app. by left.
Qed.

Lemma Forall2_moved_refl (txs : list Transaction.t)
    (rows : list DigitalDepositSlip.t) :
  Forall2 (moved txs) rows rows.
Proof. induction rows; constructor; [apply moved_refl | done]. Qed.

Lemma Forall2_moved_update (txs : list Transaction.t) (drid : string)
    (rows : list DigitalDepositSlip.t) (s s' : DigitalDepositSlip.t) :
  first (DRIDService.by_drid drid) rows = Some s ->
  moved txs s s' ->
  Forall2 (moved txs) rows
    (update_first (DRIDService.by_drid drid) (fun _ => s') rows).
Proof.
  unfold first. intros Hfound Hmoved.
  induction rows as [|r rows IH]; simpl in *; [done|].
  destruct (DRIDService.by_drid drid r).
  - injection Hfound as ->. constructor; [done | apply Forall2_moved_refl].
  - constructor; [apply moved_refl | by apply IH].
Qed.

Lemma link_kept_same (txs : list Transaction.t)
    (s s' : DigitalDepositSlip.t) :
  (DigitalDepositSlip.status s' = COMPLETED ->
   DigitalDepositSlip.status s = COMPLETED) ->
  DigitalDepositSlip.transaction_id s' = DigitalDepositSlip.transaction_id s ->
  link_kept txs s s'.
Proof.
  intros Hst Htid. unfold link_kept.
  case_bool_decide as Hc; [|done]. destruct Hc as [Hc Hne]. by destruct Hne, Hst.
Qed.

Lemma link_kept_completed (txs : list Transaction.t)
    (s s' : DigitalDepositSlip.t) (t : Transaction.t) :
  t ∈ txs ->
  DigitalDepositSlip.transaction_id s' = Some (Transaction.id t) ->
  DigitalDepositSlip.status s' = COMPLETED ->
  DigitalDepositSlip.status s <> COMPLETED ->
  link_kept txs s s'.
Proof.
  intros Hin Htid Hst Hne. unfold link_kept.
  rewrite bool_decide_eq_true_2 by done. eauto.
Qed.

(** Closes [moved txs slip slip'] for a [slip'] that is [slip] rewritten by
    setters other than that of the transaction link. *)
Ltac moved_by_setters slip :=
  split; [by destruct slip|];
  split; [|apply link_kept_same; [|by destruct slip]];
  destruct slip; simpl in *; subst; try done.

Lemma validate_moved (txs : list Transaction.t) (utcnow : datetime)
    (db : Database) (drid : string) :
  let db' := (DRIDService.validate_drid utcnow db drid).1 in
  customers db' = customers db /\ accounts db' = accounts db
  /\ transactions db' = transactions db /\ receipts db' = receipts db
  /\ Forall2 (moved txs) (deposit_slips db) (deposit_slips db').
Proof.
  intros db'. subst db'.
  destruct (first (DRIDService.by_drid drid) (deposit_slips db))
    as [slip|] eqn:Hfound.
  - rewrite (validate_drid_found _ _ _ _ Hfound). repeat split.
    simpl. apply (Forall2_moved_update _ _ _ slip); [done|].
    destruct (_ && _) eqn:Hlazy.
    + apply overdue_spec in Hlazy as [Hst _]. unfold touched.
      moved_by_setters slip.
    + unfold touched. moved_by_setters slip. apply edge_refl.
  - unfold DRIDService.validate_drid. rewrite Hfound. simpl.
    repeat split. apply Forall2_moved_refl.
Qed.

Lemma retrieve_moved (txs : list Transaction.t) (utcnow : datetime)
    (db : Database) (drid teller_id : string) :
  let db' := (DRIDService.retrieve_deposit_slip utcnow db drid teller_id).1 in
  customers db' = customers db /\ accounts db' = accounts db
  /\ transactions db' = transactions db /\ receipts db' = receipts db
  /\ Forall2 (moved txs) (deposit_slips db) (deposit_slips db').
Proof.
  intros db'. subst db'. unfold DRIDService.retrieve_deposit_slip.
  pose proof (validate_moved txs utcnow db drid) as Hvalidate.
  destruct (first (DRIDService.by_drid drid) (deposit_slips db))
    as [slip|] eqn:Hfound.
  - pose proof (validate_drid_found utcnow _ _ _ Hfound) as Hdb.
    destruct (DRIDService.validate_drid utcnow db drid) as [db1 validation].
    simpl in Hdb, Hvalidate. destruct (negb _); [done|].
    set (slip1 := if _ && _ then _ else _) in Hdb.
    assert (first (DRIDService.by_drid drid) (deposit_slips db1) = Some slip1)
      as ->.
    { rewrite Hdb. apply (commit_slip_first _ slip); [done|].
      subst slip1. destruct (_ && _); by destruct slip. }
    destruct (negb (is_in _ _)) eqn:Hguard; [done|]. simpl. subst db1. simpl.
    repeat split.
    rewrite update_first_const_twice.
    2: { apply first_Some_elem in Hfound as [_ Hp]. subst slip1.
         unfold DRIDService.by_drid in *.
         destruct (_ && _); by destruct slip. }
    apply (Forall2_moved_update _ _ _ slip); [done|].
    subst slip1.
    destruct (_ && _) eqn:Hlazy; [by destruct slip|].
    replace (DigitalDepositSlip.status (touched utcnow slip))
      with (DigitalDepositSlip.status slip) by (by destruct slip).
    destruct (decide (DigitalDepositSlip.status slip = INITIATED)) as [Hst|Hst].
    + rewrite bool_decide_eq_true_2 by done. unfold touched.
      moved_by_setters slip.
    + rewrite bool_decide_eq_false_2 by done. unfold touched.
      moved_by_setters slip. apply edge_refl.
  - unfold DRIDService.validate_drid in *. rewrite Hfound in *. simpl.
    repeat split. apply Forall2_moved_refl.
Qed.

Lemma verify_moved (txs : list Transaction.t) (utcnow : datetime)
    (db : Database) (drid teller_id : string)
    (amount_confirmed depositor_verified : bool)
    (instrument_verified : option bool) (notes : option string) :
  let db' :=
    (DRIDService.verify_deposit_slip utcnow db drid teller_id amount_confirmed
       depositor_verified instrument_verified notes).1 in
  customers db' = customers db /\ accounts db' = accounts db
  /\ transactions db' = transactions db /\ receipts db' = receipts db
  /\ Forall2 (moved txs) (deposit_slips db) (deposit_slips db').
Proof.
  intros db'. subst db'. unfold DRIDService.verify_deposit_slip.
  destruct (first (DRIDService.by_drid drid) (deposit_slips db))
    as [slip|] eqn:Hfound; [|repeat split; apply Forall2_moved_refl].
  destruct (decide (DigitalDepositSlip.status slip = RETRIEVED)) as [Hst|Hst].
  2: { rewrite bool_decide_eq_true_2 by done.
       repeat split; apply Forall2_moved_refl. }
  rewrite bool_decide_eq_false_2 by (intros Hne; by apply Hne).
  repeat case_match; simpl; repeat split;
    try apply Forall2_moved_refl;
    apply (Forall2_moved_update _ _ _ slip); try done;
    moved_by_setters slip.
Qed.

Lemma cancel_moved (txs : list Transaction.t) (utcnow : datetime)
    (db : Database) (drid : string) (cancelled_by : option string)
    (reason : string) :
  let db' :=
    (DRIDService.cancel_deposit_slip utcnow db drid cancelled_by reason).1 in
  customers db' = customers db /\ accounts db' = accounts db
  /\ transactions db' = transactions db /\ receipts db' = receipts db
  /\ Forall2 (moved txs) (deposit_slips db) (deposit_slips db').
Proof.
  intros db'. subst db'. unfold DRIDService.cancel_deposit_slip.
  destruct (first (DRIDService.by_drid drid) (deposit_slips db))
    as [slip|] eqn:Hfound; [|repeat split; apply Forall2_moved_refl].
  destruct (is_in _ _) eqn:Hguard;
    [repeat split; apply Forall2_moved_refl|].
  simpl. repeat split.
  apply (Forall2_moved_update _ _ _ slip); [done|].
  repeat case_match; moved_by_setters slip;
    match goal with |- edge ?a _ = true => by destruct a end.
Qed.

Lemma reject_moved (txs : list Transaction.t) (utcnow : datetime)
    (db : Database) (drid reason current_user_id : string) :
  let db' :=
    (deposit_slips.teller_reject_deposit_slip utcnow db drid reason
       current_user_id).1 in
  customers db' = customers db /\ accounts db' = accounts db
  /\ transactions db' = transactions db /\ receipts db' = receipts db
  /\ Forall2 (moved txs) (deposit_slips db) (deposit_slips db').
Proof.
  intros db'. subst db'.
  unfold deposit_slips.teller_reject_deposit_slip,
    DRIDService.get_deposit_slip_by_drid.
  destruct (first (DRIDService.by_drid drid) (deposit_slips db))
    as [slip|] eqn:Hfound; [|repeat split; apply Forall2_moved_refl].
  destruct (is_in _ _) eqn:Hguard;
    [repeat split; apply Forall2_moved_refl|].
  simpl. repeat split.
  apply (Forall2_moved_update _ _ _ slip); [done|].
  moved_by_setters slip.
  match goal with |- edge ?a _ = true => by destruct a end.
Qed.

Lemma sweep_moved (txs : list Transaction.t) (utcnow : datetime)
    (db : Database) :
  let db' := (DRIDSweep.expire_old_slips utcnow db).1 in
  customers db' = customers db /\ accounts db' = accounts db
  /\ transactions db' = transactions db /\ receipts db' = receipts db
  /\ Forall2 (moved txs) (deposit_slips db) (deposit_slips db').
Proof.
  intros db'. subst db'. unfold DRIDSweep.expire_old_slips.
  destruct (_ >? 0)%Z; simpl; repeat split;
    [|apply Forall2_moved_refl].
  induction (deposit_slips db) as [|slip rows IH]; simpl; constructor;
    [|done].
  unfold DRIDSweep.is_old.
  destruct (decide (DigitalDepositSlip.status slip = INITIATED)) as [Hst|Hst].
  - rewrite bool_decide_eq_true_2 by done. simpl.
    destruct (_ <? _)%Z; [|apply moved_refl]. moved_by_setters slip.
  - rewrite bool_decide_eq_false_2 by done. apply moved_refl.
Qed.

Lemma complete_moved (e : DRIDService.complete_env)
    (sig : SignatureService.state) (db : Database) (drid teller_id : string)
    (authorization_captured : bool) (teller_notes : option string) :
  let db' :=
    (DRIDService.complete_deposit_slip e sig db drid teller_id
       authorization_captured teller_notes).1.2 in
  customers db' = customers db /\ accounts db' = accounts db
  /\ (exists txs', transactions db' = (transactions db ++ txs')%list)
  /\ (exists rcs', receipts db' = (receipts db ++ rcs')%list)
  /\ Forall2 (moved (transactions db')) (deposit_slips db) (deposit_slips db').
Proof.
  intros db'. subst db'. unfold DRIDService.complete_deposit_slip.
  assert (forall db0 : Database,
            (exists txs', transactions db0 = (transactions db0 ++ txs')%list)
            /\ (exists rcs', receipts db0 = (receipts db0 ++ rcs')%list))
    as Hnil.
  { intros db0. split; exists []; by rewrite app_nil_r. }
  destruct (first (DRIDService.by_drid drid) (deposit_slips db))
    as [slip|] eqn:Hfound; simpl;
    [|repeat split; try apply Hnil; apply Forall2_moved_refl].
  destruct (decide (DigitalDepositSlip.status slip = VERIFIED)) as [Hst|Hst].
  2: { rewrite bool_decide_eq_true_2 by done. simpl.
       repeat split; try apply Hnil; apply Forall2_moved_refl. }
  rewrite bool_decide_eq_false_2 by (intros Hne; by apply Hne).
  assert (DRIDService.by_drid drid
            (DigitalDepositSlip.set_status PROCESSING slip) = true) as Hp.
  { apply first_Some_elem in Hfound as [_ Hp]. by destruct slip. }
  destruct (_ >? _)%Z; simpl.
  { repeat split; try apply Hnil.
    apply (Forall2_moved_update _ _ _ slip); [done|]. moved_by_setters slip. }
  destruct authorization_captured; simpl;
    [|repeat split; try apply Hnil; apply Forall2_moved_refl].
  destruct (DRIDService.complete_fault e) as [[exc|exc pending]|]; simpl.
  { repeat split; try apply Hnil. rewrite update_first_const_twice by done.
    apply (Forall2_moved_update _ _ _ slip); [done|]. moved_by_setters slip. }
  { repeat split; try apply Hnil.
    apply (Forall2_moved_update _ _ _ slip); [done|]. moved_by_setters slip. }
  unfold ReceiptService.create_receipt.
  destruct (SignatureService.sign_receipt _ _ _ _)
    as [sig' [[signature signature_hash] signature_timestamp]].
  simpl. destruct (ReceiptService.fault _) as [[exc|exc pending]|]; simpl.
  - repeat split; [by eexists | exists []; by rewrite app_nil_r |].
    rewrite update_first_const_twice by done.
    apply (Forall2_moved_update _ _ _ slip); [done|]. moved_by_setters slip.
  - repeat split; [by eexists | exists []; by rewrite app_nil_r |].
    apply (Forall2_moved_update _ _ _ slip); [done|]. moved_by_setters slip.
  - repeat split; [by eexists | by eexists |].
    rewrite update_first_const_twice by done.
    apply (Forall2_moved_update _ _ _ slip); [done|].
    split; [by destruct slip|]. split; [destruct slip; simpl in *; by subst|].
    eapply link_kept_completed;
      [apply elem_of_app; right; by apply list_elem_of_singleton | ..];
      destruct slip; simpl in *; by subst.
Qed.

Lemma unique_drid_Some (utcnow : datetime) (db : Database)
    (draws : list string) (drid : string) :
  DRIDService.unique_drid utcnow db draws = Some drid ->
  first (DRIDService.by_drid drid) (deposit_slips db) = None.
Proof.
  induction draws as [|u draws IH]; simpl; [done|].
  case_match eqn:Htaken; [done|]. by intros [= <-].
Qed.

Lemma issue_effect (e : DRIDService.create_env) (db db' : Database)
    (transaction_type customer_cnic customer_account : string)
    (amount : Decimal) (currency : string)
    (narration depositor_name depositor_cnic depositor_phone
       depositor_relationship : option string)
    (channel : string) (device_info ip_address : option string)
    (validity_minutes : option Z) (additional_data : option string)
    (out : outcome (option DigitalDepositSlip.t * option string)) :
  DRIDService.create_deposit_slip e db transaction_type customer_cnic
    customer_account amount currency narration depositor_name depositor_cnic
    depositor_phone depositor_relationship channel device_info ip_address
    validity_minutes additional_data
  = Some (db', out) ->
  (db' = db /\ forall slip, out <> Returned (Some slip, None))
  \/ exists slip,
       out = Returned (Some slip, None)
       /\ db' = set_deposit_slips (deposit_slips db ++ [slip]) db
       /\ DigitalDepositSlip.status slip = INITIATED
       /\ DigitalDepositSlip.transaction_id slip = None
       /\ DigitalDepositSlip.customer_cnic slip = customer_cnic
       /\ DigitalDepositSlip.customer_account slip = customer_account
       /\ first (DRIDService.by_drid (DigitalDepositSlip.drid slip))
            (deposit_slips db) = None.
Proof.
  unfold DRIDService.create_deposit_slip.
  repeat case_match; intros [= <- <-]; try (by left).
  all: right; eexists; repeat split; by eapply unique_drid_Some.
Qed.

(** What one request makes of the tables: customers and accounts are left
    alone, transactions and receipts are only added, each stored slip is
    [moved], and at most one new slip is added, INITIATED and unlinked, under
    a DRID not in use. *)
Lemma run_effect (r : request) (sig : SignatureService.state) (db : Database) :
  let db' := (run r (sig, db)).2 in
  customers db' = customers db /\ accounts db' = accounts db
  /\ (exists txs', transactions db' = (transactions db ++ txs')%list)
  /\ (exists rcs', receipts db' = (receipts db ++ rcs')%list)
  /\ exists rows' new,
       deposit_slips db' = (rows' ++ new)%list
       /\ Forall2 (moved (transactions db')) (deposit_slips db) rows'
       /\ (new = []
           \/ exists slip,
                new = [slip]
                /\ DigitalDepositSlip.status slip = INITIATED
                /\ DigitalDepositSlip.transaction_id slip = None
                /\ first (DRIDService.by_drid (DigitalDepositSlip.drid slip))
                     (deposit_slips db) = None).
Proof.
  assert (forall db0 db1 : Database,
            customers db1 = customers db0 /\ accounts db1 = accounts db0
            /\ transactions db1 = transactions db0
            /\ receipts db1 = receipts db0
            /\ Forall2 (moved (transactions db0)) (deposit_slips db0)
                 (deposit_slips db1) ->
            customers db1 = customers db0 /\ accounts db1 = accounts db0
            /\ (exists txs', transactions db1 = (transactions db0 ++ txs')%list)
            /\ (exists rcs', receipts db1 = (receipts db0 ++ rcs')%list)
            /\ exists rows' new,
                 deposit_slips db1 = (rows' ++ new)%list
                 /\ Forall2 (moved (transactions db1)) (deposit_slips db0) rows'
                 /\ (new = []
                     \/ exists slip,
                          new = [slip]
                          /\ DigitalDepositSlip.status slip = INITIATED
                          /\ DigitalDepositSlip.transaction_id slip = None
                          /\ first (DRIDService.by_drid
                                      (DigitalDepositSlip.drid slip))
                               (deposit_slips db0) = None))
    as Hslips.
  { intros db0 db1 (Hc & Ha & Ht & Hr & Hm).
    split; [done|]. split; [done|].
    split; [exists []; by rewrite app_nil_r|].
    split; [exists []; by rewrite app_nil_r|].
    exists (deposit_slips db1), []. rewrite app_nil_r, Ht. eauto. }
  destruct r; simpl.
  - destruct (DRIDService.create_deposit_slip _ _ _ _ _ _ _ _ _ _ _ _ _ _ _ _ _)
      as [[db' out]|] eqn:Hissue; simpl.
    + apply issue_effect in Hissue
        as [[-> _] | (slip & _ & -> & Hst & Htid & _ & _ & Hfresh)].
      * apply Hslips. repeat split. apply Forall2_moved_refl.
      * simpl. split; [done|]. split; [done|].
        split; [exists []; by rewrite app_nil_r|].
        split; [exists []; by rewrite app_nil_r|].
        exists (deposit_slips db), [slip].
        split; [done|]. split; [apply Forall2_moved_refl|]. right. eauto.
    + apply Hslips. repeat split. apply Forall2_moved_refl.
  - apply Hslips, validate_moved.
  - apply Hslips, retrieve_moved.
  - apply Hslips, verify_moved.
  - pose proof (complete_moved e sig db drid teller_id authorization_captured
                  teller_notes) as (Hc & Ha & Ht & Hr & Hm).
    split; [done|]. split; [done|]. split; [done|]. split; [done|].
    eexists _, []. rewrite app_nil_r. eauto.
  - apply Hslips, cancel_moved.
  - apply Hslips, reject_moved.
  - apply Hslips, sweep_moved.
Qed.

Lemma at_issue_drid (s s' : DigitalDepositSlip.t) :
  at_issue s s' = s -> DigitalDepositSlip.drid s' = DigitalDepositSlip.drid s.
Proof. destruct s, s'. simpl. by intros [= <-]. Qed.

Lemma at_issue_trans (s s' s'' : DigitalDepositSlip.t) :
  at_issue s s' = s -> at_issue s' s'' = s' -> at_issue s s'' = s.
Proof. destruct s, s', s''. simpl. intros [= ?] [= ?]. by subst. Qed.

Lemma run_row (r : request) (sig : SignatureService.state) (db : Database)
    (i : nat) (s : DigitalDepositSlip.t) :
  deposit_slips db !! i = Some s ->
  exists s',
    deposit_slips (run r (sig, db)).2 !! i = Some s'
    /\ moved (transactions (run r (sig, db)).2) s s'.
Proof.
  intros Hrow.
  destruct (run_effect r sig db)
    as (_ & _ & _ & _ & rows' & new & -> & Hmoved & _).
  destruct (Forall2_lookup_l _ _ _ _ _ Hmoved Hrow) as (s' & Hrow' & Hm).
  exists s'. split; [|done]. by apply lookup_app_l_Some.
Qed.

Lemma edge_terminal (a b : DepositSlipStatus.t) :
  edge a b = true -> a ∈ [COMPLETED; EXPIRED] -> b = a.
Proof.
  intros Hedge Ha%is_in_true. destruct a; try done; by destruct b.
Qed.

Lemma moved_terminal (txs : list Transaction.t)
    (s s' : DigitalDepositSlip.t) :
  moved txs s s' ->
  DigitalDepositSlip.status s ∈ [COMPLETED; EXPIRED] ->
  DigitalDepositSlip.status s' = DigitalDepositSlip.status s
  /\ DigitalDepositSlip.transaction_id s'
     = DigitalDepositSlip.transaction_id s.
Proof.
  intros (_ & Hedge & Hlink) Hst.
  pose proof (edge_terminal _ _ Hedge Hst) as Hsame. split; [done|].
  unfold link_kept in Hlink. rewrite Hsame in Hlink.
  rewrite bool_decide_eq_false_2 in Hlink; [done|]. by intros [? ?].
Qed.

Lemma run_all_cons (r : request) (rs : list request)
    (st : SignatureService.state * Database) :
  run_all (r :: rs) st = run_all rs (run r st).
Proof. done. Qed.

(** X1: whatever request is served - issue, validate, retrieve, verify,
    complete, cancel, reject or the expiry sweep - a stored slip stays in
    its row, keeps every column fixed at issue (DRID, amount, accounts,
    expiry, ...) and changes status only along an edge of the life cycle
    graph [edge]. *)
Theorem X1_request_moves_along_edges (r : request)
    (sig : SignatureService.state) (db : Database) (i : nat)
    (slip : DigitalDepositSlip.t) :
  deposit_slips db !! i = Some slip ->
  exists slip',
    deposit_slips (run r (sig, db)).2 !! i = Some slip'
    /\ at_issue slip slip' = slip
    /\ edge (DigitalDepositSlip.status slip) (DigitalDepositSlip.status slip')
       = true.
Proof.
  intros Hrow.
  destruct (run_row r sig db i slip Hrow) as (slip' & Hrow' & Hi & He & _).
  by exists slip'.
Qed.

(** X2: COMPLETED and EXPIRED are final.  Through any sequence of requests a
    slip stored as COMPLETED or EXPIRED keeps its row, its status, its link
    to the transaction and every column fixed at issue. *)
Theorem X2_completed_expired_final (rs : list request)
    (st : SignatureService.state * Database) (i : nat)
    (slip : DigitalDepositSlip.t) :
  deposit_slips st.2 !! i = Some slip ->
  DigitalDepositSlip.status slip ∈ [COMPLETED; EXPIRED] ->
  exists slip',
    deposit_slips (run_all rs st).2 !! i = Some slip'
    /\ DigitalDepositSlip.status slip' = DigitalDepositSlip.status slip
    /\ DigitalDepositSlip.transaction_id slip'
       = DigitalDepositSlip.transaction_id slip
    /\ at_issue slip slip' = slip.
Proof.
  revert st slip. induction rs as [|r rs IH]; intros [sig db] slip Hrow Hst.
  - exists slip. repeat split; [done|]. by destruct slip.
  - rewrite run_all_cons. simpl in Hrow.
    destruct (run_row r sig db i slip Hrow) as (slip1 & Hrow1 & Hmoved).
    destruct (moved_terminal _ _ _ Hmoved Hst) as [Hst1 Htid1].
    destruct (IH (run r (sig, db)) slip1 Hrow1)
      as (slip' & Hrow' & Hst' & Htid' & Hi'); [by rewrite Hst1|].
    exists slip'. split; [done|]. split; [congruence|]. split; [congruence|].
    destruct Hmoved as [Hi _]. by eapply at_issue_trans.
Qed.

Lemma moved_linked (db db' : Database) (s s' : DigitalDepositSlip.t) :
  (exists txs', transactions db' = (transactions db ++ txs')%list) ->
  moved (transactions db') s s' -> linked db s -> linked db' s'.
Proof.
  intros [txs' Htxs] (_ & Hedge & Hlink). unfold linked, link_kept in *.
  case_bool_decide as Hc.
  - destruct Hlink as (t & Hin & ->). destruct Hc. eauto.
  - rewrite Hlink.
    destruct (DigitalDepositSlip.transaction_id s) as [tid|].
    + intros (Hst & t & Hin & Hid).
      rewrite Hst in Hedge. split; [by destruct (DigitalDepositSlip.status s')|].
      exists t. rewrite Htxs, elem_of_app. eauto.
    + intros Hne Hst. by apply Hc.
Qed.

(** X3: a slip is linked to a transaction exactly when it is COMPLETED, and
    the transaction it names is stored: if this holds of every slip, it
    still does after any sequence of requests. *)
Theorem X3_link_invariant (rs : list request)
    (st : SignatureService.state * Database) :
  Forall (linked st.2) (deposit_slips st.2) ->
  Forall (linked (run_all rs st).2) (deposit_slips (run_all rs st).2).
Proof.
  revert st. induction rs as [|r rs IH]; intros [sig db] Hinv; [done|].
  rewrite run_all_cons. apply IH. simpl in Hinv.
  destruct (run_effect r sig db)
    as (_ & _ & Htxs & _ & rows' & new & Hrows & Hmoved & Hnew).
  rewrite Hrows. apply Forall_app. split.
  - clear Hrows Hnew. induction Hmoved as [|s s' rows rows' Hm _ IHm];
      [done|]. apply Forall_cons in Hinv as [Hs Hinv].
    constructor; [by eapply moved_linked | by apply IHm].
  - destruct Hnew as [-> | (slip & -> & Hst & Htid & _)]; [done|].
    constructor; [|done]. unfold linked. by rewrite Htid, Hst.
Qed.

Lemma moved_drids (txs : list Transaction.t)
    (rows rows' : list DigitalDepositSlip.t) :
  Forall2 (moved txs) rows rows' ->
  DigitalDepositSlip.drid <$> rows' = DigitalDepositSlip.drid <$> rows.
Proof.
  induction 1 as [|s s' rows rows' [Hi _] _ IH]; [done|].
  rewrite !fmap_cons. f_equal; [by apply at_issue_drid | done].
Qed.

(** X4: DRIDs stay unique.  If no two stored slips share a DRID, no sequence
    of requests makes two of them do. *)
Theorem X4_drids_stay_unique (rs : list request)
    (st : SignatureService.state * Database) :
  NoDup (DigitalDepositSlip.drid <$> deposit_slips st.2) ->
  NoDup (DigitalDepositSlip.drid <$> deposit_slips (run_all rs st).2).
Proof.
  revert st. induction rs as [|r rs IH]; intros [sig db] Hinv; [done|].
  rewrite run_all_cons. apply IH. simpl in Hinv.
  destruct (run_effect r sig db)
    as (_ & _ & _ & _ & rows' & new & Hrows & Hmoved & Hnew).
  rewrite Hrows, fmap_app, (moved_drids _ _ _ Hmoved).
  destruct Hnew as [-> | (slip & -> & _ & _ & Hfresh)];
    [by rewrite app_nil_r|].
  apply NoDup_app. split; [done|]. split; [|apply NoDup_singleton].
  intros d Hd ->%list_elem_of_singleton.
  apply list_elem_of_fmap in Hd as (s & Hds & Hin).
  rewrite first_None_elem in Hfresh. specialize (Hfresh s Hin).
  unfold DRIDService.by_drid in Hfresh. rewrite Hds in Hfresh.
  by rewrite String.eqb_refl in Hfresh.
Qed.

(** X5: what is stored beside the slips is never rewritten by a request: the
    transactions and the receipts stored before are all still there, in
    place and unchanged, after any sequence of requests (new ones come
    after them), and the customers and accounts are as they were. *)
Theorem X5_records_append_only (rs : list request)
    (st : SignatureService.state * Database) :
  customers (run_all rs st).2 = customers st.2
  /\ accounts (run_all rs st).2 = accounts st.2
  /\ (exists txs',
        transactions (run_all rs st).2 = (transactions st.2 ++ txs')%list)
  /\ (exists rcs',
        receipts (run_all rs st).2 = (receipts st.2 ++ rcs')%list).
Proof.
  revert st. induction rs as [|r rs IH]; intros [sig db].
  - simpl. repeat split; exists []; by rewrite app_nil_r.
  - rewrite run_all_cons.
    destruct (run_effect r sig db) as (Hc & Ha & [txs1 Ht] & [rcs1 Hr] & _).
    destruct (IH (run r (sig, db))) as (Hc' & Ha' & [txs2 Ht'] & [rcs2 Hr']).
    rewrite Hc', Ha', Ht', Hr', Hc, Ha, Ht, Hr.
    repeat split; eexists; by rewrite <- app_assoc.
Qed.

End LifeCycle.

(** ** Retrieval *)

Section Retrieval.
Import DepositSlipStatus.

Lemma validate_drid_is_valid (utcnow : datetime) (db : Database)
    (drid : string) (slip : DigitalDepositSlip.t) :
  first (DRIDService.by_drid drid) (deposit_slips db) = Some slip ->
  is_valid (DRIDService.validate_drid utcnow db drid).2
  = negb ((utcnow >? DigitalDepositSlip.expires_at slip)%Z
          && bool_decide (DigitalDepositSlip.status slip = INITIATED))
    && negb (is_in (DigitalDepositSlip.status slip)
               [COMPLETED; PROCESSING; CANCELLED; REJECTED]).
Proof.
  intros Hfound. unfold DRIDService.validate_drid. rewrite Hfound.
  fold (touched utcnow slip).
  replace (DigitalDepositSlip.expires_at (touched utcnow slip))
    with (DigitalDepositSlip.expires_at slip) by (by destruct slip).
  replace (DigitalDepositSlip.status (touched utcnow slip))
    with (DigitalDepositSlip.status slip) by (by destruct slip).
  destruct (_ && _); [done|].
  by destruct (DigitalDepositSlip.status slip).
Qed.

Lemma commit_slip_twice (drid : string) (a b : DigitalDepositSlip.t)
    (db : Database) :
  DRIDService.by_drid drid a = true ->
  DRIDService.commit_slip drid b (DRIDService.commit_slip drid a db)
  = DRIDService.commit_slip drid b db.
Proof.
  intros Ha. unfold DRIDService.commit_slip, set_deposit_slips. simpl.
  by rewrite update_first_const_twice.
Qed.

Lemma by_drid_touched (utcnow : datetime) (drid : string)
    (slip : DigitalDepositSlip.t) :
  DRIDService.by_drid drid (touched utcnow slip)
  = DRIDService.by_drid drid slip.
Proof. by destruct slip. Qed.

(** What [retrieve_deposit_slip] does once validation has passed. *)
Lemma retrieve_found (utcnow : datetime) (db : Database)
    (drid teller_id : string) (slip : DigitalDepositSlip.t) :
  first (DRIDService.by_drid drid) (deposit_slips db) = Some slip ->
  is_valid (DRIDService.validate_drid utcnow db drid).2 = true ->
  DRIDService.retrieve_deposit_slip utcnow db drid teller_id
  = if negb (is_in (DigitalDepositSlip.status slip)
               [INITIATED; RETRIEVED; VERIFIED])
    then
      (DRIDService.commit_slip drid (touched utcnow slip) db,
       Returned (None, Some ("Cannot retrieve: current status is "
                               ++ value (DigitalDepositSlip.status slip))))
    else
      let slip' :=
        if bool_decide (DigitalDepositSlip.status slip = INITIATED)
        then
          DigitalDepositSlip.set_retrieved_by (Some teller_id)
            (DigitalDepositSlip.set_retrieved_at (Some utcnow)
               (DigitalDepositSlip.set_status RETRIEVED (touched utcnow slip)))
        else touched utcnow slip in
      (DRIDService.commit_slip drid slip' db, Returned (Some slip', None)).
Proof.
  intros Hfound Hvalid. unfold DRIDService.retrieve_deposit_slip.
  pose proof (validate_drid_found utcnow _ _ _ Hfound) as Hdb.
  pose proof Hvalid as Hlazy.
  rewrite (validate_drid_is_valid _ _ _ _ Hfound) in Hlazy.
  apply andb_true_iff in Hlazy as [Hlazy _].
  apply negb_true_iff in Hlazy. rewrite Hlazy in Hdb.
  destruct (DRIDService.validate_drid utcnow db drid) as [db1 validation].
  simpl in Hdb, Hvalid. subst db1. rewrite Hvalid. simpl negb. cbv iota.
  assert (DRIDService.by_drid drid (touched utcnow slip) = true) as Hp.
  { rewrite by_drid_touched. by apply first_Some_elem in Hfound as [_ ?]. }
  rewrite (commit_slip_first _ slip) by (done || by destruct slip).
  replace (DigitalDepositSlip.status (touched utcnow slip))
    with (DigitalDepositSlip.status slip) by (by destruct slip).
  destruct (negb _); [done|]. cbv zeta.
  by rewrite commit_slip_twice.
Qed.

Lemma retrieve_invalid (utcnow : datetime) (db : Database)
    (drid teller_id : string) :
  is_valid (DRIDService.validate_drid utcnow db drid).2 = false ->
  DRIDService.retrieve_deposit_slip utcnow db drid teller_id
  = ((DRIDService.validate_drid utcnow db drid).1,
     Returned
       (None, Some (message (DRIDService.validate_drid utcnow db drid).2))).
Proof.
  intros Hinvalid. unfold DRIDService.retrieve_deposit_slip.
  destruct (DRIDService.validate_drid utcnow db drid) as [db1 validation].
  simpl in *. by rewrite Hinvalid.
Qed.

(** X6: retrieval of a stored slip succeeds exactly when the slip is
    INITIATED with its expiry not passed, or RETRIEVED or VERIFIED (these
    two whatever the time); it never raises; and a slip stored as EXPIRED is
    turned away by the status guard, validation having let it through. *)
Theorem X6_retrieve_succeeds_iff (utcnow : datetime) (db : Database)
    (drid teller_id : string) (slip : DigitalDepositSlip.t) :
  first (DRIDService.by_drid drid) (deposit_slips db) = Some slip ->
  let retrieved :=
    DRIDService.retrieve_deposit_slip utcnow db drid teller_id in
  ((exists slip', retrieved.2 = Returned (Some slip', None))
   <-> (DigitalDepositSlip.status slip = INITIATED
        /\ (utcnow <= DigitalDepositSlip.expires_at slip)%Z)
       \/ DigitalDepositSlip.status slip ∈ [RETRIEVED; VERIFIED])
  /\ (forall exc, retrieved.2 <> Raised exc)
  /\ (DigitalDepositSlip.status slip = EXPIRED ->
      is_valid (DRIDService.validate_drid utcnow db drid).2 = true
      /\ retrieved.2
         = Returned (None, Some "Cannot retrieve: current status is EXPIRED")).
Proof.
  intros Hfound retrieved. subst retrieved.
  pose proof (validate_drid_is_valid utcnow _ _ _ Hfound) as Hvalid.
  unfold is_in in Hvalid.
  destruct (Z.gtb_spec utcnow (DigitalDepositSlip.expires_at slip)) as [Hlate|Hearly];
    destruct (DigitalDepositSlip.status slip) eqn:Hst;
    simpl in Hvalid;
    first [ rewrite (retrieve_found _ _ _ _ _ Hfound Hvalid), Hst
          | rewrite (retrieve_invalid _ _ _ _ Hvalid) ];
    simpl; (split; [split|split; [done|done]]).
  all: try (intros _; by eexists).
  all: try (intros [slip' [=]]).
  all: try (left; split; [done|lia]).
  all: try (right; by repeat constructor).
  all: try (intros [[[=] _] | Hin%is_in_true]; done).
  all: try (intros [[_ ?] | Hin%is_in_true]; (lia || done)).
Qed.

(** X7: a successful retrieval stores the slip it returns.  An INITIATED
    slip becomes RETRIEVED, with the teller and the time recorded; a slip
    already RETRIEVED or VERIFIED keeps its status and the teller and time
    of its first retrieval. *)
Theorem X7_retrieve_records_first_teller (utcnow : datetime) (db : Database)
    (drid teller_id : string) (slip slip' : DigitalDepositSlip.t) :
  first (DRIDService.by_drid drid) (deposit_slips db) = Some slip ->
  let retrieved :=
    DRIDService.retrieve_deposit_slip utcnow db drid teller_id in
  retrieved.2 = Returned (Some slip', None) ->
  first (DRIDService.by_drid drid) (deposit_slips retrieved.1) = Some slip'
  /\ (DigitalDepositSlip.status slip = INITIATED ->
      DigitalDepositSlip.status slip' = RETRIEVED
      /\ DigitalDepositSlip.retrieved_by slip' = Some teller_id
      /\ DigitalDepositSlip.retrieved_at slip' = Some utcnow)
  /\ (DigitalDepositSlip.status slip <> INITIATED ->
      DigitalDepositSlip.status slip' = DigitalDepositSlip.status slip
      /\ DigitalDepositSlip.retrieved_by slip'
         = DigitalDepositSlip.retrieved_by slip
      /\ DigitalDepositSlip.retrieved_at slip'
         = DigitalDepositSlip.retrieved_at slip).
Proof.
  intros Hfound retrieved. subst retrieved.
  destruct (is_valid (DRIDService.validate_drid utcnow db drid).2) eqn:Hvalid.
  2: { by rewrite (retrieve_invalid _ _ _ _ Hvalid). }
  rewrite (retrieve_found _ _ _ _ _ Hfound Hvalid).
  destruct (negb _); [done|]. cbv zeta. simpl. intros [= <-].
  split.
  { apply (commit_slip_first _ slip); [done|].
    case_bool_decide; by destruct slip. }
  split; intros Hst.
  - rewrite bool_decide_eq_true_2 by done. by destruct slip.
  - rewrite bool_decide_eq_false_2 by done. by destruct slip.
Qed.

End Retrieval.

(** ** Completion, once and signed *)

Section Settlement.
Import DepositSlipStatus.
Context `{Platform}.

Lemma first_app_fresh {A : Type} (p : A -> bool) (rows : list A) (r : A) :
  first p rows = None -> p r = true -> first p (rows ++ [r]) = Some r.
Proof.
  unfold first. intros Hfresh Hr.
  induction rows as [|r0 rows IH]; simpl in *; [by rewrite Hr|].
  destruct (p r0); [done | by apply IH].
Qed.

Lemma first_app_found {A : Type} (p : A -> bool) (rows more : list A) (r : A) :
  first p rows = Some r -> first p (rows ++ more) = Some r.
Proof.
  unfold first. intros Hfound.
  induction rows as [|r0 rows IH]; simpl in *; [done|].
  destruct (p r0); [done | by apply IH].
Qed.

(** A successful completion found the slip VERIFIED and leaves it stored as
    COMPLETED, linked to the transaction it returns. *)
Lemma complete_Some (e : DRIDService.complete_env)
    (sig sig' : SignatureService.state) (db db' : Database)
    (drid teller_id : string) (authorization_captured : bool)
    (teller_notes : option string) (slip' : DigitalDepositSlip.t)
    (posted : option Transaction.t) (error : option string) :
  DRIDService.complete_deposit_slip e sig db drid teller_id
    authorization_captured teller_notes
  = (sig', db', Returned (Some slip', posted, error)) ->
  exists slip transaction,
    first (DRIDService.by_drid drid) (deposit_slips db) = Some slip
    /\ DigitalDepositSlip.status slip = VERIFIED
    /\ posted = Some transaction /\ error = None
    /\ DigitalDepositSlip.status slip' = COMPLETED
    /\ DigitalDepositSlip.transaction_id slip'
       = Some (Transaction.id transaction)
    /\ first (DRIDService.by_drid drid) (deposit_slips db') = Some slip'
    /\ transactions db' = (transactions db ++ [transaction])%list.
Proof.
  unfold DRIDService.complete_deposit_slip.
  destruct (first (DRIDService.by_drid drid) (deposit_slips db))
    as [slip|] eqn:Hfound; [|done].
  destruct (decide (DigitalDepositSlip.status slip = VERIFIED)) as [Hst|Hst].
  2: { by rewrite bool_decide_eq_true_2. }
  rewrite bool_decide_eq_false_2 by (intros Hne; by apply Hne).
  destruct (_ >? _)%Z; [done|].
  destruct authorization_captured; [|done]. simpl.
  destruct (DRIDService.complete_fault e) as [[?|? ?]|]; [done|done|].
  unfold ReceiptService.create_receipt.
  destruct (SignatureService.sign_receipt _ _ _ _)
    as [sig1 [[signature signature_hash] signature_timestamp]].
  simpl. destruct (ReceiptService.fault _) as [[?|? ?]|]; simpl;
    [done|done|].
  intros [= <- <- <- <- <-]. eexists slip, _.
  split; [done|]. split; [done|]. split; [reflexivity|]. split; [done|].
  simpl. split; [by destruct slip|]. split; [by destruct slip|].
  split; [|by destruct slip].
  by rewrite (commit_slip_twice_first _ slip) by (done || by destruct slip).
Qed.

(** X8: a slip is completed at most once.  After a completion that returned
    the slip, every further completion of the same DRID -- whoever asks,
    whenever, whatever is ticked -- is refused with the error naming the
    status COMPLETED, and posts nothing: the tables and the signature
    service are left as they were. *)
Theorem X8_complete_at_most_once (e e2 : DRIDService.complete_env)
    (sig sig' : SignatureService.state) (db db' : Database)
    (drid teller_id teller_id2 : string)
    (authorization_captured authorization_captured2 : bool)
    (teller_notes teller_notes2 : option string)
    (slip' : DigitalDepositSlip.t) (posted : option Transaction.t)
    (error : option string) :
  DRIDService.complete_deposit_slip e sig db drid teller_id
    authorization_captured teller_notes
  = (sig', db', Returned (Some slip', posted, error)) ->
  DRIDService.complete_deposit_slip e2 sig' db' drid teller_id2
    authorization_captured2 teller_notes2
  = (sig', db',
     Returned
       (None, None, Some "Cannot complete: current status is COMPLETED")).
Proof.
  intros Hdone.
  apply complete_Some in Hdone
    as (slip & transaction & _ & _ & _ & _ & Hst & _ & Hstored & _).
  unfold DRIDService.complete_deposit_slip. rewrite Hstored, Hst.
  by rewrite bool_decide_eq_true_2.
Qed.

(** X9: expiry is looked at before anything the teller ticks, and an
    expired slip gets no second chance.  A RETRIEVED slip verified after its
    expiry, and a VERIFIED slip completed after its expiry, are stored as
    EXPIRED and the call answers [DRID has expired], whatever the
    confirmations given; completion then posts no transaction and no
    receipt and does not touch the signature service.  On the tables so
    left every later verification or completion of that DRID is refused for
    its status, whatever the clock says by then. *)
Theorem X9_expiry_before_confirmations (utcnow : datetime) (db : Database)
    (drid teller_id : string) (amount_confirmed depositor_verified : bool)
    (instrument_verified : option bool) (notes : option string)
    (e : DRIDService.complete_env) (sig : SignatureService.state)
    (authorization_captured : bool) (slip : DigitalDepositSlip.t) :
  first (DRIDService.by_drid drid) (deposit_slips db) = Some slip ->
  let expired :=
    DRIDService.commit_slip drid (DigitalDepositSlip.set_status EXPIRED slip)
      db in
  first (DRIDService.by_drid drid) (deposit_slips expired)
  = Some (DigitalDepositSlip.set_status EXPIRED slip)
  /\ transactions expired = transactions db
  /\ receipts expired = receipts db
  /\ (DigitalDepositSlip.status slip = RETRIEVED ->
      (utcnow > DigitalDepositSlip.expires_at slip)%Z ->
      DRIDService.verify_deposit_slip utcnow db drid teller_id
        amount_confirmed depositor_verified instrument_verified notes
      = (expired, (None, Some "DRID has expired")))
  /\ (DigitalDepositSlip.status slip = VERIFIED ->
      (DRIDService.complete_utcnow e > DigitalDepositSlip.expires_at slip)%Z ->
      DRIDService.complete_deposit_slip e sig db drid teller_id
        authorization_captured notes
      = (sig, expired, Returned (None, None, Some "DRID has expired")))
  /\ (forall later teller_id' amount_confirmed' depositor_verified'
        instrument_verified' notes',
        DRIDService.verify_deposit_slip later expired drid teller_id'
          amount_confirmed' depositor_verified' instrument_verified' notes'
        = (expired,
           (None, Some "Cannot verify: current status is EXPIRED")))
  /\ (forall e' sig' teller_id' authorization_captured' notes',
        DRIDService.complete_deposit_slip e' sig' expired drid teller_id'
          authorization_captured' notes'
        = (sig', expired,
           Returned
             (None, None,
              Some "Cannot complete: current status is EXPIRED"))).
Proof.
  intros Hfound expired.
  assert (first (DRIDService.by_drid drid) (deposit_slips expired)
          = Some (DigitalDepositSlip.set_status EXPIRED slip)) as Hexpired.
  { apply (commit_slip_first _ slip); [done | by destruct slip]. }
  assert (DigitalDepositSlip.status
            (DigitalDepositSlip.set_status EXPIRED slip) = EXPIRED) as Hst'
    by (by destruct slip).
  split; [done|]. split; [done|]. split; [done|].
  unfold DRIDService.verify_deposit_slip, DRIDService.complete_deposit_slip.
  rewrite Hexpired, Hst'. subst expired. rewrite Hfound.
  split; [|split; [|split]].
  - intros Hst Hlate.
    rewrite bool_decide_eq_false_2 by (intros Hne; by apply Hne).
    by destruct (Z.gtb_spec utcnow (DigitalDepositSlip.expires_at slip));
      [|lia].
  - intros Hst Hlate.
    rewrite bool_decide_eq_false_2 by (intros Hne; by apply Hne).
    by destruct (Z.gtb_spec (DRIDService.complete_utcnow e)
                   (DigitalDepositSlip.expires_at slip)); [|lia].
  - intros. by rewrite bool_decide_eq_true_2.
  - intros. by rewrite bool_decide_eq_true_2.
Qed.

End Settlement.

(** ** From completion to the verification of the receipt *)

Section SignedCompletion.
Import DepositSlipStatus.
Context `{Platform}.

Lemma sign_receipt_initialized (cls : SignatureService.state)
    (files : key_files) (sk : PrivateKey) (pk : PublicKey) (utcnow : datetime)
    (receipt_data : gmap string string) :
  ready_with cls files sk pk ->
  exists cls',
    SignatureService.sign_receipt files utcnow cls receipt_data
    = (cls',
       (Some (b64encode
                (rsa_sign sk
                   (SignatureService._create_signing_payload receipt_data))),
        Some (sha256_hexdigest
                (SignatureService._create_signing_payload receipt_data)),
        Some (isoformat utcnow ++ "Z")))
    /\ SignatureService._initialized cls' = true
    /\ SignatureService._private_key cls' = Some sk
    /\ SignatureService._public_key cls' = Some pk.
Proof.
  intros Hready.
  destruct (ready_initialize _ _ _ _ Hready) as (cls' & Hinit & Hi & Hsk & Hpk).
  exists cls'. unfold SignatureService.sign_receipt.
  rewrite Hinit. simpl. by rewrite Hsk, payload_ignores_signing_timestamp.
Qed.

(** An initialized service verifies without changing. *)
Lemma verify_signature_initialized (cls : SignatureService.state)
    (files : key_files) (pk : PublicKey) (receipt_data : gmap string string)
    (signature_b64 signature ts : string) :
  SignatureService._initialized cls = true ->
  SignatureService._public_key cls = Some pk ->
  b64decode signature_b64 = inl signature ->
  SignatureService.verify_signature files cls receipt_data signature_b64 ts
  = (cls,
     if rsa_verify pk signature
          (SignatureService._create_signing_payload receipt_data)
     then (true, SignatureService.msg_authentic)
     else (false, SignatureService.msg_tampered)).
Proof.
  intros Hinit Hpk Hb64. unfold SignatureService.verify_signature.
  rewrite Hinit. simpl. rewrite Hb64, Hpk, payload_ignores_signing_timestamp.
  by destruct (rsa_verify _ _ _).
Qed.

Lemma timestamp_not_empty (s : string) : (s ++ "Z" =? "") = false.
Proof.
  apply String.eqb_neq. intros Hempty.
  apply (f_equal String.length) in Hempty.
  rewrite string_length_app in Hempty. simpl in Hempty. lia.
Qed.

(** What completion leaves when everything goes through with a key pair at
    hand. *)
Lemma complete_signed (sk : PrivateKey) (pk : PublicKey)
    (e : DRIDService.complete_env) (sig : SignatureService.state)
    (db : Database) (drid teller_id : string) (teller_notes : option string)
    (slip : DigitalDepositSlip.t) :
  ready_with sig (ReceiptService.files (DRIDService.receipt_env e)) sk pk ->
  first (DRIDService.by_drid drid) (deposit_slips db) = Some slip ->
  DigitalDepositSlip.status slip = VERIFIED ->
  (DRIDService.complete_utcnow e <= DigitalDepositSlip.expires_at slip)%Z ->
  DRIDService.complete_fault e = None ->
  ReceiptService.fault (DRIDService.receipt_env e) = None ->
  exists sig' db' slip' transaction receipt,
    DRIDService.complete_deposit_slip e sig db drid teller_id true
      teller_notes
    = (sig', db', Returned (Some slip', Some transaction, None))
    /\ SignatureService._initialized sig' = true
    /\ SignatureService._public_key sig' = Some pk
    /\ transactions db' = (transactions db ++ [transaction])%list
    /\ receipts db' = (receipts db ++ [receipt])%list
    /\ Transaction.id transaction = DRIDService.complete_new_id e
    /\ Transaction.amount transaction = DigitalDepositSlip.amount slip
    /\ Receipt.transaction_id receipt = DRIDService.complete_new_id e
    /\ Receipt.receipt_number receipt
       = ReceiptService.generate_receipt_number (DRIDService.receipt_env e)
    /\ Receipt.digital_signature receipt
       = Some (b64encode
                 (rsa_sign sk
                    (SignatureService._create_signing_payload
                       (ReceiptService.receipt_data_of
                          (Receipt.receipt_number receipt) transaction))))
    /\ (exists ts, Receipt.signature_timestamp receipt = Some ts)
    /\ Receipt.is_signature_valid receipt = true.
Proof.
  intros Hready Hfound Hst Hexp Hcommit Hfault.
  unfold DRIDService.complete_deposit_slip. rewrite Hfound, Hcommit.
  rewrite bool_decide_eq_false_2 by (intros Hne; by apply Hne).
  destruct (Z.gtb_spec (DRIDService.complete_utcnow e)
              (DigitalDepositSlip.expires_at slip)); [lia|].
  simpl. unfold ReceiptService.create_receipt.
  match goal with
  | |- context [SignatureService.sign_receipt ?f ?t ?c ?d] =>
      destruct (sign_receipt_initialized c f sk pk t d Hready)
        as (cls' & -> & Hinit & _ & Hpk)
  end.
  rewrite Hfault, timestamp_not_empty. simpl.
  eexists _, _, _, _, _. split; [reflexivity|]. simpl.
  do 5 (split; [done|]). split; [by destruct slip|].
  do 3 (split; [done|]). split; [|done].
  destruct (fromisoformat _); by eexists.
Qed.

(** X10: a completion that signs is confirmed by the verification of its
    receipt.  With an (idealised) key pair at hand, a receipt number and a
    transaction key not yet in use, and a signature that is not the empty
    text, completing a VERIFIED, unexpired slip stores a receipt flagged
    valid, and [verify_receipt_signature] on that receipt's number reports
    it authentic and leaves the tables and the signature service as
    completion left them. *)
Theorem X10_completion_receipt_authentic (sk : PrivateKey) (pk : PublicKey)
    (e : DRIDService.complete_env) (sig : SignatureService.state)
    (db : Database) (drid teller_id : string) (teller_notes : option string)
    (slip : DigitalDepositSlip.t) (files : key_files) :
  key_pair sk pk ->
  b64_round_trip ->
  (forall data, b64encode (rsa_sign sk data) <> "") ->
  ready_with sig (ReceiptService.files (DRIDService.receipt_env e)) sk pk ->
  first (DRIDService.by_drid drid) (deposit_slips db) = Some slip ->
  DigitalDepositSlip.status slip = VERIFIED ->
  (DRIDService.complete_utcnow e <= DigitalDepositSlip.expires_at slip)%Z ->
  DRIDService.complete_fault e = None ->
  ReceiptService.fault (DRIDService.receipt_env e) = None ->
  first (fun t => Transaction.id t =? DRIDService.complete_new_id e)
    (transactions db) = None ->
  first
    (ReceiptService.by_receipt_number
       (ReceiptService.generate_receipt_number (DRIDService.receipt_env e)))
    (receipts db) = None ->
  exists sig' db' slip' transaction receipt,
    DRIDService.complete_deposit_slip e sig db drid teller_id true
      teller_notes
    = (sig', db', Returned (Some slip', Some transaction, None))
    /\ receipts db' = (receipts db ++ [receipt])%list
    /\ Receipt.is_signature_valid receipt = true
    /\ ReceiptService.verify_receipt_signature files sig' db'
         (Receipt.receipt_number receipt)
       = (sig', db', (true, SignatureService.msg_authentic, Some receipt)).
Proof.
  intros Hpair Hb64 Hnonempty Hready Hfound Hst Hexp Hcommit Hfault
    Hfresh_t Hfresh_r.
  destruct (complete_signed sk pk e sig db drid teller_id teller_notes slip)
    as (sig' & db' & slip' & transaction & receipt & Hdone & Hinit & Hpk
        & Htxs & Hrcs & Htid & _ & Hrtid & Hnumber & Hsignature & [ts Hts]
        & Hflag); [done..|].
  exists sig', db', slip', transaction, receipt.
  split; [done|]. split; [done|]. split; [done|].
  unfold ReceiptService.verify_receipt_signature.
  rewrite Hrcs, Hnumber.
  rewrite (first_app_fresh _ _ receipt Hfresh_r)
    by (unfold ReceiptService.by_receipt_number;
        rewrite Hnumber; apply String.eqb_refl).
  rewrite Hsignature.
  rewrite (proj2 (String.eqb_neq _ _) (Hnonempty _)).
  rewrite Hrtid, Htxs.
  rewrite (first_app_fresh _ _ transaction Hfresh_t)
    by (rewrite Htid; apply String.eqb_refl).
  rewrite Hts.
  erewrite verify_signature_initialized by (done || apply Hb64).
  rewrite (proj2 (Hpair _ _) eq_refl), Hflag.
  by rewrite bool_decide_eq_false_2 by (intros Hne; by apply Hne).
Qed.

(** X11: what the receipt vouches for is the stored transaction.  Once the
    amount of the transaction a signed receipt belongs to is stored as
    another text, [verify_receipt_signature] reports the receipt tampered
    with, and a receipt flagged valid until then is stored with the flag
    taken down. *)
Theorem X11_altered_amount_detected (sk : PrivateKey) (pk : PublicKey)
    (files : key_files) (sig : SignatureService.state) (db : Database)
    (receipt_number : string) (receipt : Receipt.t)
    (transaction : Transaction.t) (ts : datetime) (signed_amount : Decimal) :
  key_pair sk pk ->
  b64_round_trip ->
  (forall data, b64encode (rsa_sign sk data) <> "") ->
  ready_with sig files sk pk ->
  first (ReceiptService.by_receipt_number receipt_number) (receipts db)
  = Some receipt ->
  first (fun t => Transaction.id t =? Receipt.transaction_id receipt)
    (transactions db) = Some transaction ->
  Receipt.digital_signature receipt
  = Some (b64encode
            (rsa_sign sk
               (SignatureService._create_signing_payload
                  (ReceiptService.receipt_data_of
                     (Receipt.receipt_number receipt)
                     (Transaction.set_amount signed_amount transaction))))) ->
  Receipt.signature_timestamp receipt = Some ts ->
  Receipt.is_signature_valid receipt = true ->
  Transaction.amount transaction <> signed_amount ->
  let checked :=
    ReceiptService.verify_receipt_signature files sig db receipt_number in
  checked.2
  = (false, SignatureService.msg_tampered,
     Some (Receipt.set_is_signature_valid false receipt))
  /\ first (ReceiptService.by_receipt_number receipt_number)
       (receipts checked.1.2)
     = Some (Receipt.set_is_signature_valid false receipt)
  /\ transactions checked.1.2 = transactions db.
Proof.
  intros Hpair Hb64 Hnonempty Hready Hreceipt Htransaction Hsignature Hts
    Hflag Hamount checked. subst checked.
  unfold ReceiptService.verify_receipt_signature.
  rewrite Hreceipt, Hsignature.
  rewrite (proj2 (String.eqb_neq _ _) (Hnonempty _)).
  rewrite Htransaction, Hts.
  destruct (SignatureService.verify_signature _ _ _ _ _)
    as [sig' [is_valid message]] eqn:Hcall.
  epose proof (verify_signature_ready sig files sk pk _ _ _ _ Hready (Hb64 _))
    as Hverdict.
  rewrite Hcall in Hverdict. simpl in Hverdict.
  destruct (rsa_verify _ _ _) eqn:Hverify.
  { apply Hpair in Hverify. exfalso.
    replace (ReceiptService.receipt_data_of (Receipt.receipt_number receipt)
               (Transaction.set_amount signed_amount transaction))
      with (<["amount" := signed_amount]>
              (ReceiptService.receipt_data_of
                 (Receipt.receipt_number receipt) transaction))
      in Hverify.
    2: { unfold ReceiptService.receipt_data_of.
         destruct transaction; simpl.
         rewrite (insert_insert_ne _ "amount" "receipt_number") by done.
         rewrite (insert_insert_ne _ "amount" "reference_number") by done.
         by rewrite insert_insert_eq. }
    symmetry in Hverify.
    apply (payload_single_field _ "amount" "" signed_amount) in Hverify;
      [done | by do 2 apply list_elem_of_further; apply list_elem_of_here |].
    unfold ReceiptService.receipt_data_of, dict_get.
    rewrite lookup_insert_ne by done. rewrite lookup_insert_ne by done.
    rewrite lookup_insert_eq. simpl. congruence. }
  injection Hverdict as -> ->. rewrite Hflag.
  rewrite bool_decide_eq_true_2 by done. simpl.
  split; [done|]. split; [|done].
  rewrite first_update_first, Hreceipt; [done|].
  intros _ _. apply first_Some_elem in Hreceipt as [_ Hp].
  by destruct receipt.
Qed.

End SignedCompletion.

(** ** Issue, sweep and the list of active slips *)

Section Housekeeping.
Import DepositSlipStatus.
Context `{Platform}.

Lemma total_seconds_int_minutes (m : Z) :
  total_seconds_int (minutes m) = (m * 60)%Z.
Proof.
  unfold total_seconds_int, minutes.
  replace (m * 60 * 1000000)%Z with ((m * 60) * 1000000)%Z by lia.
  by rewrite Z.quot_mul.
Qed.

(** X12: a slip just issued is INITIATED and expires the validity after the
    instant of issue, the validity being the minutes asked for, or 60 when
    none or 0 is asked for.  Validating its DRID reports it valid, with the
    whole seconds left, up to and including the instant of expiry, and
    expired from then on; at the instant of issue the seconds left are the
    validity times 60. *)
Theorem X12_issued_slip_validity (e : DRIDService.create_env)
    (db db' : Database)
    (transaction_type customer_cnic customer_account : string)
    (amount : Decimal) (currency : string)
    (narration depositor_name depositor_cnic depositor_phone
       depositor_relationship : option string)
    (channel : string) (device_info ip_address : option string)
    (validity_minutes : option Z) (additional_data : option string)
    (slip : DigitalDepositSlip.t) :
  DRIDService.create_deposit_slip e db transaction_type customer_cnic
    customer_account amount currency narration depositor_name depositor_cnic
    depositor_phone depositor_relationship channel device_info ip_address
    validity_minutes additional_data
  = Some (db', Returned (Some slip, None)) ->
  let validity :=
    match validity_minutes with
    | Some 0%Z | None => 60%Z
    | Some v => v
    end in
  DigitalDepositSlip.status slip = INITIATED
  /\ DigitalDepositSlip.expires_at slip
     = (DRIDService.create_utcnow e + minutes validity)%Z
  /\ (forall utcnow,
        (DRIDService.validate_drid utcnow db' (DigitalDepositSlip.drid slip)).2
        = if (utcnow >? DigitalDepositSlip.expires_at slip)%Z
          then Build_DRIDValidationResult false true false false "EXPIRED"
                 "DRID has expired" (Some 0%Z)
          else Build_DRIDValidationResult true false false false "INITIATED"
                 "DRID is valid"
                 (Some (Z.max 0
                          (total_seconds_int
                             (DigitalDepositSlip.expires_at slip - utcnow)))))
  /\ ((0 <= validity)%Z ->
      time_remaining_seconds
        (DRIDService.validate_drid (DRIDService.create_utcnow e) db'
           (DigitalDepositSlip.drid slip)).2
      = Some (validity * 60)%Z).
Proof.
  intros Hissue validity.
  assert (DigitalDepositSlip.status slip = INITIATED
          /\ DigitalDepositSlip.expires_at slip
             = (DRIDService.create_utcnow e + minutes validity)%Z
          /\ first (DRIDService.by_drid (DigitalDepositSlip.drid slip))
               (deposit_slips db') = Some slip) as (Hst & Hexp & Hstored).
  { revert Hissue. subst validity. unfold DRIDService.create_deposit_slip.
    destruct validity_minutes as [[|v|v]|]; simpl.
    all: repeat case_match; intros [= <- <-]; simpl.
    all: split; [done|]; split; [done|].
    all: apply first_app_fresh;
      [by eapply unique_drid_Some | apply String.eqb_refl]. }
  split; [done|]. split; [done|].
  assert (forall utcnow,
    (DRIDService.validate_drid utcnow db' (DigitalDepositSlip.drid slip)).2
    = if (utcnow >? DigitalDepositSlip.expires_at slip)%Z
      then Build_DRIDValidationResult false true false false "EXPIRED"
             "DRID has expired" (Some 0%Z)
      else Build_DRIDValidationResult true false false false "INITIATED"
             "DRID is valid"
             (Some (Z.max 0
                      (total_seconds_int
                         (DigitalDepositSlip.expires_at slip - utcnow)))))
    as Hvalidate.
  { intros utcnow. unfold DRIDService.validate_drid. rewrite Hstored.
    fold (touched utcnow slip).
    replace (DigitalDepositSlip.expires_at (touched utcnow slip))
      with (DigitalDepositSlip.expires_at slip) by (by destruct slip).
    replace (DigitalDepositSlip.status (touched utcnow slip))
      with (DigitalDepositSlip.status slip) by (by destruct slip).
    rewrite Hst. by destruct (_ >? _)%Z. }
  split; [done|]. intros Hpos. rewrite Hvalidate, Hexp.
  destruct (Z.gtb_spec (DRIDService.create_utcnow e)
              (DRIDService.create_utcnow e + minutes validity)) as [Hlate|_].
  { unfold minutes in Hlate. lia. }
  simpl. f_equal.
  replace (DRIDService.create_utcnow e + minutes validity
           - DRIDService.create_utcnow e)%Z with (minutes validity) by lia.
  rewrite total_seconds_int_minutes. lia.
Qed.

Lemma filter_is_old_swept (utcnow : datetime)
    (rows : list DigitalDepositSlip.t) :
  List.filter (DRIDSweep.is_old utcnow)
    (List.map
       (fun s =>
          if DRIDSweep.is_old utcnow s
          then DigitalDepositSlip.set_status EXPIRED s else s) rows)
  = [].
Proof.
  induction rows as [|s rows IH]; simpl; [done|].
  destruct (DRIDSweep.is_old utcnow s) eqn:Hold.
  - unfold DRIDSweep.is_old at 1. by destruct s.
  - by rewrite Hold.
Qed.

Lemma filter_nil_map_id {A : Type} (p : A -> bool) (f : A -> A)
    (rows : list A) :
  List.filter p rows = [] ->
  List.map (fun s => if p s then f s else s) rows = rows.
Proof.
  induction rows as [|s rows IH]; simpl; [done|].
  destruct (p s); [done|]. intros Hnil. by rewrite IH.
Qed.

(** X13: the sweep stores as EXPIRED exactly the INITIATED slips whose
    expiry lies strictly before the instant of the sweep, keeps every other
    row and the order of the rows, and returns how many it changed; a slip
    whose expiry is the very instant of the sweep is kept.  A second sweep
    at the same instant finds nothing to do. *)
Theorem X13_sweep (utcnow : datetime) (db : Database) :
  let swept := DRIDSweep.expire_old_slips utcnow db in
  deposit_slips swept.1
  = List.map
      (fun s =>
         if bool_decide (DigitalDepositSlip.status s = INITIATED
                         /\ (DigitalDepositSlip.expires_at s < utcnow)%Z)
         then DigitalDepositSlip.set_status EXPIRED s else s)
      (deposit_slips db)
  /\ swept.2
     = Z.of_nat
         (length
            (List.filter
               (fun s =>
                  bool_decide
                    (DigitalDepositSlip.status s = INITIATED
                     /\ (DigitalDepositSlip.expires_at s < utcnow)%Z))
               (deposit_slips db)))
  /\ (swept.2 = 0%Z -> swept.1 = db)
  /\ DRIDSweep.expire_old_slips utcnow swept.1 = (swept.1, 0%Z).
Proof.
  intros swept. subst swept.
  assert (forall s,
            DRIDSweep.is_old utcnow s
            = bool_decide (DigitalDepositSlip.status s = INITIATED
                           /\ (DigitalDepositSlip.expires_at s < utcnow)%Z))
    as Hold.
  { intros s. unfold DRIDSweep.is_old.
    destruct (decide (DigitalDepositSlip.status s = INITIATED)) as [Hs|Hs],
      (Z.ltb_spec (DigitalDepositSlip.expires_at s) utcnow) as [Hl|Hl].
    all: rewrite ?(bool_decide_eq_true_2 _ Hs), ?(bool_decide_eq_false_2 _ Hs).
    all: simpl; symmetry.
    1: by apply bool_decide_eq_true_2.
    all: apply bool_decide_eq_false_2; intros [? ?]; (done || lia). }
  rewrite <- (filter_ext _ _ Hold).
  rewrite <- (map_ext _ _
                (fun s => f_equal
                   (fun b : bool =>
                      if b then DigitalDepositSlip.set_status EXPIRED s else s)
                   (Hold s))).
  unfold DRIDSweep.expire_old_slips.
  destruct (List.filter (DRIDSweep.is_old utcnow) (deposit_slips db))
    as [|s0 old] eqn:Hfilter.
  - simpl. rewrite Hfilter. simpl.
    by rewrite (filter_nil_map_id _ _ _ Hfilter).
  - destruct (Z.gtb_spec (Z.of_nat (length (s0 :: old))) 0) as [_|Hle];
      [|simpl in Hle; lia].
    cbn [fst snd]. split; [done|]. split; [done|].
    split; [simpl; lia|].
    cbn [deposit_slips set_deposit_slips].
    by rewrite filter_is_old_swept.
Qed.

(** X14: the sweep changes what validation answers.  An INITIATED slip
    whose expiry has passed is reported expired by [validate_drid]; once the
    sweep has stored it as EXPIRED, the same validation at the same instant
    reports it valid, under the status EXPIRED. *)
Theorem X14_swept_slip_validates (utcnow : datetime) (db : Database)
    (drid : string) (slip : DigitalDepositSlip.t) :
  first (DRIDService.by_drid drid) (deposit_slips db) = Some slip ->
  DigitalDepositSlip.status slip = INITIATED ->
  (DigitalDepositSlip.expires_at slip < utcnow)%Z ->
  let swept := (DRIDSweep.expire_old_slips utcnow db).1 in
  (DRIDService.validate_drid utcnow db drid).2
  = Build_DRIDValidationResult false true false false "EXPIRED"
      "DRID has expired" (Some 0%Z)
  /\ first (DRIDService.by_drid drid) (deposit_slips swept)
     = Some (DigitalDepositSlip.set_status EXPIRED slip)
  /\ (DRIDService.validate_drid utcnow swept drid).2
     = Build_DRIDValidationResult true false false false "EXPIRED"
         "DRID is valid" (Some 0%Z).
Proof.
  intros Hfound Hst Hlate swept.
  assert (first (DRIDService.by_drid drid) (deposit_slips swept)
          = Some (DigitalDepositSlip.set_status EXPIRED slip)) as Hswept.
  { subst swept. unfold DRIDSweep.expire_old_slips.
    assert (DRIDSweep.is_old utcnow slip = true) as Hold.
    { unfold DRIDSweep.is_old. rewrite bool_decide_eq_true_2 by done.
      by apply Z.ltb_lt. }
    assert (List.filter (DRIDSweep.is_old utcnow) (deposit_slips db) <> [])
      as Hsome.
    { apply first_Some_elem in Hfound as [Hin _].
      intros Hnil.
      assert (slip ∈ List.filter (DRIDSweep.is_old utcnow) (deposit_slips db))
        as Hin'.
      { apply list_elem_of_In, filter_In. by rewrite <- list_elem_of_In. }
      rewrite Hnil in Hin'. by apply elem_of_nil in Hin'. }
    destruct (List.filter _ _) as [|s0 old]; [done|].
    destruct (Z.gtb_spec (Z.of_nat (length (s0 :: old))) 0) as [_|Hle];
      [|simpl in Hle; lia].
    cbn [fst deposit_slips set_deposit_slips].
    clear Hsome. revert Hfound. unfold first.
    induction (deposit_slips db) as [|s rows IH]; simpl; [done|].
    destruct (DRIDService.by_drid drid s) eqn:Hs.
    - intros [= ->]. rewrite Hold.
      replace (DRIDService.by_drid drid
                 (DigitalDepositSlip.set_status EXPIRED slip))
        with true by (by destruct slip).
      done.
    - intros Hrest.
      replace (DRIDService.by_drid drid
                 (if DRIDSweep.is_old utcnow s
                  then DigitalDepositSlip.set_status EXPIRED s else s))
        with false by (destruct (DRIDSweep.is_old utcnow s); by destruct s).
      by apply IH. }
  split; [|split; [done|]].
  - unfold DRIDService.validate_drid. rewrite Hfound.
    fold (touched utcnow slip).
    replace (DigitalDepositSlip.expires_at (touched utcnow slip))
      with (DigitalDepositSlip.expires_at slip) by (by destruct slip).
    replace (DigitalDepositSlip.status (touched utcnow slip))
      with (DigitalDepositSlip.status slip) by (by destruct slip).
    rewrite Hst.
    by destruct (Z.gtb_spec utcnow (DigitalDepositSlip.expires_at slip));
      [|lia].
  - unfold DRIDService.validate_drid. rewrite Hswept.
    fold (touched utcnow (DigitalDepositSlip.set_status EXPIRED slip)).
    replace (DigitalDepositSlip.expires_at
               (touched utcnow (DigitalDepositSlip.set_status EXPIRED slip)))
      with (DigitalDepositSlip.expires_at slip) by (by destruct slip).
    replace (DigitalDepositSlip.status
               (touched utcnow (DigitalDepositSlip.set_status EXPIRED slip)))
      with EXPIRED by (by destruct slip).
    by destruct (Z.gtb_spec utcnow (DigitalDepositSlip.expires_at slip));
      [|lia].
Qed.

End Housekeeping.

(** ** What the customer is told *)

Section CustomerView.
Import DepositSlipStatus.
Context `{Platform}.

(** X15: issuing is refused with [EXISTING_SLIP:] exactly when the list of
    the customer's active slips holds a slip for the account asked for --
    for a customer and an account of theirs that exist. *)
Theorem X15_active_slips_block_issue (e : DRIDService.create_env)
    (db : Database)
    (transaction_type customer_cnic customer_account : string)
    (amount : Decimal) (currency : string)
    (narration depositor_name depositor_cnic depositor_phone
       depositor_relationship : option string)
    (channel : string) (device_info ip_address : option string)
    (validity_minutes : option Z) (additional_data : option string)
    (customer : Customer.t) (account : Account.t) :
  first (fun c => Customer.cnic c =? customer_cnic) (customers db)
  = Some customer ->
  first (fun a => Account.account_number a =? customer_account) (accounts db)
  = Some account ->
  Account.customer_id account = Customer.id customer ->
  (exists drid,
     DRIDService.create_deposit_slip e db transaction_type customer_cnic
       customer_account amount currency narration depositor_name
       depositor_cnic depositor_phone depositor_relationship channel
       device_info ip_address validity_minutes additional_data
     = Some (db, Returned (None, Some ("EXISTING_SLIP:" ++ drid))))
  <-> exists s,
        s ∈ DRIDSweep.get_customer_active_slips (DRIDService.create_utcnow e)
              db customer_cnic
        /\ DigitalDepositSlip.customer_account s = customer_account.
Proof.
  intros Hcustomer Haccount Howner.
  assert (forall s,
            DRIDService.is_active_for (DRIDService.create_utcnow e)
              customer_cnic customer_account s = true
            <-> DRIDSweep.is_active (DRIDService.create_utcnow e)
                  customer_cnic s = true
                /\ DigitalDepositSlip.customer_account s = customer_account)
    as Hactive.
  { intros s. unfold DRIDService.is_active_for, DRIDSweep.is_active.
    rewrite !andb_true_iff, !String.eqb_eq. tauto. }
  unfold DRIDService.create_deposit_slip, DRIDSweep.get_customer_active_slips.
  rewrite Hcustomer, Haccount, Howner, String.eqb_refl. simpl.
  destruct (first (DRIDService.is_active_for _ _ _) _) as [existing|]
    eqn:Hexisting.
  - split; [intros _ | by eauto].
    apply first_Some_elem in Hexisting as [Hin Hp].
    apply Hactive in Hp as [Hp Hacct]. exists existing. split; [|done].
    apply list_elem_of_In, filter_In. by rewrite <- list_elem_of_In.
  - split.
    + intros [drid Hrefused]. by repeat case_match.
    + intros (s & Hin & Hacct).
      apply list_elem_of_In, filter_In in Hin as [Hin Hp].
      apply list_elem_of_In in Hin.
      rewrite first_None_elem in Hexisting.
      specialize (Hexisting s Hin).
      by rewrite (proj2 (Hactive s) (conj Hp Hacct)) in Hexisting.
Qed.

End CustomerView.

Section StatusEndpoint.
Import DepositSlipStatus.

(** X16: the status endpoint always answers with [success], also for a
    DRID it does not know; its [can_be_used] is the [is_valid] of
    [validate_drid] and nothing more, so it is set exactly for a stored slip
    that is INITIATED with its expiry not passed, or RETRIEVED, VERIFIED or
    EXPIRED whatever the time; and the tables it leaves are those
    [validate_drid] leaves. *)
Theorem X16_status_endpoint (utcnow : datetime) (db : Database)
    (drid : string) :
  let answer :=
    deposit_slip_endpoints.check_deposit_slip_status utcnow db drid in
  answer.1 = (DRIDService.validate_drid utcnow db drid).1
  /\ DepositSlipStatusResponse.success answer.2 = true
  /\ DepositSlipStatusResponse.can_be_used answer.2
     = DepositSlipStatusResponse.is_valid answer.2
  /\ (DepositSlipStatusResponse.can_be_used answer.2 = true
      <-> exists slip,
            first (DRIDService.by_drid drid) (deposit_slips db) = Some slip
            /\ ((DigitalDepositSlip.status slip = INITIATED
                 /\ (utcnow <= DigitalDepositSlip.expires_at slip)%Z)
                \/ DigitalDepositSlip.status slip
                   ∈ [RETRIEVED; VERIFIED; EXPIRED])).
Proof.
  intros answer. subst answer.
  unfold deposit_slip_endpoints.check_deposit_slip_status.
  destruct (DRIDService.validate_drid utcnow db drid) as [db1 validation]
    eqn:Hcall.
  simpl. split; [done|]. split; [done|].
  assert (is_valid validation && negb (is_expired validation)
          && negb (is_used validation) = is_valid validation) as ->.
  { replace validation with (DRIDService.validate_drid utcnow db drid).2
      by (by rewrite Hcall).
    unfold DRIDService.validate_drid. by repeat case_match. }
  split; [done|].
  replace validation with (DRIDService.validate_drid utcnow db drid).2
    by (by rewrite Hcall).
  clear Hcall.
  destruct (first (DRIDService.by_drid drid) (deposit_slips db))
    as [slip|] eqn:Hfound.
  2: { unfold DRIDService.validate_drid. rewrite Hfound. simpl.
       split; [done | by intros (slip & [=] & _)]. }
  rewrite (validate_drid_is_valid _ _ _ _ Hfound).
  unfold is_in.
  destruct (Z.gtb_spec utcnow (DigitalDepositSlip.expires_at slip));
    destruct (DigitalDepositSlip.status slip) eqn:Hst; simpl.
  all: split; [try done | try done].
  all: try (intros _; exists slip; (split; [done|]); rewrite Hst;
            first [ left; split; [done|lia] | right; by repeat constructor ]).
  all: intros (slip' & [= <-] & Hcase); rewrite Hst in Hcase.
  all: destruct Hcase as [[Hinit Hle] | Hin%is_in_true]; (done || lia).
Qed.

End StatusEndpoint.

(** ** The signature service in use *)

Section SignatureState.
Context `{Platform}.

(** Each call leaves the class attributes [initialize] leaves. *)
Lemma signature_run_initialize (c : signature_call)
    (cls : SignatureService.state) :
  exists files, signature_run c cls = (SignatureService.initialize files cls).1.
Proof.
  destruct c; exists files; simpl; [done|..].
  - unfold SignatureKeys.get_public_key_pem, SignatureService.initialize.
    destruct (SignatureService._initialized cls) eqn:Hinit.
    + by destruct (SignatureService._public_key cls).
    + destruct files; simpl; [done| |];
        by destruct (SignatureService._public_key cls).
  - unfold SignatureService.sign_receipt, SignatureService.initialize.
    destruct (SignatureService._initialized cls) eqn:Hinit; simpl.
    + by destruct (SignatureService._private_key cls).
    + by destruct files.
  - unfold SignatureService.verify_signature, SignatureService.initialize.
    destruct (SignatureService._initialized cls) eqn:Hinit; simpl.
    + destruct (b64decode _); [|done].
      destruct (SignatureService._public_key cls); [|done].
      by destruct (rsa_verify _ _ _).
    + destruct files; simpl; [|done..].
      destruct (b64decode _); [|done]. by destruct (rsa_verify _ _ _).
Qed.

Lemma signature_run_initialized (c : signature_call)
    (cls : SignatureService.state) :
  SignatureService._initialized cls = true -> signature_run c cls = cls.
Proof.
  intros Hinit. destruct (signature_run_initialize c cls) as [files ->].
  unfold SignatureService.initialize. by rewrite Hinit.
Qed.

(** What every call keeps: the service is initialized exactly when it holds
    a public key, and then it holds a private key too. *)
Lemma signature_run_keys (c : signature_call)
    (cls : SignatureService.state) :
  (SignatureService._initialized cls = true
   <-> is_Some (SignatureService._public_key cls)) ->
  (is_Some (SignatureService._public_key cls) ->
   is_Some (SignatureService._private_key cls)) ->
  (SignatureService._initialized (signature_run c cls) = true
   <-> is_Some (SignatureService._public_key (signature_run c cls)))
  /\ (is_Some (SignatureService._public_key (signature_run c cls)) ->
      is_Some (SignatureService._private_key (signature_run c cls))).
Proof.
  intros Hiff Hboth.
  destruct (signature_run_initialize c cls) as [files ->].
  unfold SignatureService.initialize.
  destruct (SignatureService._initialized cls) eqn:Hinit; simpl;
    [by rewrite Hinit|].
  assert (SignatureService._public_key cls = None) as Hnone.
  { destruct (SignatureService._public_key cls); [|done].
    by discriminate (proj2 Hiff ltac:(by eexists)). }
  destruct files; simpl; rewrite ?Hinit, ?Hnone.
  - split; [split; [by eexists | done] | by eexists].
  - split; [split; [done | by intros [? [=]]] | by intros [? [=]]].
  - split; [split; [done | by intros [? [=]]] | by intros [? [=]]].
Qed.

(** X17: the keys are loaded once.  Once the service is initialized, no
    call changes its class attributes, whatever the key files hold by then;
    and every call answers as if the files were not there. *)
Theorem X17_keys_loaded_once (cs : list signature_call)
    (cls : SignatureService.state) (files files' : key_files)
    (utcnow : datetime) (receipt_data : gmap string string)
    (signature_b64 signing_timestamp : string) :
  SignatureService._initialized cls = true ->
  signature_run_all cs cls = cls
  /\ SignatureService.sign_receipt files utcnow cls receipt_data
     = SignatureService.sign_receipt files' utcnow cls receipt_data
  /\ SignatureService.verify_signature files cls receipt_data signature_b64
       signing_timestamp
     = SignatureService.verify_signature files' cls receipt_data
         signature_b64 signing_timestamp.
Proof.
  intros Hinit. split; [|split].
  - induction cs as [|c cs IH]; [done|].
    unfold signature_run_all in *. simpl.
    by rewrite signature_run_initialized.
  - unfold SignatureService.sign_receipt. by rewrite Hinit.
  - unfold SignatureService.verify_signature. by rewrite Hinit.
Qed.

(** X18: from the attributes the class starts with, whatever calls are
    made and whatever the key files give each time, the service is
    initialized exactly when it holds a public key, and it then holds the
    private key as well.  So [verify_signature] never meets a missing public
    key: it answers that the service is not available, or with the decoding
    error, or with one of its two verdicts; and [get_public_key_pem] returns
    a key exactly when [initialize] reports success. *)
Theorem X18_service_state_invariant (cs : list signature_call)
    (files : key_files) (receipt_data : gmap string string)
    (signature_b64 signing_timestamp : string)
    (public_bytes : PublicKey -> string) :
  let cls := signature_run_all cs SignatureService.initial in
  (SignatureService._initialized cls = true
   <-> is_Some (SignatureService._public_key cls))
  /\ (is_Some (SignatureService._public_key cls) ->
      is_Some (SignatureService._private_key cls))
  /\ (let answer :=
        (SignatureService.verify_signature files cls receipt_data
           signature_b64 signing_timestamp).2 in
      answer = (false, SignatureService.msg_not_available)
      \/ (exists exc,
            b64decode signature_b64 = inr exc
            /\ answer = (false, SignatureService.msg_error exc))
      \/ answer = (true, SignatureService.msg_authentic)
      \/ answer = (false, SignatureService.msg_tampered))
  /\ (is_Some (SignatureKeys.get_public_key_pem public_bytes files cls).2
      <-> (SignatureService.initialize files cls).2 = true).
Proof.
  intros cls.
  assert ((SignatureService._initialized cls = true
           <-> is_Some (SignatureService._public_key cls))
          /\ (is_Some (SignatureService._public_key cls) ->
              is_Some (SignatureService._private_key cls))) as [Hiff Hboth].
  { subst cls. unfold signature_run_all. rewrite <- fold_left_rev_right.
    induction (rev cs) as [|c cs' IH]; simpl.
    - split; [split; [done | by intros [? [=]]] | by intros [? [=]]].
    - destruct IH as [IH1 IH2]. by apply signature_run_keys. }
  split; [done|]. split; [done|].
  pose proof (signature_run_keys (VerifySignature files receipt_data
                signature_b64 signing_timestamp) cls Hiff Hboth)
    as [Hiff' _].
  simpl in Hiff'. split.
  - revert Hiff'. unfold SignatureService.verify_signature.
    destruct (if SignatureService._initialized cls then (cls, true)
              else SignatureService.initialize files cls)
      as [cls' ready] eqn:Hready.
    destruct ready; simpl; [|by left].
    assert (SignatureService._initialized cls' = true) as Hinit'.
    { revert Hready. unfold SignatureService.initialize.
      destruct (SignatureService._initialized cls) eqn:Hinit;
        [by intros [= <-]|].
      by destruct files; intros [= <-]. }
    destruct (b64decode signature_b64) as [signature|exc]; simpl;
      [|right; left; by eexists].
    destruct (SignatureService._public_key cls') eqn:Hpk; simpl.
    + destruct (rsa_verify _ _ _); simpl; intros _; tauto.
    + intros Hiff'. rewrite Hpk in Hiff'.
      by destruct (proj1 Hiff' Hinit') as [? [=]].
  - unfold SignatureKeys.get_public_key_pem, SignatureService.initialize.
    destruct (SignatureService._initialized cls) eqn:Hinit; simpl.
    + destruct (proj1 Hiff eq_refl) as [pk ->]. simpl.
      split; [done | by eexists].
    + assert (SignatureService._public_key cls = None) as Hnone.
      { destruct (SignatureService._public_key cls); [|done].
        by discriminate (proj2 Hiff ltac:(by eexists)). }
      destruct files; simpl; rewrite ?Hnone.
      * split; [done | by eexists].
      * split; [by intros [? [=]] | done].
      * split; [by intros [? [=]] | done].
Qed.

End SignatureState.

(** ** The canonical payload as an encoding *)

Lemma string_app_assoc (a b c : string) : (a ++ b) ++ c = a ++ b ++ c.
Proof.
  induction a as [|x a IH]; [done|].
  change (String x ((a ++ b) ++ c) = String x (a ++ b ++ c)). by rewrite IH.
Qed.

Lemma has_char_app (c : ascii) (a b : string) :
  has_char c (a ++ b) = has_char c a || has_char c b.
Proof.
  induction a as [|x a IH]; [done|].
  change (Ascii.eqb x c || has_char c (a ++ b)
          = Ascii.eqb x c || has_char c a || has_char c b).
  by rewrite IH, orb_assoc.
Qed.

(** Two texts cut at their first separator are cut alike. *)
Lemma app_sep_inj (sep : ascii) (a b r r' : string) :
  has_char sep a = false -> has_char sep b = false ->
  a ++ String sep r = b ++ String sep r' -> a = b /\ r = r'.
Proof.
  revert b. induction a as [|x a IH]; intros [|y b] Ha Hb Heq; cbn in *.
  - by injection Heq as ->.
  - injection Heq as <- _. by rewrite Ascii.eqb_refl in Hb.
  - injection Heq as -> _. by rewrite Ascii.eqb_refl in Ha.
  - injection Heq as -> Heq.
    apply orb_false_iff in Ha as [_ Ha], Hb as [_ Hb].
    destruct (IH b Ha Hb Heq) as [-> ->]. done.
Qed.

Lemma join_sep_inj (sep : ascii) (xs ys : list string) :
  List.length xs = List.length ys ->
  Forall (fun x => has_char sep x = false) xs ->
  Forall (fun y => has_char sep y = false) ys ->
  join (String sep "") xs = join (String sep "") ys -> xs = ys.
Proof.
  revert ys. induction xs as [|x xs IH]; intros [|y ys] Hlen Hxs Hys Heq;
    try done.
  apply Forall_cons in Hxs as [Hx Hxs], Hys as [Hy Hys].
  destruct xs as [|x' xs], ys as [|y' ys]; try done.
  - simpl in Heq. by subst.
  - rewrite !join_cons in Heq by done.
    change (x ++ String sep (join (String sep "") (x' :: xs))
            = y ++ String sep (join (String sep "") (y' :: ys))) in Heq.
    apply app_sep_inj in Heq as [-> Heq]; [|done..].
    f_equal. apply IH; [simpl in *; congruence | done..].
Qed.

Section Encoding.
Context `{Platform}.

(** X19: on values that hold no [|], the canonical payload is a faithful
    encoding: two sets of receipt fields have the same payload exactly when
    they agree on each of the ten signed fields. *)
Theorem X19_payload_faithful (d d' : gmap string string) :
  (forall key default,
     (key, default) ∈ signed_fields ->
     has_char "|" (dict_get d key default) = false
     /\ has_char "|" (dict_get d' key default) = false) ->
  SignatureService._create_signing_payload d
  = SignatureService._create_signing_payload d'
  <-> forall key default,
        (key, default) ∈ signed_fields ->
        dict_get d key default = dict_get d' key default.
Proof.
  intros Hfree.
  assert (forall i key default,
            signed_fields !! i = Some (key, default) ->
            (key, default) ∈ signed_fields) as Hin.
  { intros i key default Hi. by eapply list_elem_of_lookup_2. }
  split.
  - unfold SignatureService._create_signing_payload. intros Heq.
    apply (join_sep_inj "|") in Heq; [|done|..].
    + injection Heq as H0 H1 H2 H3 H4 H5 H6 H7 H8 H9.
      apply string_app_inv_head in H0, H1, H2, H3, H4, H5, H6, H7, H8, H9.
      intros key default Hkey. unfold signed_fields in Hkey.
      repeat (apply elem_of_cons in Hkey as [[= -> ->] | Hkey]); try done.
      by apply elem_of_nil in Hkey.
    + repeat (apply Forall_cons; split); [..|by apply Forall_nil].
      all: rewrite has_char_app; apply orb_false_iff; (split; [done|]).
      1: apply (Hfree _ _ (Hin 0%nat _ _ eq_refl)).
      1: apply (Hfree _ _ (Hin 1%nat _ _ eq_refl)).
      1: apply (Hfree _ _ (Hin 2%nat _ _ eq_refl)).
      1: apply (Hfree _ _ (Hin 3%nat _ _ eq_refl)).
      1: apply (Hfree _ _ (Hin 4%nat _ _ eq_refl)).
      1: apply (Hfree _ _ (Hin 5%nat _ _ eq_refl)).
      1: apply (Hfree _ _ (Hin 6%nat _ _ eq_refl)).
      1: apply (Hfree _ _ (Hin 7%nat _ _ eq_refl)).
      1: apply (Hfree _ _ (Hin 8%nat _ _ eq_refl)).
      apply (Hfree _ _ (Hin 9%nat _ _ eq_refl)).
    + repeat (apply Forall_cons; split); [..|by apply Forall_nil].
      all: rewrite has_char_app; apply orb_false_iff; (split; [done|]).
      1: apply (Hfree _ _ (Hin 0%nat _ _ eq_refl)).
      1: apply (Hfree _ _ (Hin 1%nat _ _ eq_refl)).
      1: apply (Hfree _ _ (Hin 2%nat _ _ eq_refl)).
      1: apply (Hfree _ _ (Hin 3%nat _ _ eq_refl)).
      1: apply (Hfree _ _ (Hin 4%nat _ _ eq_refl)).
      1: apply (Hfree _ _ (Hin 5%nat _ _ eq_refl)).
      1: apply (Hfree _ _ (Hin 6%nat _ _ eq_refl)).
      1: apply (Hfree _ _ (Hin 7%nat _ _ eq_refl)).
      1: apply (Hfree _ _ (Hin 8%nat _ _ eq_refl)).
      apply (Hfree _ _ (Hin 9%nat _ _ eq_refl)).
  - intros Hagree. unfold SignatureService._create_signing_payload.
    rewrite (Hagree _ _ (Hin 0%nat _ _ eq_refl)).
    rewrite (Hagree _ _ (Hin 1%nat _ _ eq_refl)).
    rewrite (Hagree _ _ (Hin 2%nat _ _ eq_refl)).
    rewrite (Hagree _ _ (Hin 3%nat _ _ eq_refl)).
    rewrite (Hagree _ _ (Hin 4%nat _ _ eq_refl)).
    rewrite (Hagree _ _ (Hin 5%nat _ _ eq_refl)).
    rewrite (Hagree _ _ (Hin 6%nat _ _ eq_refl)).
    rewrite (Hagree _ _ (Hin 7%nat _ _ eq_refl)).
    rewrite (Hagree _ _ (Hin 8%nat _ _ eq_refl)).
    by rewrite (Hagree _ _ (Hin 9%nat _ _ eq_refl)).
Qed.

(** X20: with a [|] in a value the payload no longer tells the fields
    apart.  A customer name that ends in [|customer_account:] and an
    account gives the payload of the shorter name with that account put in
    front of the account field; so the signature made for the one set of
    fields is reported authentic for the other, which names another
    customer and another account. *)
Theorem X20_payload_delimiter (sk : PrivateKey) (pk : PublicKey)
    (files : key_files) (cls : SignatureService.state) (utcnow : datetime)
    (receipt_data : gmap string string) (a b c : string) :
  key_pair sk pk ->
  b64_round_trip ->
  ready_with cls files sk pk ->
  let signed :=
    <["customer_name" := a ++ "|customer_account:" ++ b]>
      (<["customer_account" := c]> receipt_data) in
  let shown :=
    <["customer_name" := a]>
      (<["customer_account" := b ++ "|customer_account:" ++ c]>
         receipt_data) in
  dict_get signed "customer_name" "" <> dict_get shown "customer_name" ""
  /\ SignatureService._create_signing_payload signed
     = SignatureService._create_signing_payload shown
  /\ exists cls' signature_b64 payload_hash ts,
       SignatureService.sign_receipt files utcnow cls signed
       = (cls', (Some signature_b64, Some payload_hash, Some ts))
       /\ (SignatureService.verify_signature files cls' shown signature_b64
             ts).2
          = (true, SignatureService.msg_authentic).
Proof.
  intros Hpair Hb64 Hready signed shown.
  assert (SignatureService._create_signing_payload signed
          = SignatureService._create_signing_payload shown) as Hsame.
  { subst signed shown. unfold SignatureService._create_signing_payload.
    unfold dict_get.
    repeat (rewrite lookup_insert_eq || rewrite lookup_insert_ne by done).
    cbn [join].
    change "|customer_account:" with ("|" ++ "customer_account:").
    by rewrite !string_app_assoc. }
  split; [|split; [done|]].
  - subst signed shown. unfold dict_get. rewrite !lookup_insert_eq.
    intros Heq. apply (f_equal String.length) in Heq.
    rewrite !string_length_app in Heq. simpl in Heq. lia.
  - destruct (sign_receipt_ready cls files sk pk utcnow signed Hready)
      as (cls' & Hsign & Hready').
    eexists cls', _, _, _. split; [exact Hsign|].
    rewrite (verify_signature_ready _ _ sk pk _ _ _ _ Hready' (Hb64 _)).
    by rewrite (proj2 (Hpair _ _) (eq_sym Hsame)).
Qed.

End Encoding.

(** ** Receipts: one per transaction, checked as often as wanted *)

Section Receipts.
Context `{Platform}.

Lemma create_receipt_Returned (e : ReceiptService.env)
    (sig sig' : SignatureService.state) (db db' : Database)
    (transaction : Transaction.t) (receipt_type : string)
    (receipt : Receipt.t) :
  ReceiptService.create_receipt e sig db transaction receipt_type
  = (sig', db', Returned receipt) ->
  db' = set_receipts (receipts db ++ [receipt]) db
  /\ Receipt.transaction_id receipt = Transaction.id transaction
  /\ Receipt.receipt_number receipt = ReceiptService.generate_receipt_number e
  /\ Receipt.verification_url receipt
     = QRVerify.get_verification_url (Receipt.receipt_number receipt)
         (QRService.generate_verification_hash (Receipt.receipt_number receipt)
            (Transaction.reference_number transaction)
            (Transaction.amount transaction)
            (Transaction.customer_name transaction)
            (Transaction.created_at transaction)).
Proof.
  unfold ReceiptService.create_receipt.
  destruct (SignatureService.sign_receipt _ _ _ _)
    as [sig1 [[signature signature_hash] signature_timestamp]].
  destruct (ReceiptType.of_name receipt_type); [|done].
  destruct (ReceiptService.fault e); [done|].
  intros [= <- <- <-]. simpl. do 3 (split; [done|]).
  unfold QRService.generate_qr_data, dict_get.
  by repeat (rewrite lookup_insert_eq || rewrite lookup_insert_ne by done).
Qed.

(** X21: a transaction gets one receipt.  Once [get_or_create_receipt] has
    returned a receipt for a transaction, the receipt is for that
    transaction, and asking again -- whatever the clock and the numbers
    drawn by then -- returns the same receipt and stores nothing. *)
Theorem X21_one_receipt_per_transaction (e e2 : ReceiptService.env)
    (sig sig' : SignatureService.state) (db db' : Database)
    (transaction_id : string) (receipt : Receipt.t) :
  ReceiptLookup.get_or_create_receipt e sig db transaction_id
  = (sig', db', Returned (Some receipt, None)) ->
  Receipt.transaction_id receipt = transaction_id
  /\ ReceiptLookup.get_or_create_receipt e2 sig' db' transaction_id
     = (sig', db', Returned (Some receipt, None)).
Proof.
  unfold ReceiptLookup.get_or_create_receipt.
  destruct (first (fun t => Transaction.id t =? transaction_id)
              (transactions db)) as [transaction|] eqn:Htransaction; [|done].
  destruct (first (fun r => Receipt.transaction_id r =? transaction_id)
              (receipts db)) as [existing|] eqn:Hexisting.
  - intros [= <- <- <-]. rewrite Htransaction, Hexisting.
    apply first_Some_elem in Hexisting as [_ Hid].
    by apply String.eqb_eq in Hid.
  - destruct (ReceiptService.create_receipt e sig db transaction "DIGITAL")
      as [[sig1 db1] [created|exc]] eqn:Hcreate; [|done].
    intros [= <- <- <-].
    apply create_receipt_Returned in Hcreate as (-> & Hid & _).
    apply first_Some_elem in Htransaction as Hfound.
    destruct Hfound as [_ Htid]. apply String.eqb_eq in Htid.
    split; [congruence|]. simpl. rewrite Htransaction.
    rewrite (first_app_fresh _ _ created Hexisting); [done|].
    apply String.eqb_eq. congruence.
Qed.

Lemma initialize_again (files : key_files) (cls : SignatureService.state) :
  SignatureService.initialize files (SignatureService.initialize files cls).1
  = SignatureService.initialize files cls.
Proof.
  unfold SignatureService.initialize.
  destruct (SignatureService._initialized cls) eqn:Hinit; simpl;
    [by rewrite Hinit|].
  destruct files; simpl; [done | done | by rewrite Hinit].
Qed.

Lemma verify_signature_initialize (files : key_files)
    (cls : SignatureService.state) (receipt_data : gmap string string)
    (signature_b64 signing_timestamp : string) :
  SignatureService.verify_signature files cls receipt_data signature_b64
    signing_timestamp
  = let '(cls, ready) := SignatureService.initialize files cls in
    if negb ready then (cls, (false, SignatureService.msg_not_available))
    else
      match b64decode signature_b64 with
      | inr exc => (cls, (false, SignatureService.msg_error exc))
      | inl signature =>
          match SignatureService._public_key cls with
          | None =>
              (cls, (false,
                     SignatureService.msg_error
                       SignatureService.exc_no_public_key))
          | Some public_key =>
              if rsa_verify public_key signature
                   (SignatureService._create_signing_payload receipt_data)
              then (cls, (true, SignatureService.msg_authentic))
              else (cls, (false, SignatureService.msg_tampered))
          end
      end.
Proof.
  unfold SignatureService.verify_signature.
  rewrite payload_ignores_signing_timestamp.
  unfold SignatureService.initialize.
  by destruct (SignatureService._initialized cls).
Qed.

(** Verifying leaves the service in a state from which the same
    verification gives the same answer. *)
Lemma verify_signature_again (files : key_files)
    (cls : SignatureService.state) (receipt_data : gmap string string)
    (signature_b64 signing_timestamp : string) :
  let verdict :=
    SignatureService.verify_signature files cls receipt_data signature_b64
      signing_timestamp in
  SignatureService.verify_signature files verdict.1 receipt_data
    signature_b64 signing_timestamp
  = verdict.
Proof.
  intros verdict. subst verdict.
  rewrite (verify_signature_initialize files cls).
  pose proof (initialize_again files cls) as Hagain.
  destruct (SignatureService.initialize files cls) as [cls' ready].
  simpl in Hagain.
  destruct ready; simpl.
  - destruct (b64decode signature_b64) as [signature|exc] eqn:Hb64; simpl.
    + destruct (SignatureService._public_key cls') as [pk|] eqn:Hpk; simpl.
      * destruct (rsa_verify _ _ _) eqn:Hverify; simpl;
          by rewrite verify_signature_initialize, Hagain, Hb64, Hpk, Hverify.
      * by rewrite verify_signature_initialize, Hagain, Hb64, Hpk.
    + by rewrite verify_signature_initialize, Hagain, Hb64.
  - by rewrite verify_signature_initialize, Hagain.
Qed.

(** X22: verifying a receipt's signature can be repeated.  Whatever the
    first call answers, the same call made on the tables and the service it
    leaves gives the same answer and changes nothing; the transactions are
    never written, and when a verdict is reached the receipt returned
    carries it in [is_signature_valid]. *)
Theorem X22_signature_check_repeatable (files : key_files)
    (sig : SignatureService.state) (db : Database) (receipt_number : string) :
  let checked :=
    ReceiptService.verify_receipt_signature files sig db receipt_number in
  ReceiptService.verify_receipt_signature files checked.1.1 checked.1.2
    receipt_number
  = checked
  /\ transactions checked.1.2 = transactions db
  /\ (forall receipt,
        checked.2.2 = Some receipt ->
        checked.2.1.2 = SignatureService.msg_authentic
        \/ checked.2.1.2 = SignatureService.msg_tampered ->
        Receipt.is_signature_valid receipt = checked.2.1.1).
Proof.
  intros checked. subst checked.
  unfold ReceiptService.verify_receipt_signature.
  destruct (first (ReceiptService.by_receipt_number receipt_number)
              (receipts db)) as [receipt|] eqn:Hreceipt;
    [|simpl; by rewrite Hreceipt].
  destruct (Receipt.digital_signature receipt) as [digital_signature|]
    eqn:Hsignature.
  2: { simpl. rewrite Hreceipt, Hsignature. split; [done|]. split; [done|].
       by intros r _ [[=] | [=]]. }
  destruct (digital_signature =? "") eqn:Hempty.
  { simpl. rewrite Hreceipt, Hsignature, Hempty. split; [done|].
    split; [done|]. by intros r _ [[=] | [=]]. }
  destruct (first (fun t => Transaction.id t =? Receipt.transaction_id receipt)
              (transactions db)) as [transaction|] eqn:Htransaction.
  2: { simpl. rewrite Hreceipt, Hsignature, Hempty, Htransaction.
       split; [done|]. split; [done|]. by intros r _ [[=] | [=]]. }
  destruct (Receipt.signature_timestamp receipt) as [ts|] eqn:Hts.
  2: { simpl. rewrite Hreceipt, Hsignature, Hempty, Htransaction, Hts.
       split; [done|]. split; [done|]. by intros r _ [[=] | [=]]. }
  pose proof (verify_signature_again files sig
                (ReceiptService.receipt_data_of
                   (Receipt.receipt_number receipt) transaction)
                digital_signature (isoformat ts ++ "Z")) as Hagain.
  destruct (SignatureService.verify_signature files sig _ _ _)
    as [sig1 [is_valid message]].
  simpl in Hagain.
  destruct (decide (Receipt.is_signature_valid receipt = is_valid))
    as [Hflag|Hflag].
  - rewrite bool_decide_eq_false_2 by (intros Hne; by apply Hne). simpl.
    rewrite Hreceipt, Hsignature, Hempty, Htransaction, Hts, Hagain.
    rewrite bool_decide_eq_false_2 by (intros Hne; by apply Hne).
    split; [done|]. split; [done|]. by intros r [= <-] _.
  - rewrite bool_decide_eq_true_2 by done. simpl.
    rewrite first_update_first, Hreceipt.
    2: { intros _ _. apply first_Some_elem in Hreceipt as [_ Hp].
         by destruct receipt. }
    simpl.
    replace (Receipt.digital_signature
               (Receipt.set_is_signature_valid is_valid receipt))
      with (Some digital_signature) by (by destruct receipt).
    replace (Receipt.transaction_id
               (Receipt.set_is_signature_valid is_valid receipt))
      with (Receipt.transaction_id receipt) by (by destruct receipt).
    replace (Receipt.signature_timestamp
               (Receipt.set_is_signature_valid is_valid receipt))
      with (Some ts) by (by destruct receipt).
    replace (Receipt.receipt_number
               (Receipt.set_is_signature_valid is_valid receipt))
      with (Receipt.receipt_number receipt) by (by destruct receipt).
    replace (Receipt.is_signature_valid
               (Receipt.set_is_signature_valid is_valid receipt))
      with is_valid by (by destruct receipt).
    rewrite Hempty, Htransaction, Hagain.
    rewrite bool_decide_eq_false_2 by (intros Hne; by apply Hne).
    split; [done|]. split; [done|]. intros r [= <-] _. by destruct receipt.
Qed.

Lemma substring_length_le (n : nat) (s : string) :
  (String.length (String.substring 0 n s) <= n)%nat.
Proof.
  revert s. induction n as [|n IH]; intros [|c s]; simpl; try lia.
  specialize (IH s). lia.
Qed.

(** X23: the link on a receipt leads back to it.  The verification URL
    stored with a receipt is [get_verification_url] of the receipt's number
    and of the hash of the transaction's reference, amount, customer name
    and date; that hash has at most 16 characters and passes
    [verify_receipt_hash] against those columns; and the currency takes no
    part in it. *)
Theorem X23_receipt_link (e : ReceiptService.env)
    (sig sig' : SignatureService.state) (db db' : Database)
    (transaction : Transaction.t) (receipt_type : string)
    (receipt : Receipt.t) :
  ReceiptService.create_receipt e sig db transaction receipt_type
  = (sig', db', Returned receipt) ->
  let verification_hash :=
    QRService.generate_verification_hash (Receipt.receipt_number receipt)
      (Transaction.reference_number transaction)
      (Transaction.amount transaction)
      (Transaction.customer_name transaction)
      (Transaction.created_at transaction) in
  Receipt.verification_url receipt
  = QRVerify.get_verification_url (Receipt.receipt_number receipt)
      verification_hash
  /\ (String.length verification_hash <= 16)%nat
  /\ QRVerify.verify_receipt_hash (Receipt.receipt_number receipt)
       (Transaction.reference_number transaction)
       (Transaction.amount transaction)
       (Transaction.customer_name transaction)
       (Transaction.created_at transaction) verification_hash
     = true
  /\ (forall currency,
        dict_get
          (QRService.generate_qr_data (Receipt.receipt_number receipt)
             (Transaction.reference_number transaction)
             (Transaction.amount transaction) currency
             (Transaction.customer_name transaction)
             (Transaction.created_at transaction)) "h" ""
        = verification_hash).
Proof.
  intros Hcreate verification_hash.
  apply create_receipt_Returned in Hcreate as (_ & _ & _ & Hurl).
  split; [done|]. split; [apply substring_length_le|].
  split; [apply String.eqb_refl|].
  intros currency. unfold QRService.generate_qr_data, dict_get.
  by repeat (rewrite lookup_insert_eq || rewrite lookup_insert_ne by done).
Qed.

End Receipts.

(** ** One-time passwords *)

Section OneTimePasswords.

(** The entry [send_otp] stores, whatever becomes of the message. *)
Lemma send_otp_store (utcnow : datetime) (new_otp : string)
    (tw : OTPService.twilio) (_otp_store : gmap string OTPData.t)
    (phone_number drid : string) :
  (OTPService.send_otp utcnow new_otp tw _otp_store phone_number drid).1
  = <[OTPService.otp_key drid (OTPService._normalize_phone phone_number) :=
        OTPData.Build new_otp (OTPService._normalize_phone phone_number) drid
          utcnow (utcnow + minutes OTPService.OTP_EXPIRY_MINUTES)%Z 0 false]>
      _otp_store.
Proof. unfold OTPService.send_otp. by destruct tw. Qed.

(** A wrong code, on an entry that is still open, uses up one attempt. *)
Lemma verify_otp_wrong (utcnow : datetime)
    (_otp_store : gmap string OTPData.t) (phone_number drid otp : string)
    (otp_data : OTPData.t) :
  _otp_store !! OTPService.otp_key drid (OTPService._normalize_phone phone_number)
  = Some otp_data ->
  OTPData.verified otp_data = false ->
  (utcnow <= OTPData.expires_at otp_data)%Z ->
  (OTPData.attempts otp_data < OTPService.MAX_ATTEMPTS)%Z ->
  OTPData.otp otp_data <> otp ->
  OTPService.verify_otp utcnow _otp_store phone_number drid otp
  = (<[OTPService.otp_key drid (OTPService._normalize_phone phone_number) :=
         OTPData.Build (OTPData.otp otp_data) (OTPData.phone otp_data)
           (OTPData.drid otp_data) (OTPData.created_at otp_data)
           (OTPData.expires_at otp_data) (OTPData.attempts otp_data + 1)
           false]> _otp_store,
     (false,
      "Invalid OTP. "
        ++ pretty (OTPService.MAX_ATTEMPTS - (OTPData.attempts otp_data + 1))%Z
        ++ " attempts remaining.")).
Proof.
  intros Hstored Hopen Htime Hleft Hwrong. unfold OTPService.verify_otp.
  rewrite Hstored, Hopen.
  destruct (Z.gtb_spec utcnow (OTPData.expires_at otp_data)); [lia|].
  destruct (Z.geb_spec (OTPData.attempts otp_data) OTPService.MAX_ATTEMPTS);
    [lia|].
  simpl. by rewrite (proj2 (String.eqb_neq _ _) Hwrong).
Qed.

(** X24: the code sent is accepted, once and for good.  Whatever became of
    the message -- also when sending it failed --, the code stored by
    [send_otp] is accepted by [verify_otp] for the same phone and DRID up to
    and including the instant of its expiry; from then on every
    verification for that phone and DRID answers [OTP already verified],
    whatever code is given and however late. *)
Theorem X24_otp_accepted_once_and_for_good (sent_at utcnow later : datetime)
    (new_otp otp : string) (tw : OTPService.twilio)
    (_otp_store : gmap string OTPData.t) (phone_number drid : string) :
  (utcnow <= sent_at + minutes OTPService.OTP_EXPIRY_MINUTES)%Z ->
  let sent :=
    (OTPService.send_otp sent_at new_otp tw _otp_store phone_number drid).1 in
  let checked := OTPService.verify_otp utcnow sent phone_number drid new_otp in
  checked.2 = (true, "OTP verified successfully")
  /\ OTPService.verify_otp later checked.1 phone_number drid otp
     = (checked.1, (true, "OTP already verified")).
Proof.
  intros Htime sent checked. subst sent checked.
  rewrite send_otp_store. unfold OTPService.verify_otp.
  rewrite lookup_insert_eq. simpl.
  destruct (Z.gtb_spec utcnow
              (sent_at + minutes OTPService.OTP_EXPIRY_MINUTES)); [lia|].
  simpl. rewrite String.eqb_refl. simpl. split; [done|].
  by rewrite lookup_insert_eq.
Qed.

(** X25: three wrong codes close the entry.  After [send_otp], three
    verifications with codes other than the one sent are answered with 2,
    then 1, then 0 attempts remaining; the next verification is refused for
    too many attempts even with the code that was sent, and removes the
    entry, so that the one after it finds no code at all. *)
Theorem X25_otp_three_attempts (sent_at t1 t2 t3 t4 t5 : datetime)
    (new_otp w1 w2 w3 otp : string) (tw : OTPService.twilio)
    (_otp_store : gmap string OTPData.t) (phone_number drid : string) :
  w1 <> new_otp -> w2 <> new_otp -> w3 <> new_otp ->
  (t1 <= sent_at + minutes OTPService.OTP_EXPIRY_MINUTES)%Z ->
  (t2 <= sent_at + minutes OTPService.OTP_EXPIRY_MINUTES)%Z ->
  (t3 <= sent_at + minutes OTPService.OTP_EXPIRY_MINUTES)%Z ->
  (t4 <= sent_at + minutes OTPService.OTP_EXPIRY_MINUTES)%Z ->
  let sent :=
    (OTPService.send_otp sent_at new_otp tw _otp_store phone_number drid).1 in
  let first_try := OTPService.verify_otp t1 sent phone_number drid w1 in
  let second_try :=
    OTPService.verify_otp t2 first_try.1 phone_number drid w2 in
  let third_try :=
    OTPService.verify_otp t3 second_try.1 phone_number drid w3 in
  let fourth_try :=
    OTPService.verify_otp t4 third_try.1 phone_number drid new_otp in
  first_try.2 = (false, "Invalid OTP. 2 attempts remaining.")
  /\ second_try.2 = (false, "Invalid OTP. 1 attempts remaining.")
  /\ third_try.2 = (false, "Invalid OTP. 0 attempts remaining.")
  /\ fourth_try.2
     = (false, "Maximum attempts exceeded. Please request a new OTP.")
  /\ OTPService.verify_otp t5 fourth_try.1 phone_number drid otp
     = (fourth_try.1, (false, "OTP not found. Please request a new OTP.")).
Proof.
  intros Hw1 Hw2 Hw3 Ht1 Ht2 Ht3 Ht4 sent first_try second_try third_try
    fourth_try.
  subst sent first_try second_try third_try fourth_try.
  rewrite send_otp_store.
  erewrite verify_otp_wrong;
    [|apply lookup_insert_eq | done | done | done | by apply not_eq_sym].
  simpl.
  erewrite verify_otp_wrong;
    [|apply lookup_insert_eq | done | done | done | by apply not_eq_sym].
  simpl.
  erewrite verify_otp_wrong;
    [|apply lookup_insert_eq | done | done | done | by apply not_eq_sym].
  simpl. do 3 (split; [done|]).
  match goal with
  | |- context [OTPService.verify_otp t4 ?s _ _ _] =>
      assert (OTPService.verify_otp t4 s phone_number drid new_otp
              = (delete
                   (OTPService.otp_key drid
                      (OTPService._normalize_phone phone_number)) s,
                 (false,
                  "Maximum attempts exceeded. Please request a new OTP.")))
        as ->
  end.
  { unfold OTPService.verify_otp. rewrite lookup_insert_eq. simpl.
    by destruct (Z.gtb_spec t4
                   (sent_at + minutes OTPService.OTP_EXPIRY_MINUTES));
      [lia|]. }
  simpl. split; [done|].
  unfold OTPService.verify_otp. by rewrite lookup_delete_eq.
Qed.

(** X26: [cleanup_expired] removes exactly the entries whose expiry has
    passed, verified or not, keeps every other entry as it is, and returns
    how many it removed; a second clean-up at the same instant removes
    nothing.  Where [verify_otp] would have answered that the code was
    already verified, it finds no code after the clean-up. *)
Theorem X26_otp_cleanup (utcnow : datetime)
    (_otp_store : gmap string OTPData.t) (phone_number drid otp : string) :
  let cleaned := OTPService.cleanup_expired utcnow _otp_store in
  (forall key,
     cleaned.1 !! key
     = match _otp_store !! key with
       | Some otp_data =>
           if bool_decide (utcnow > OTPData.expires_at otp_data)%Z
           then None else Some otp_data
       | None => None
       end)
  /\ (cleaned.2 + Z.of_nat (size cleaned.1) = Z.of_nat (size _otp_store))%Z
  /\ OTPService.cleanup_expired utcnow cleaned.1 = (cleaned.1, 0%Z)
  /\ (forall otp_data,
        _otp_store
          !! OTPService.otp_key drid (OTPService._normalize_phone phone_number)
        = Some otp_data ->
        (utcnow > OTPData.expires_at otp_data)%Z ->
        OTPData.verified otp_data = true ->
        (OTPService.verify_otp utcnow _otp_store phone_number drid otp).2
        = (true, "OTP already verified")
        /\ (OTPService.verify_otp utcnow cleaned.1 phone_number drid otp).2
           = (false, "OTP not found. Please request a new OTP.")).
Proof.
  intros cleaned. subst cleaned. unfold OTPService.cleanup_expired. simpl.
  set (expired := fun kd : string * OTPData.t =>
                    (utcnow > OTPData.expires_at kd.2)%Z).
  change (fun kd : string * OTPData.t =>
            ~ (utcnow > OTPData.expires_at kd.2)%Z)
    with (fun kd : string * OTPData.t => ~ expired kd).
  assert (forall key,
            filter (fun kd => ~ expired kd) _otp_store !! key
            = match _otp_store !! key with
              | Some otp_data =>
                  if bool_decide (utcnow > OTPData.expires_at otp_data)%Z
                  then None else Some otp_data
              | None => None
              end) as Hlookup.
  { intros key. rewrite map_lookup_filter.
    destruct (_otp_store !! key) as [otp_data|]; simpl; [|done].
    case_bool_decide; subst expired; simpl;
      case_guard; simpl; (done || tauto). }
  split; [done|]. split; [|split].
  - pose proof (map_size_disj_union _ _
                  (map_disjoint_filter_complement expired _otp_store))
      as Hsize.
    rewrite map_filter_union_complement in Hsize.
    rewrite Hsize, Nat2Z.inj_add. reflexivity.
  - f_equal.
    + apply map_filter_id. intros key otp_data Hkey.
      by apply map_lookup_filter_Some in Hkey as [_ ?].
    + replace (filter expired (filter (fun kd => ~ expired kd) _otp_store))
        with (∅ : gmap string OTPData.t); [done|].
      symmetry. apply map_empty_filter. intros key otp_data Hkey.
      by apply map_lookup_filter_Some in Hkey as [_ ?].
  - intros otp_data Hstored Hlate Hverified.
    unfold OTPService.verify_otp.
    rewrite Hlookup, Hstored, Hverified.
    by rewrite bool_decide_eq_true_2.
Qed.

End OneTimePasswords.

(** ** Phone numbers and error texts *)

Section Texts.

(** A text that starts with an ASCII character other than white space is
    not trimmed at its start. *)
Lemma lstrip_cons (c : ascii) (s : string) :
  Nat.ltb (nat_of_ascii c) 128 = true -> isspace c = false ->
  lstrip (String c s) = String c s.
Proof.
  intros Hascii%Nat.ltb_lt Hc. simpl. rewrite Hc.
  assert (Nat.eqb (nat_of_ascii c) 194 = false) as H194
    by (apply Nat.eqb_neq; lia).
  assert (Nat.eqb (nat_of_ascii c) 225 = false) as H225
    by (apply Nat.eqb_neq; lia).
  assert (Nat.eqb (nat_of_ascii c) 226 = false) as H226
    by (apply Nat.eqb_neq; lia).
  assert (Nat.eqb (nat_of_ascii c) 227 = false) as H227
    by (apply Nat.eqb_neq; lia).
  destruct s as [|c2 [|c3 s3]]; [done| |];
    unfold isspace2, isspace3; by rewrite ?H194, ?H225, ?H226, ?H227.
Qed.

Lemma rstrip_cons (c : ascii) (s : string) :
  Nat.ltb (nat_of_ascii c) 128 = true -> isspace c = false ->
  rstrip (String c s) = String c (rstrip s).
Proof.
  intros Hascii Hc.
  change (rstrip (String c s))
    with (match lstrip (String c s) with
          | EmptyString => EmptyString
          | _ => String c (rstrip s)
          end).
  by rewrite lstrip_cons.
Qed.

(** X27: every spelling of a Pakistani number leads to the same key.
    [_normalize_phone] always returns a text that starts with [+]; for a
    national number that [rstrip] leaves as it is - it ends in no white
    space, ASCII or other -, the spellings with a leading [0], with [92],
    with [+92] and with [whatsapp:+92] are all normalised to the one with
    [+92], which is left as it is. *)
Theorem X27_phone_spellings (national : string) :
  rstrip national = national ->
  let international := "+92" ++ national in
  (forall phone, startswith (OTPService._normalize_phone phone) "+" = true)
  /\ OTPService._normalize_phone ("0" ++ national) = international
  /\ OTPService._normalize_phone ("92" ++ national) = international
  /\ OTPService._normalize_phone ("+92" ++ national) = international
  /\ OTPService._normalize_phone ("whatsapp:+92" ++ national) = international
  /\ OTPService._normalize_phone international = international.
Proof.
  intros Hclean international. subst international. split.
  { intros phone. unfold OTPService._normalize_phone.
    set (stripped := strip phone).
    set (bare := if startswith stripped "whatsapp:"
                 then string_drop 9 stripped else stripped).
    destruct (startswith bare "+") eqn:Hplus; simpl; [done|].
    clearbody bare.
    destruct (startswith bare "92"), (startswith bare "0"), bare;
      reflexivity. }
  unfold OTPService._normalize_phone, strip.
  repeat split; lazy beta iota delta [String.append].
  all: repeat (rewrite rstrip_cons by reflexivity).
  all: rewrite Hclean, lstrip_cons by reflexivity.
  all: clear; by destruct national.
Qed.

Lemma startswith_app (pre s : string) : startswith (pre ++ s) pre = true.
Proof.
  unfold startswith. induction pre as [|c pre IH]; [by destruct s|].
  change (String.prefix (String c pre) (String c (pre ++ s)) = true).
  simpl. by destruct (ascii_dec c c).
Qed.

Lemma split_char_free (sep : ascii) (s : string) :
  has_char sep s = false -> split_char sep s = [s].
Proof.
  induction s as [|c s IH]; simpl; [done|].
  intros [Hc Hs]%orb_false_iff. by rewrite Hc, IH.
Qed.

Lemma split_char_app (sep : ascii) (a b : string) :
  has_char sep a = false ->
  split_char sep (a ++ String sep b) = a :: split_char sep b.
Proof.
  induction a as [|c a IH]; intros Ha.
  - change (split_char sep (String sep b) = "" :: split_char sep b).
    simpl. by rewrite Ascii.eqb_refl.
  - change (split_char sep (String c (a ++ String sep b))
            = String c a :: split_char sep b).
    simpl in *. apply orb_false_iff in Ha as [Hc Ha].
    by rewrite Hc, IH.
Qed.

End Texts.

Section Adapter.
Import DepositSlipStatus.
Context `{Platform}.

(** X28: the adapter finds the slip that blocks a new one.  When issuing is
    refused with an error that starts with [EXISTING_SLIP:], and no stored
    DRID holds a colon, the DRID the adapter takes out of the error is that
    of a stored slip of the customer and account that is still active, and
    looking it up finds a slip.  A DRID with a colon would come out cut at
    the colon. *)
Theorem X28_existing_drid (e : DRIDService.create_env) (db db' : Database)
    (transaction_type customer_cnic customer_account : string)
    (amount : Decimal) (currency : string)
    (narration depositor_name depositor_cnic depositor_phone
       depositor_relationship : option string)
    (channel : string) (device_info ip_address : option string)
    (validity_minutes : option Z) (additional_data : option string)
    (error : string) :
  Forall (fun s => has_char ":" (DigitalDepositSlip.drid s) = false)
    (deposit_slips db) ->
  DRIDService.create_deposit_slip e db transaction_type customer_cnic
    customer_account amount currency narration depositor_name depositor_cnic
    depositor_phone depositor_relationship channel device_info ip_address
    validity_minutes additional_data
  = Some (db', Returned (None, Some error)) ->
  startswith error "EXISTING_SLIP:" = true ->
  (exists existing,
     existing ∈ deposit_slips db
     /\ DRIDService.is_active_for (DRIDService.create_utcnow e) customer_cnic
          customer_account existing = true
     /\ whatsapp_adapter.existing_drid error
        = Some (DigitalDepositSlip.drid existing)
     /\ is_Some
          (DRIDService.get_deposit_slip_by_drid db
             (DigitalDepositSlip.drid existing)))
  /\ (forall drid rest,
        has_char ":" drid = false ->
        whatsapp_adapter.existing_drid
          ("EXISTING_SLIP:" ++ drid ++ ":" ++ rest)
        = Some drid).
Proof.
  intros Hfree Hissue Hstart. split.
  - revert Hissue. unfold DRIDService.create_deposit_slip.
    destruct (first _ (customers db)) as [customer|];
      [|intros [= <- <-]; by vm_compute in Hstart].
    destruct (first _ (accounts db)) as [account|];
      [|intros [= <- <-]; by vm_compute in Hstart].
    destruct (negb _); [intros [= <- <-]; by vm_compute in Hstart|].
    destruct (first (DRIDService.is_active_for _ _ _) (deposit_slips db))
      as [existing|] eqn:Hexisting.
    2: { by repeat case_match. }
    intros [= <- <-]. clear Hstart.
    apply first_Some_elem in Hexisting as [Hin Hactive].
    exists existing. split; [done|]. split; [done|].
    rewrite Forall_forall in Hfree. specialize (Hfree existing Hin).
    split.
    + unfold whatsapp_adapter.existing_drid. rewrite startswith_app.
      change ("EXISTING_SLIP:" ++ DigitalDepositSlip.drid existing)
        with ("EXISTING_SLIP"
                ++ String ":" (DigitalDepositSlip.drid existing)).
      rewrite split_char_app by done. by rewrite split_char_free.
    + unfold DRIDService.get_deposit_slip_by_drid.
      destruct (first _ (deposit_slips db)) eqn:Hlookup; [by eexists|].
      rewrite first_None_elem in Hlookup. specialize (Hlookup existing Hin).
      unfold DRIDService.by_drid in Hlookup.
      by rewrite String.eqb_refl in Hlookup.
  - intros drid rest Hdrid. unfold whatsapp_adapter.existing_drid.
    rewrite startswith_app.
    change ("EXISTING_SLIP:" ++ drid ++ ":" ++ rest)
      with ("EXISTING_SLIP" ++ String ":" (drid ++ String ":" rest)).
    rewrite split_char_app by done. by rewrite split_char_app.
Qed.

End Adapter.

Section OtpEndpoints.
Import DepositSlipStatus.

(** X29: the endpoint that sends the code writes to the code store only
    for a slip that is VERIFIED and has a phone number; it then stores the
    code drawn, unused and unverified, under the DRID and the normalised
    phone of the depositor, replacing whatever entry was there -- also when
    the message could not be sent and the endpoint answers with an error. *)
Theorem X29_send_otp_endpoint (utcnow : datetime) (new_otp : string)
    (tw : OTPService.twilio) (_otp_store : gmap string OTPData.t)
    (db : Database) (drid : string) :
  let sent :=
    deposit_slip_endpoints.send_otp utcnow new_otp tw _otp_store db drid in
  match DRIDService.get_deposit_slip_by_drid db drid with
  | Some slip =>
      if bool_decide (DigitalDepositSlip.status slip = VERIFIED)
         && negb (deposit_slip_endpoints.phone_of slip =? "")
      then
        let phone :=
          OTPService._normalize_phone (deposit_slip_endpoints.phone_of slip) in
        sent.1
        = <[OTPService.otp_key drid phone :=
              OTPData.Build new_otp phone drid utcnow
                (utcnow + minutes OTPService.OTP_EXPIRY_MINUTES)%Z 0 false]>
            _otp_store
        /\ ((exists message phone_masked,
               sent.2
               = deposit_slip_endpoints.OtpSent message drid phone_masked)
            <-> forall exc,
                  tw <> OTPService.TwilioRestException exc
                  /\ tw <> OTPService.OtherException exc)
      else
        sent.1 = _otp_store
        /\ exists detail,
             sent.2 = deposit_slip_endpoints.HTTPException 400 detail
  | None =>
      sent = (_otp_store,
              deposit_slip_endpoints.HTTPException 404 "DRID not found")
  end.
Proof.
  intros sent. subst sent. unfold deposit_slip_endpoints.send_otp.
  destruct (DRIDService.get_deposit_slip_by_drid db drid) as [slip|]; [|done].
  destruct (decide (DigitalDepositSlip.status slip = VERIFIED)) as [Hst|Hst].
  2: { rewrite (bool_decide_eq_true_2
                  (DigitalDepositSlip.status slip <> VERIFIED)) by done.
       rewrite (bool_decide_eq_false_2
                  (DigitalDepositSlip.status slip = VERIFIED)) by done.
       simpl. split; [done | by eexists]. }
  rewrite (bool_decide_eq_false_2
             (DigitalDepositSlip.status slip <> VERIFIED))
    by (intros Hne; by apply Hne).
  rewrite (bool_decide_eq_true_2
             (DigitalDepositSlip.status slip = VERIFIED)) by done.
  destruct (deposit_slip_endpoints.phone_of slip =? "") eqn:Hphone; simpl.
  { split; [done | by eexists]. }
  unfold OTPService.send_otp.
  destruct tw; simpl; (split; [done|]).
  - split; [intros _ exc; by split | by eexists _, _].
  - split; [intros _ exc; by split | by eexists _, _].
  - split; [by intros (? & ? & [=]) |].
    intros Hsent. by destruct (Hsent exc) as [[] _].
  - split; [by intros (? & ? & [=]) |].
    intros Hsent. by destruct (Hsent exc) as [_ []].
Qed.

(** X30: a code sent through the endpoint is accepted through the endpoint.
    For a VERIFIED slip with a phone number, the five-character code stored
    by the sending endpoint is confirmed by the verifying endpoint, for the
    same DRID, up to and including the instant of its expiry.  (The route
    admits codes of five characters only.) *)
Theorem X30_otp_endpoints_round_trip (sent_at utcnow : datetime)
    (new_otp : string) (tw : OTPService.twilio)
    (_otp_store : gmap string OTPData.t) (db : Database) (drid : string)
    (slip : DigitalDepositSlip.t) :
  DRIDService.get_deposit_slip_by_drid db drid = Some slip ->
  DigitalDepositSlip.status slip = VERIFIED ->
  deposit_slip_endpoints.phone_of slip <> "" ->
  String.length new_otp = 5%nat ->
  (utcnow <= sent_at + minutes OTPService.OTP_EXPIRY_MINUTES)%Z ->
  let sent :=
    deposit_slip_endpoints.send_otp sent_at new_otp tw _otp_store db drid in
  (deposit_slip_endpoints.verify_otp utcnow sent.1 db drid new_otp).2
  = deposit_slip_endpoints.OtpChecked true "OTP verified successfully" drid
      true.
Proof.
  intros Hfound Hst Hphone _ Htime sent. subst sent.
  apply String.eqb_neq in Hphone.
  unfold deposit_slip_endpoints.send_otp, deposit_slip_endpoints.verify_otp.
  rewrite Hfound, Hst, Hphone.
  rewrite bool_decide_eq_false_2 by (intros Hne; by apply Hne).
  assert (forall answer : gmap string OTPData.t * (bool * string),
            (let '(_otp_store, (success, message)) := answer in
             if negb success
             then (_otp_store, deposit_slip_endpoints.HTTPException 500 message)
             else
               (_otp_store,
                deposit_slip_endpoints.OtpSent
                  ("OTP sent to depositor at "
                     ++ mask_last4 (deposit_slip_endpoints.phone_of slip))
                  drid (mask_last4 (deposit_slip_endpoints.phone_of slip)))).1
            = answer.1) as ->.
  { intros [store [[] message]]; done. }
  rewrite send_otp_store. unfold OTPService.verify_otp.
  rewrite lookup_insert_eq. simpl.
  destruct (Z.gtb_spec utcnow
              (sent_at + minutes OTPService.OTP_EXPIRY_MINUTES)); [lia|].
  simpl. by rewrite String.eqb_refl.
Qed.

End OtpEndpoints.

(** ** The added statements on the small instance *)

Section Examples.
Import DepositSlipStatus.
#[local] Existing Instance Demo.demo_platform.

(** Retrieving the INITIATED slip of the instance moves it along an edge;
    so does the completion of the VERIFIED slip that fails on the flush and
    leaves it PROCESSING. *)
Lemma X1_request_moves_along_edges_witness :
  (exists slip',
     deposit_slips
       (run (Retrieve (minutes 5) Demo.T1 "u-9")
          (SignatureService.initial, Demo.db_with INITIATED)).2 !! 0%nat
     = Some slip'
     /\ at_issue (Demo.slip INITIATED) slip' = Demo.slip INITIATED
     /\ edge (DigitalDepositSlip.status (Demo.slip INITIATED))
          (DigitalDepositSlip.status slip') = true)
  /\ (DRIDService.complete_deposit_slip Walkthrough.stuck_env
        SignatureService.initial (Demo.db_with VERIFIED) Demo.T1 "u-9" true
        None).2
     = Raised "This Session's transaction has been rolled back"
  /\ (exists slip',
        deposit_slips
          (run (Complete Walkthrough.stuck_env Demo.T1 "u-9" true None)
             (SignatureService.initial, Demo.db_with VERIFIED)).2 !! 0%nat
        = Some slip'
        /\ DigitalDepositSlip.status slip' = PROCESSING
        /\ at_issue (Demo.slip VERIFIED) slip' = Demo.slip VERIFIED
        /\ edge VERIFIED (DigitalDepositSlip.status slip') = true).
Proof.
  split; [|split; [by vm_compute|]].
  - exact (X1_request_moves_along_edges (Retrieve (minutes 5) Demo.T1 "u-9")
             SignatureService.initial (Demo.db_with INITIATED) 0
             (Demo.slip INITIATED) eq_refl).
  - destruct (X1_request_moves_along_edges
                (Complete Walkthrough.stuck_env Demo.T1 "u-9" true None)
                SignatureService.initial (Demo.db_with VERIFIED) 0
                (Demo.slip VERIFIED) eq_refl)
      as (slip' & Hrow & Hissue & Hedge).
    exists slip'. split; [done|]. split; [|by split].
    assert (deposit_slips
              (run (Complete Walkthrough.stuck_env Demo.T1 "u-9" true None)
                 (SignatureService.initial, Demo.db_with VERIFIED)).2
            = [Demo.slip PROCESSING]) as Hrows by (by vm_compute).
    rewrite Hrows in Hrow. by injection Hrow as <-.
Defined.

(** The walk leaves a COMPLETED slip as it is. *)
Lemma X2_completed_expired_final_witness :
  exists slip',
    deposit_slips
      (run_all Walkthrough.requests
         (SignatureService.initial, Demo.db_with COMPLETED)).2 !! 0%nat
    = Some slip'
    /\ DigitalDepositSlip.status slip' = COMPLETED
    /\ DigitalDepositSlip.transaction_id slip' = None
    /\ at_issue (Demo.slip COMPLETED) slip' = Demo.slip COMPLETED.
Proof.
  exact (X2_completed_expired_final Walkthrough.requests
           (SignatureService.initial, Demo.db_with COMPLETED) 0
           (Demo.slip COMPLETED) eq_refl (list_elem_of_here _ _)).
Defined.

(** After the walk every slip is linked exactly when it is COMPLETED. *)
Lemma X3_link_invariant_witness :
  Forall
    (linked
       (run_all Walkthrough.requests
          (SignatureService.initial, Demo.db_with INITIATED)).2)
    (deposit_slips
       (run_all Walkthrough.requests
          (SignatureService.initial, Demo.db_with INITIATED)).2).
Proof.
  apply (X3_link_invariant Walkthrough.requests
           (SignatureService.initial, Demo.db_with INITIATED)).
  by repeat constructor.
Defined.

(** Two slips are issued beside the stored one, the second on a draw that
    is taken and then on one that is not: the three DRIDs differ. *)
Lemma X4_drids_stay_unique_witness :
  (DigitalDepositSlip.drid
     <$> deposit_slips
           (run_all Walkthrough.reissue
              (SignatureService.initial, Demo.db_with CANCELLED)).2)
  = ["DRID-19700101-T1"; "DRID-0-A1B2C3"; "DRID-0-D4E5F6"]
  /\ NoDup
       (DigitalDepositSlip.drid
          <$> deposit_slips
                (run_all Walkthrough.reissue
                   (SignatureService.initial, Demo.db_with CANCELLED)).2).
Proof.
  split; [by vm_compute|].
  apply (X4_drids_stay_unique Walkthrough.reissue
           (SignatureService.initial, Demo.db_with CANCELLED)).
  apply NoDup_singleton.
Defined.

(** The INITIATED slip is retrieved at minute 5. *)
Lemma X6_retrieve_succeeds_iff_witness :
  exists slip',
    (DRIDService.retrieve_deposit_slip (minutes 5) (Demo.db_with INITIATED)
       Demo.T1 "u-9").2
    = Returned (Some slip', None).
Proof.
  apply (X6_retrieve_succeeds_iff (minutes 5) (Demo.db_with INITIATED)
           Demo.T1 "u-9" (Demo.slip INITIATED) eq_refl).
  left. split; [done | by vm_compute].
Defined.

(** The teller and the minute of the retrieval are on the slip returned. *)
Lemma X7_retrieve_records_first_teller_witness :
  let slip' :=
    DigitalDepositSlip.set_retrieved_by (Some "u-9")
      (DigitalDepositSlip.set_retrieved_at (Some (minutes 5))
         (DigitalDepositSlip.set_status RETRIEVED
            (touched (minutes 5) (Demo.slip INITIATED)))) in
  (DRIDService.retrieve_deposit_slip (minutes 5) (Demo.db_with INITIATED)
     Demo.T1 "u-9").2
  = Returned (Some slip', None)
  /\ DigitalDepositSlip.status slip' = RETRIEVED
  /\ DigitalDepositSlip.retrieved_by slip' = Some "u-9"
  /\ DigitalDepositSlip.retrieved_at slip' = Some (minutes 5).
Proof.
  intros slip'.
  assert ((DRIDService.retrieve_deposit_slip (minutes 5)
             (Demo.db_with INITIATED) Demo.T1 "u-9").2
          = Returned (Some slip', None)) as Hretrieved by (by vm_compute).
  split; [exact Hretrieved|].
  by apply (X7_retrieve_records_first_teller (minutes 5)
              (Demo.db_with INITIATED) Demo.T1 "u-9" (Demo.slip INITIATED)
              slip' eq_refl Hretrieved).
Defined.

(** The slip settled at minute 30 is not settled again at minute 31. *)
Lemma X8_complete_at_most_once_witness :
  DRIDService.complete_deposit_slip Walkthrough.late_env
    Walkthrough.settled.1.1 Walkthrough.settled.1.2 Demo.T1 "u-10" true None
  = (Walkthrough.settled.1.1, Walkthrough.settled.1.2,
     Returned
       (None, None, Some "Cannot complete: current status is COMPLETED")).
Proof.
  let answer := eval vm_compute in Walkthrough.settled.2 in
  match answer with
  | Returned (Some ?slip', ?posted, ?error) =>
      apply (X8_complete_at_most_once (Demo.complete_env Demo.keys None)
               Walkthrough.late_env SignatureService.initial
               Walkthrough.settled.1.1 (Demo.db_with VERIFIED)
               Walkthrough.settled.1.2 Demo.T1 "u-9" "u-10" true true None
               None slip' posted error)
  end.
  by vm_compute.
Defined.

(** A minute after expiry, the RETRIEVED slip is not verified and the
    VERIFIED slip is not completed, with nothing confirmed at all; and the
    slip so expired is not verified at minute 10 either. *)
Lemma X9_expiry_before_confirmations_witness :
  (DRIDService.verify_deposit_slip (minutes 61) (Demo.db_with RETRIEVED)
     Demo.T1 "u-9" false false None None).2
  = (None, Some "DRID has expired")
  /\ (DRIDService.complete_deposit_slip Walkthrough.late_env
        SignatureService.initial (Demo.db_with VERIFIED) Demo.T1 "u-9" false
        None).2
     = Returned (None, None, Some "DRID has expired")
  /\ (DRIDService.verify_deposit_slip (minutes 10)
        (DRIDService.verify_deposit_slip (minutes 61)
           (Demo.db_with RETRIEVED) Demo.T1 "u-9" false false None None).1
        Demo.T1 "u-9" true true None None).2
     = (None, Some "Cannot verify: current status is EXPIRED").
Proof.
  destruct (X9_expiry_before_confirmations (minutes 61)
              (Demo.db_with RETRIEVED) Demo.T1 "u-9" false false None None
              Walkthrough.late_env SignatureService.initial false
              (Demo.slip RETRIEVED) eq_refl)
    as (_ & _ & _ & Hverify & _ & Hagain & _).
  destruct (X9_expiry_before_confirmations (minutes 61)
              (Demo.db_with VERIFIED) Demo.T1 "u-9" false false None None
              Walkthrough.late_env SignatureService.initial false
              (Demo.slip VERIFIED) eq_refl)
    as (_ & _ & _ & _ & Hcomplete & _).
  split; [by rewrite Hverify|]. split; [by rewrite Hcomplete|].
  rewrite Hverify by done. cbn [fst]. by rewrite Hagain.
Defined.

Lemma demo_signature_not_empty (data : string) :
  @b64encode Demo.demo_platform (@rsa_sign Demo.demo_platform 7 data) <> "".
Proof. done. Qed.

(** The receipt of the slip settled at minute 30 verifies as authentic. *)
Lemma X10_completion_receipt_authentic_witness :
  exists sig' db' slip' transaction receipt,
    DRIDService.complete_deposit_slip (Demo.complete_env Demo.keys None)
      SignatureService.initial (Demo.db_with VERIFIED) Demo.T1 "u-9" true None
    = (sig', db', Returned (Some slip', Some transaction, None))
    /\ receipts db' = (receipts (Demo.db_with VERIFIED) ++ [receipt])%list
    /\ Receipt.is_signature_valid receipt = true
    /\ ReceiptService.verify_receipt_signature Demo.no_keys sig' db'
         (Receipt.receipt_number receipt)
       = (sig', db', (true, SignatureService.msg_authentic, Some receipt)).
Proof.
  apply (@X10_completion_receipt_authentic Demo.demo_platform 7 7
           (Demo.complete_env Demo.keys None) SignatureService.initial
           (Demo.db_with VERIFIED) Demo.T1 "u-9" None (Demo.slip VERIFIED)
           Demo.no_keys demo_key_pair demo_b64_round_trip
           demo_signature_not_empty demo_ready eq_refl eq_refl).
  all: by vm_compute.
Defined.

(** The amount stored for the settled slip is raised by a paisa: the
    receipt no longer verifies. *)
Lemma X11_altered_amount_detected_witness :
  (ReceiptService.verify_receipt_signature Demo.keys Walkthrough.settled.1.1
     (Demo.tamper_amount "50000.01" Walkthrough.settled.1.2)
     "RCP-1800000000-R0000001").2.1
  = (false, SignatureService.msg_tampered).
Proof.
  let found :=
    eval vm_compute in
      (first (ReceiptService.by_receipt_number "RCP-1800000000-R0000001")
         (receipts (Demo.tamper_amount "50000.01" Walkthrough.settled.1.2))) in
  match found with
  | Some ?r => pose (receipt := r)
  end.
  let found :=
    eval vm_compute in
      (first (fun t => Transaction.id t =? Receipt.transaction_id receipt)
         (transactions
            (Demo.tamper_amount "50000.01" Walkthrough.settled.1.2))) in
  match found with
  | Some ?t => pose (transaction := t)
  end.
  destruct (@X11_altered_amount_detected Demo.demo_platform 7 7 Demo.keys
              Walkthrough.settled.1.1
              (Demo.tamper_amount "50000.01" Walkthrough.settled.1.2)
              "RCP-1800000000-R0000001" receipt transaction (minutes 30)
              "50000.00" demo_key_pair demo_b64_round_trip
              demo_signature_not_empty)
    as [Hverdict _];
    [left; by vm_compute | by vm_compute.. | by rewrite Hverdict].
Defined.

(** A slip issued at the epoch with no validity asked for expires after an
    hour and has 3600 seconds left at issue. *)
Lemma X12_issued_slip_validity_witness :
  match Demo.issued with
  | Some (db', slip) =>
      DigitalDepositSlip.status slip = INITIATED
      /\ DigitalDepositSlip.expires_at slip = minutes 60
      /\ time_remaining_seconds
           (DRIDService.validate_drid 0 db' (DigitalDepositSlip.drid slip)).2
         = Some 3600%Z
  | None => False
  end.
Proof.
  destruct Demo.issued as [[db' slip]|] eqn:Hissued;
    [|by vm_compute in Hissued].
  unfold Demo.issued, Demo.issue in Hissued.
  destruct (DRIDService.create_deposit_slip _ _ _ _ _ _ _ _ _ _ _ _ _ _ _ _ _)
    as [[db1 [[[slip1|] [error|]]|exc]]|] eqn:Hissue; try done.
  injection Hissued as -> ->.
  destruct (X12_issued_slip_validity _ _ _ _ _ _ _ _ _ _ _ _ _ _ _ _ _ _ _
              Hissue) as (Hst & Hexp & _ & Hleft).
  split; [done|]. split; [done|]. by apply Hleft.
Defined.

(** The slip that expired a minute ago is reported valid once swept. *)
Lemma X14_swept_slip_validates_witness :
  (DRIDService.validate_drid (minutes 61) (Demo.db_with INITIATED) Demo.T1).2
  = Build_DRIDValidationResult false true false false "EXPIRED"
      "DRID has expired" (Some 0%Z)
  /\ first (DRIDService.by_drid Demo.T1)
       (deposit_slips
          (DRIDSweep.expire_old_slips (minutes 61) (Demo.db_with INITIATED)).1)
     = Some (DigitalDepositSlip.set_status EXPIRED (Demo.slip INITIATED))
  /\ (DRIDService.validate_drid (minutes 61)
        (DRIDSweep.expire_old_slips (minutes 61) (Demo.db_with INITIATED)).1
        Demo.T1).2
     = Build_DRIDValidationResult true false false false "EXPIRED"
         "DRID is valid" (Some 0%Z).
Proof.
  exact (X14_swept_slip_validates (minutes 61) (Demo.db_with INITIATED)
           Demo.T1 (Demo.slip INITIATED) eq_refl eq_refl eq_refl).
Defined.

(** The VERIFIED slip is in the customer's list of active slips, and a new
    slip on its account is refused. *)
Lemma X15_active_slips_block_issue_witness :
  exists drid,
    Demo.issue (minutes 10) (Demo.db_with VERIFIED)
    = Some (Demo.db_with VERIFIED,
            Returned (None, Some ("EXISTING_SLIP:" ++ drid))).
Proof.
  apply (X15_active_slips_block_issue (Demo.issue_env (minutes 10))
           (Demo.db_with VERIFIED) "CASH_DEPOSIT" "42101-1234567-1" "A-001"
           "100.00" "PKR" None None None None (Some "SELF") "WEB" None None
           None None Demo.customer Demo.account eq_refl eq_refl eq_refl).
  exists (Demo.slip VERIFIED). split; [|done].
  by apply list_elem_of_singleton.
Defined.

(** With the keys loaded, the calls of the walk change nothing, and signing
    and verifying do not look at the files. *)
Lemma X17_keys_loaded_once_witness :
  let cls := SignatureService.Build_state (Some 7) (Some 7) true in
  signature_run_all Walkthrough.signature_calls cls = cls
  /\ SignatureService.sign_receipt Demo.keys (minutes 30) cls
       Demo.receipt_data
     = SignatureService.sign_receipt Demo.no_keys (minutes 30) cls
         Demo.receipt_data
  /\ SignatureService.verify_signature Demo.keys cls Demo.receipt_data "" ""
     = SignatureService.verify_signature Demo.no_keys cls Demo.receipt_data
         "" "".
Proof.
  exact (X17_keys_loaded_once Walkthrough.signature_calls
           (SignatureService.Build_state (Some 7) (Some 7) true) Demo.keys
           Demo.no_keys (minutes 30) Demo.receipt_data "" "" eq_refl).
Defined.

(** A receipt with an amount and one without have different payloads. *)
Lemma X19_payload_faithful_witness :
  SignatureService._create_signing_payload ∅
  <> SignatureService._create_signing_payload (<["amount" := "50001"]> ∅).
Proof.
  intros Hsame.
  assert (forall key default,
            (key, default) ∈ signed_fields ->
            has_char "|" (dict_get ∅ key default) = false
            /\ has_char "|" (dict_get (<["amount" := "50001"]> ∅) key default)
               = false) as Hfree.
  { intros key default Hkey. unfold signed_fields in Hkey.
    repeat (apply elem_of_cons in Hkey as [[= -> ->] | Hkey]);
      [by split.. | by apply elem_of_nil in Hkey]. }
  apply (proj1 (X19_payload_faithful ∅ (<["amount" := "50001"]> ∅) Hfree))
    with (key := "amount") (default := "") in Hsame.
  - done.
  - by do 2 apply list_elem_of_further; apply list_elem_of_here.
Defined.

(** A signature made for the customer [Ayesha Khan|customer_account:A-001]
    on account [A-002] is authentic for the customer [Ayesha Khan] on account
    [A-001|customer_account:A-002]. *)
Lemma X20_payload_delimiter_witness :
  SignatureService._create_signing_payload
    (<["customer_name" := "Ayesha Khan|customer_account:A-001"]>
       (<["customer_account" := "A-002"]> Demo.receipt_data))
  = SignatureService._create_signing_payload
      (<["customer_name" := "Ayesha Khan"]>
         (<["customer_account" := "A-001|customer_account:A-002"]>
            Demo.receipt_data))
  /\ exists cls' signature_b64 payload_hash ts,
       SignatureService.sign_receipt Demo.keys (minutes 30)
         SignatureService.initial
         (<["customer_name" := "Ayesha Khan|customer_account:A-001"]>
            (<["customer_account" := "A-002"]> Demo.receipt_data))
       = (cls', (Some signature_b64, Some payload_hash, Some ts))
       /\ (SignatureService.verify_signature Demo.keys cls'
             (<["customer_name" := "Ayesha Khan"]>
                (<["customer_account" := "A-001|customer_account:A-002"]>
                   Demo.receipt_data)) signature_b64 ts).2
          = (true, SignatureService.msg_authentic).
Proof.
  exact (proj2 (@X20_payload_delimiter Demo.demo_platform 7 7 Demo.keys
                  SignatureService.initial (minutes 30) Demo.receipt_data
                  "Ayesha Khan" "A-001" "A-002" demo_key_pair
                  demo_b64_round_trip demo_ready)).
Defined.

(** Asked twice for the receipt of the settled transaction, the service
    answers twice the same and stores nothing the second time. *)
Lemma X21_one_receipt_per_transaction_witness :
  let once :=
    ReceiptLookup.get_or_create_receipt (Demo.receipt_env Demo.keys None)
      Walkthrough.settled.1.1 Walkthrough.settled.1.2 "t-1" in
  ReceiptLookup.get_or_create_receipt (Demo.receipt_env Demo.no_keys None)
    once.1.1 once.1.2 "t-1"
  = once.
Proof.
  intros once.
  let answer := eval vm_compute in once in
  match answer with
  | (?s, ?d, Returned (Some ?r, None)) =>
      pose (sig' := s); pose (db' := d); pose (receipt := r)
  end.
  assert (once = (sig', db', Returned (Some receipt, None))) as Honce
    by (by vm_compute).
  rewrite Honce.
  by apply (X21_one_receipt_per_transaction _ _ _ _ _ _ _ _ Honce).
Defined.

(** The link on the receipt of the transaction of the walk. *)
Lemma X23_receipt_link_witness :
  (String.length
     (QRService.generate_verification_hash "RCP-1800000000-R0000001"
        "TXN-1800000000-T0000001" "50000.00" "Ayesha Khan" (minutes 30))
   <= 16)%nat
  /\ QRVerify.verify_receipt_hash "RCP-1800000000-R0000001"
       "TXN-1800000000-T0000001" "50000.00" "Ayesha Khan" (minutes 30)
       (QRService.generate_verification_hash "RCP-1800000000-R0000001"
          "TXN-1800000000-T0000001" "50000.00" "Ayesha Khan" (minutes 30))
     = true.
Proof.
  pose (created :=
          ReceiptService.create_receipt (Demo.receipt_env Demo.keys None)
            SignatureService.initial Demo.empty_db Walkthrough.transaction
            "DIGITAL").
  let made := eval vm_compute in created.2 in
  match made with
  | Returned ?r => pose (receipt := r)
  end.
  destruct (X23_receipt_link (Demo.receipt_env Demo.keys None)
              SignatureService.initial created.1.1 Demo.empty_db created.1.2
              Walkthrough.transaction "DIGITAL" receipt)
    as (_ & Hlength & Hhash & _); [by vm_compute|].
  split; [exact Hlength | exact Hhash].
Defined.

(** A code whose message could not be sent is accepted a minute later, and
    any code is after that. *)
Lemma X24_otp_accepted_once_and_for_good_witness :
  let sent :=
    (OTPService.send_otp 0 "12345"
       (OTPService.TwilioRestException "unreachable") ∅ "03001234567"
       Demo.T1).1 in
  let checked :=
    OTPService.verify_otp (minutes 1) sent "03001234567" Demo.T1 "12345" in
  checked.2 = (true, "OTP verified successfully")
  /\ OTPService.verify_otp (minutes 90) checked.1 "03001234567" Demo.T1
       "00000"
     = (checked.1, (true, "OTP already verified")).
Proof.
  apply (X24_otp_accepted_once_and_for_good 0 (minutes 1) (minutes 90)
           "12345" "00000" (OTPService.TwilioRestException "unreachable") ∅
           "03001234567" Demo.T1).
  by vm_compute.
Defined.

(** Three wrong codes, then the right one: refused. *)
Lemma X25_otp_three_attempts_witness :
  let sent :=
    (OTPService.send_otp 0 "12345" OTPService.Sent ∅ "03001234567"
       Demo.T1).1 in
  let first_try :=
    OTPService.verify_otp (minutes 1) sent "03001234567" Demo.T1 "00000" in
  let second_try :=
    OTPService.verify_otp (minutes 1) first_try.1 "03001234567" Demo.T1
      "11111" in
  let third_try :=
    OTPService.verify_otp (minutes 2) second_try.1 "03001234567" Demo.T1
      "22222" in
  (OTPService.verify_otp (minutes 2) third_try.1 "03001234567" Demo.T1
     "12345").2
  = (false, "Maximum attempts exceeded. Please request a new OTP.").
Proof.
  by destruct (X25_otp_three_attempts 0 (minutes 1) (minutes 1) (minutes 2)
                 (minutes 2) (minutes 3) "12345" "00000" "11111" "22222"
                 "12345" OTPService.Sent ∅ "03001234567" Demo.T1)
    as (_ & _ & _ & Hfourth & _).
Defined.

(** The number of the customer of the instance, national and on WhatsApp;
    a blank before it and a no-break space after it are trimmed, and a
    no-break space inside it is not. *)
Lemma X27_phone_spellings_witness :
  OTPService._normalize_phone "03001234567" = "+923001234567"
  /\ OTPService._normalize_phone "whatsapp:+923001234567" = "+923001234567"
  /\ OTPService._normalize_phone (" 03001234567" ++ nbsp) = "+923001234567"
  /\ rstrip ("300" ++ nbsp) = "300"
  /\ OTPService._normalize_phone ("0300" ++ nbsp ++ "1234567")
     = "+92300" ++ nbsp ++ "1234567".
Proof.
  destruct (X27_phone_spellings "3001234567" eq_refl)
    as (_ & Hnational & _ & _ & Hwhatsapp & _).
  split; [done|]. split; [done|]. by vm_compute.
Defined.

(** The DRID of the VERIFIED slip of the instance comes back out of the
    error that refuses a second slip on its account. *)
Lemma X28_existing_drid_witness :
  exists existing,
    existing ∈ deposit_slips (Demo.db_with VERIFIED)
    /\ DRIDService.is_active_for (minutes 10) "42101-1234567-1" "A-001"
         existing = true
    /\ whatsapp_adapter.existing_drid ("EXISTING_SLIP:" ++ Demo.T1)
       = Some (DigitalDepositSlip.drid existing)
    /\ is_Some
         (DRIDService.get_deposit_slip_by_drid (Demo.db_with VERIFIED)
            (DigitalDepositSlip.drid existing)).
Proof.
  refine (proj1 (X28_existing_drid (Demo.issue_env (minutes 10))
                   (Demo.db_with VERIFIED) (Demo.db_with VERIFIED)
                   "CASH_DEPOSIT" "42101-1234567-1" "A-001" "100.00" "PKR"
                   None None None None (Some "SELF") "WEB" None None None
                   None ("EXISTING_SLIP:" ++ Demo.T1) _ _ _)).
  - by repeat constructor.
  - by vm_compute.
  - by vm_compute.
Defined.

(** The code sent for the VERIFIED slip is confirmed four minutes later. *)
Lemma X30_otp_endpoints_round_trip_witness :
  (deposit_slip_endpoints.verify_otp (minutes 4)
     (deposit_slip_endpoints.send_otp 0 "12345" OTPService.NotConfigured ∅
        (Demo.db_with VERIFIED) Demo.T1).1
     (Demo.db_with VERIFIED) Demo.T1 "12345").2
  = deposit_slip_endpoints.OtpChecked true "OTP verified successfully"
      Demo.T1 true.
Proof.
  apply (X30_otp_endpoints_round_trip 0 (minutes 4) "12345"
           OTPService.NotConfigured ∅ (Demo.db_with VERIFIED) Demo.T1
           (Demo.slip VERIFIED)); by vm_compute.
Defined.

End Examples.
